(** * ChromaCore: the colour-pattern finder of [vision::ColorPatternFinder]

    A shallow embedding of [src/chroma-core/ChromaCore.h]: the hue/saturation/
    value mask builder, the configuration validator and the detection pipeline
    of [Find], with the properties of the specification proved about them.

    Conventions.
    - C++ [int] values are [Z]; where the source computes on them the 32-bit
      wrap-around is written with [to_int].
    - C++ [float] and [double] are IEEE 754 binary32 and binary64 values of
      [SpecFloat.spec_float]; every operation rounds once, to nearest even, in
      the type of its expression (no fused or extended-precision evaluation).
    - A [cv::Mat] is its dimensions and its pixel function; the OpenCV
      primitives that work pixel by pixel are written out, the geometric ones
      ([findContours], [contourArea], [circle] rasterisation, ...) are the
      fields of the class [Externals].
    - The debug images of [ColorPatternRunResult] and [DebugDrawConfig] only
      feed drawing calls and are left out. *)

From Stdlib Require Import ZArith List Bool Lia String SpecFloat Sorted Permutation.
Import ListNotations.
Local Open Scope Z_scope.

(* ================================================================== *)
(** * Machine integers *)

Definition INT_MIN : Z := - 2 ^ 31.
Definition INT_MAX : Z := 2 ^ 31 - 1.

(** Conversion of an integer to [int]: reduction modulo 2^32 into
    [INT_MIN .. INT_MAX]. *)
Definition to_int (z : Z) : Z := (z + 2 ^ 31) mod 2 ^ 32 - 2 ^ 31.

(** [std::clamp(v, lo, hi)]. *)
Definition std_clamp (v lo hi : Z) : Z :=
  if v <? lo then lo else if hi <? v then hi else v.

(* ================================================================== *)
(** * IEEE 754 values *)

Module IEEE.

Definition is_nan (x : spec_float) : bool :=
  match x with S754_nan => true | _ => false end.

Definition is_finite (x : spec_float) : bool :=
  match x with S754_zero _ | S754_finite _ _ _ => true | _ => false end.

Definition is_zero (x : spec_float) : bool :=
  match x with S754_zero _ => true | _ => false end.

Definition is_inf (x : spec_float) : bool :=
  match x with S754_infinity _ => true | _ => false end.

Definition SFsign (x : spec_float) : bool :=
  match x with
  | S754_zero s | S754_infinity s | S754_finite s _ _ => s
  | S754_nan => false
  end.

(** [x] is a number (not NaN) whose sign bit is [s]. *)
Definition has_sign (s : bool) (x : spec_float) : Prop :=
  match x with
  | S754_zero s' | S754_infinity s' | S754_finite s' _ _ => s' = s
  | S754_nan => False
  end.

(** Rounding of a finite value to the nearest integer, halfway cases away
    from zero ([std::lround] before the conversion to [long]). *)
Definition round_half_away (x : spec_float) : option Z :=
  match x with
  | S754_zero _ => Some 0
  | S754_finite s m e =>
      let mag := if 0 <=? e then Zpos m * 2 ^ e
                 else (Zpos m + 2 ^ (- e - 1)) / 2 ^ (- e) in
      Some (if s then - mag else mag)
  | _ => None
  end.

End IEEE.

(** binary32, the C++ [float]. *)
Module F32.

Definition prec : Z := 24.
Definition emax : Z := 128.

Definition add := SFadd prec emax.
Definition mul := SFmul prec emax.
Definition div := SFdiv prec emax.

(** [a < b], [a <= b], [a > b], [a >= b] and [a == b] on floats. *)
Definition lt (a b : spec_float) : bool := SFltb a b.
Definition le (a b : spec_float) : bool := SFleb a b.
Definition gt (a b : spec_float) : bool := SFltb b a.
Definition ge (a b : spec_float) : bool := SFleb b a.
Definition eq (a b : spec_float) : bool := SFeqb a b.

(** [static_cast<float>(n)] for an [int] n. *)
Definition of_int (n : Z) : spec_float := binary_normalize prec emax n 0 false.

(** [static_cast<float>(d)] for a [double] d. *)
Definition of_double (d : spec_float) : spec_float :=
  match d with
  | S754_finite s m e => binary_round prec emax s m e
  | _ => d
  end.

Definition zero : spec_float := S754_zero false.            (* 0.0F *)
Definition one : spec_float := S754_finite false 8388608 (-23).   (* 1.0F *)
Definition c100 : spec_float := S754_finite false 13107200 (-17). (* 100.0F *)
Definition c0_55 : spec_float := S754_finite false 9227469 (-24).   (* 0.55F *)
Definition c0_45 : spec_float := S754_finite false 15099494 (-25).  (* 0.45F *)
Definition c0_60 : spec_float := S754_finite false 10066330 (-24).  (* 0.60F *)
Definition c0_40 : spec_float := S754_finite false 13421773 (-25).  (* 0.40F *)
(** [static_cast<float>(CV_PI)]. *)
Definition CV_PI_F : spec_float := S754_finite false 13176795 (-22).

(** [std::max(a, b)] on floats: [(a < b) ? b : a]. *)
Definition max (a b : spec_float) : spec_float := if lt a b then b else a.

(** The closed unit interval, in float comparisons. *)
Definition in_unit (x : spec_float) : bool := le zero x && le x one.

End F32.

(** binary64, the C++ [double]. *)
Module F64.

Definition prec : Z := 53.
Definition emax : Z := 1024.

Definition mul := SFmul prec emax.
Definition div := SFdiv prec emax.

(** Promotion of a [float] to [double]. *)
Definition of_float (x : spec_float) : spec_float :=
  match x with
  | S754_finite s m e => binary_round prec emax s m e
  | _ => x
  end.

Definition c4 : spec_float := S754_finite false 4503599627370496 (-50).  (* 4.0 *)
(** [CV_PI], 3.1415926535897932384626433832795 as a double. *)
Definition CV_PI : spec_float := S754_finite false 7074237752028440 (-51).

End F64.

(* ================================================================== *)
(** * OpenCV data and pixelwise primitives *)

Definition Point : Type := (Z * Z)%type.          (* cv::Point: (x, y) *)
Definition Point2f : Type := (spec_float * spec_float)%type.
Definition Contour : Type := list Point.          (* std::vector<cv::Point> *)
Definition Vec3b : Type := (Z * Z * Z)%type.
Definition Vec4b : Type := (Z * Z * Z * Z)%type.

Record Rect := { rect_x : Z; rect_y : Z; rect_width : Z; rect_height : Z }.

(** A matrix: [px m y x] is the element at row [y] and column [x]. *)
Record Mat (A : Type) := { rows : Z; cols : Z; px : Z -> Z -> A }.
Arguments rows {A} _.
Arguments cols {A} _.
Arguments px {A} _ _ _.

(** [cv::Mat::empty()]. *)
Definition Mat_empty {A} (m : Mat A) : bool := (rows m <=? 0) || (cols m <=? 0).

(** A default-constructed [cv::Mat] of 8-bit elements. *)
Definition Mat_default : Mat Z := {| rows := 0; cols := 0; px := fun _ _ => 0 |}.

(** [m.clone()] and other per-pixel conversions keep the dimensions. *)
Definition Mat_map {A B} (f : A -> B) (m : Mat A) : Mat B :=
  {| rows := rows m; cols := cols m; px := fun y x => f (px m y x) |}.

Definition Zrange (n : Z) : list Z := map Z.of_nat (seq 0 (Z.to_nat n)).

(** The pixel positions [(y, x)] of a matrix, row by row. *)
Definition Mat_coords {A} (m : Mat A) : list (Z * Z) :=
  flat_map (fun y => map (fun x => (y, x)) (Zrange (cols m))) (Zrange (rows m)).

(** [cv::Mat::zeros(rows, cols, CV_8U)]. *)
Definition cv_zeros (r c : Z) : Mat Z := {| rows := r; cols := c; px := fun _ _ => 0 |}.

(** [cv::inRange] on a 3-channel 8-bit image with scalar bounds: 255 where
    every channel lies between its bounds (inclusive), 0 elsewhere. *)
Definition cv_inRange (src : Mat Vec3b) (lowerb upperb : Z * Z * Z) : Mat Z :=
  let '(l0, l1, l2) := lowerb in
  let '(u0, u1, u2) := upperb in
  {| rows := rows src; cols := cols src;
     px := fun y x =>
       let '(c0, c1, c2) := px src y x in
       if (l0 <=? c0) && (c0 <=? u0) && (l1 <=? c1) && (c1 <=? u1)
          && (l2 <=? c2) && (c2 <=? u2)
       then 255 else 0 |}.

Definition cv_bitwise_or (a b : Mat Z) : Mat Z :=
  {| rows := rows a; cols := cols a; px := fun y x => Z.lor (px a y x) (px b y x) |}.

Definition cv_bitwise_and (a b : Mat Z) : Mat Z :=
  {| rows := rows a; cols := cols a; px := fun y x => Z.land (px a y x) (px b y x) |}.

Definition cv_bitwise_xor (a b : Mat Z) : Mat Z :=
  {| rows := rows a; cols := cols a; px := fun y x => Z.lxor (px a y x) (px b y x) |}.

(** The number of non-zero elements, before its conversion to [int]. *)
Definition Mat_nonzero_count (m : Mat Z) : Z :=
  Z.of_nat (List.length (filter (fun p => negb (px m (fst p) (snd p) =? 0)) (Mat_coords m))).

(** [cv::countNonZero]. *)
Definition cv_countNonZero (m : Mat Z) : Z := to_int (Mat_nonzero_count m).

Inductive MorphTypes := MORPH_OPEN | MORPH_CLOSE | MORPH_DILATE.

(** The library primitives that are not pixelwise.  Nothing is assumed of
    them here; the theorems that need one of their documented properties
    state it as a hypothesis. *)
Class Externals := {
  (** [cv::cvtColor(_, _, cv::COLOR_BGR2HSV)] on one 8-bit pixel. *)
  cvtColor_BGR2HSV_px : Vec3b -> Vec3b;
  (** The value at [(y, x)] of [cv::morphologyEx] / [cv::dilate] with the 3x3
      elliptic kernel, anchor [(-1, -1)] and the given iteration count. *)
  morphology_px : MorphTypes -> Z -> Mat Z -> Z -> Z -> Z;
  (** [cv::findContours(_, _, cv::RETR_EXTERNAL, cv::CHAIN_APPROX_SIMPLE)]. *)
  findContours : Mat Z -> list Contour;
  contourArea : Contour -> spec_float;             (* a double *)
  (** [cv::arcLength(_, true)]. *)
  arcLength : Contour -> spec_float;               (* a double *)
  (** [cv::minEnclosingCircle]: centre and radius, floats. *)
  minEnclosingCircle : Contour -> Point2f * spec_float;
  boundingRect : Contour -> Rect;
  (** Whether the filled circle [cv::circle(_, center, radius, _, cv::FILLED)]
      paints the pixel in column [x] and row [y]. *)
  circle_covers : Point -> Z -> Z -> Z -> bool;
  (** What [static_cast<int>(std::lround(v))] yields when [v] is NaN, infinite
      or rounds outside the range of [int] (platform dependent). *)
  lround_out_of_range : spec_float -> Z
}.

Section ExternalPrimitives.
Context {ext : Externals}.

(** [static_cast<int>(std::lround(v))]. *)
Definition lround_int (v : spec_float) : Z :=
  match IEEE.round_half_away v with
  | Some z => if (INT_MIN <=? z) && (z <=? INT_MAX) then z
              else to_int (lround_out_of_range v)
  | None => to_int (lround_out_of_range v)
  end.

Definition cv_cvtColor_BGR2HSV (src : Mat Vec3b) : Mat Vec3b :=
  Mat_map cvtColor_BGR2HSV_px src.

(** [cv::morphologyEx(mask, mask, op, k3, cv::Point(-1, -1), iterations)]. *)
Definition cv_morphologyEx (src : Mat Z) (op : MorphTypes) (iterations : Z) : Mat Z :=
  {| rows := rows src; cols := cols src; px := morphology_px op iterations src |}.

(** [cv::dilate(mask, mask, k3, cv::Point(-1, -1), iterations)]. *)
Definition cv_dilate (src : Mat Z) (iterations : Z) : Mat Z :=
  {| rows := rows src; cols := cols src; px := morphology_px MORPH_DILATE iterations src |}.

(** [cv::circle(img, center, radius, cv::Scalar(color), cv::FILLED)]. *)
Definition cv_circle (img : Mat Z) (center : Point) (radius : Z) (color : Z) : Mat Z :=
  {| rows := rows img; cols := cols img;
     px := fun y x => if circle_covers center radius x y then color else px img y x |}.

End ExternalPrimitives.

(* ================================================================== *)
(** * The source: namespace [vision] *)

Module vision.

Record HueRange := { minHue : Z; maxHue : Z }.              (* 0..179 *)
Record ChannelRange := { minValue : Z; maxValue : Z }.

(** ** [class HueRangeSet] *)

Record HueRangeSet := { ranges_ : list HueRange }.

Definition ClampHue (h : Z) : Z :=
  if h <? 0 then 0 else if h >? 179 then 179 else h.

Definition HueRangeSet_default : HueRangeSet := {| ranges_ := [] |}.

Definition Add (self : HueRangeSet) (range : HueRange) : HueRangeSet :=
  let range := {| minHue := ClampHue (minHue range); maxHue := maxHue range |} in
  let range := {| minHue := minHue range; maxHue := ClampHue (maxHue range) |} in
  {| ranges_ := ranges_ self ++ [range] |}.

(** The constructors from an initializer list or a vector. *)
Definition HueRangeSet_of (ranges : list HueRange) : HueRangeSet :=
  fold_left Add ranges HueRangeSet_default.

Definition Clear (self : HueRangeSet) : HueRangeSet := {| ranges_ := [] |}.

Definition Empty (self : HueRangeSet) : bool :=
  match ranges_ self with [] => true | _ => false end.

Definition Ranges (self : HueRangeSet) : list HueRange := ranges_ self.

(** The mask of one range inside the loop of [BuildMask]. *)
Definition BuildMask_part (hsv : Mat Vec3b) (satMin satMax valMin valMax : Z)
    (r : HueRange) : Mat Z :=
  if minHue r <=? maxHue r then
    cv_inRange hsv (minHue r, satMin, valMin) (maxHue r, satMax, valMax)
  else
    let a := cv_inRange hsv (0, satMin, valMin) (maxHue r, satMax, valMax) in
    let b := cv_inRange hsv (minHue r, satMin, valMin) (179, satMax, valMax) in
    cv_bitwise_or a b.

(** [HueRangeSet::BuildMask].  The image type is [CV_8UC3] by the type of
    [hsv], so the [std::invalid_argument] branch cannot be taken. *)
Definition BuildMask (self : HueRangeSet) (hsv : Mat Vec3b)
    (satMin satMax valMin valMax : Z) : Mat Z :=
  if Mat_empty hsv then Mat_default
  else if Empty self then cv_zeros (rows hsv) (cols hsv)
  else
    let satMin := std_clamp satMin 0 255 in
    let satMax := std_clamp satMax 0 255 in
    let valMin := std_clamp valMin 0 255 in
    let valMax := std_clamp valMax 0 255 in
    let '(satMin, satMax) :=
      if satMin >? satMax then (satMax, satMin) else (satMin, satMax) in
    let '(valMin, valMax) :=
      if valMin >? valMax then (valMax, valMin) else (valMin, valMax) in
    fold_left
      (fun accumulated r =>
         cv_bitwise_or accumulated (BuildMask_part hsv satMin satMax valMin valMax r))
      (ranges_ self) (cv_zeros (rows hsv) (cols hsv)).

(** ** Configuration and result records *)

Record ColorMaskConfig := {
  hues : HueRangeSet;
  satRange : ChannelRange;
  valRange : ChannelRange
}.

Record MorphologyConfig := {
  openIterations : Z;
  closeIterations : Z;
  dilateIterations : Z
}.

Record ShapeFilterConfig := {
  minArea : Z;
  maxArea : Z;
  minCircularity : spec_float;
  minFillRatio : spec_float
}.

Record ContextRingConfig := {
  enabled : bool;
  innerRadiusPercent : Z;
  outerRadiusPercent : Z;
  supportColor : ColorMaskConfig;
  excludeHues : HueRangeSet;
  excludeSatRange : ChannelRange;
  excludeValRange : ChannelRange;
  minSupportRatio : spec_float
}.

Record ColorPatternConfig := {
  centerColor : ColorMaskConfig;
  centerMorph : MorphologyConfig;
  shape : ShapeFilterConfig;
  context : ContextRingConfig
}.

Record DetectionMetrics := {
  areaPx : spec_float;
  circularity : spec_float;
  centerFillRatio : spec_float;
  ringSupportRatio : spec_float;
  score : spec_float;
  passesArea : bool;
  passesCircularity : bool;
  passesCenterFill : bool;
  passesContext : bool;
  accepted : bool
}.

Record ColorPatternDetection := {
  boxPx : Rect;
  centerPx : Point;
  radiusPx : spec_float;
  contour : Contour;
  metrics : DetectionMetrics
}.

Module ColorPatternRunResult.
Record t := {
  detections : list ColorPatternDetection;
  acceptedCentersPx : list Point;
  acceptedBoxesPx : list Rect;
  rawCandidateCount : Z;
  acceptedCount : Z;
  acceptedRatio : spec_float;
  sceneMaskCoverage : spec_float;
  score : spec_float
}.
End ColorPatternRunResult.
Import ColorPatternRunResult (detections, acceptedCentersPx, acceptedBoxesPx,
  rawCandidateCount, acceptedCount, acceptedRatio, sceneMaskCoverage).

(** The input image of [Find], by its number of channels. *)
Inductive Scene :=
| Scene_gray (image : Mat Z)
| Scene_bgr (image : Mat Vec3b)
| Scene_bgra (image : Mat Vec4b).

Definition Scene_empty (s : Scene) : bool :=
  match s with
  | Scene_gray m => Mat_empty m
  | Scene_bgr m => Mat_empty m
  | Scene_bgra m => Mat_empty m
  end.

(** What a call throws or returns. *)
Inductive exception :=
| invalid_argument (what : string)
| runtime_error (what : string).

Inductive outcome (A : Type) :=
| Returns (a : A)
| Throws (e : exception).
Arguments Returns {A} _.
Arguments Throws {A} _.

(** ** namespace [detail] *)

Module detail.

Definition SafeDiv (num den : spec_float) : spec_float :=
  if F32.le den F32.zero then F32.zero else F32.div num den.

Definition Clamp01 (v : spec_float) : spec_float :=
  if F32.lt v F32.zero then F32.zero
  else if F32.gt v F32.one then F32.one
  else v.

Definition BuildMask (hsv : Mat Vec3b) (cfg : ColorMaskConfig) : Mat Z :=
  vision.BuildMask (hues cfg) hsv
    (minValue (satRange cfg)) (maxValue (satRange cfg))
    (minValue (valRange cfg)) (maxValue (valRange cfg)).

Definition BuildExcludeMask (hsv : Mat Vec3b) (ranges : HueRangeSet)
    (satRange valRange : ChannelRange) : Mat Z :=
  vision.BuildMask ranges hsv (minValue satRange) (maxValue satRange)
    (minValue valRange) (maxValue valRange).

(** [EnsureColor]: a 3-channel copy of the image ([cv::COLOR_GRAY2BGR]
    replicates the grey level, [cv::COLOR_BGRA2BGR] drops alpha). *)
Definition EnsureColor (image : Scene) : Mat Vec3b :=
  match image with
  | Scene_bgr m => Mat_map (fun p => p) m
  | Scene_gray m => Mat_map (fun v => (v, v, v)) m
  | Scene_bgra m => Mat_map (fun p => let '(b, g, r, _) := p in (b, g, r)) m
  end.

Section WithExternals.
Context {ext : Externals}.

(** [ApplyMorphology] updates [mask] in place; the updated mask is returned. *)
Definition ApplyMorphology (mask : Mat Z) (cfg : MorphologyConfig) : Mat Z :=
  if Mat_empty mask then mask
  else
    let mask := if openIterations cfg >? 0
                then cv_morphologyEx mask MORPH_OPEN (openIterations cfg) else mask in
    let mask := if closeIterations cfg >? 0
                then cv_morphologyEx mask MORPH_CLOSE (closeIterations cfg) else mask in
    let mask := if dilateIterations cfg >? 0
                then cv_dilate mask (dilateIterations cfg) else mask in
    mask.

Definition ComputeCircularity (contour : Contour) : spec_float :=
  let area := F32.of_double (contourArea contour) in
  let perimeter := F32.of_double (arcLength contour) in
  if F32.le area F32.zero || F32.le perimeter F32.zero then F32.zero
  else
    F32.of_double
      (F64.div (F64.mul (F64.mul F64.c4 F64.CV_PI) (F64.of_float area))
               (F64.of_float (F32.mul perimeter perimeter))).

End WithExternals.
End detail.

(** ** [class ColorPatternFinder] *)

(** [ValidateConfig] writes its reason through the nullable pointer
    [errorOut]: [None] is [nullptr], [Some s] a pointer to a string holding
    [s].  The result is the returned flag and the string after the call. *)
Definition setError (errorOut : option string) (msg : string)
    : bool * option string :=
  (false, match errorOut with Some _ => Some msg | None => None end).

Definition validateRange (errorOut : option string) (range : ChannelRange)
    (name : string) : bool * option string :=
  if (minValue range <? 0) || (minValue range >? 255)
     || (maxValue range <? 0) || (maxValue range >? 255)
  then setError errorOut (name ++ " must be within [0,255].")
  else if minValue range >? maxValue range
  then setError errorOut (name ++ " must satisfy minValue <= maxValue.")
  else (true, errorOut).

(** [if (!validateRange(...)) return false;] followed by the rest. *)
Definition unless_false (r : bool * option string)
    (rest : option string -> bool * option string) : bool * option string :=
  if fst r then rest (snd r) else (false, snd r).

Definition ValidateConfig_context (cfg : ColorPatternConfig)
    (errorOut : option string) : bool * option string :=
  if (innerRadiusPercent (context cfg) <? 1)
     || (outerRadiusPercent (context cfg) <=? innerRadiusPercent (context cfg))
  then setError errorOut "context ring radius percents must satisfy: 1 <= inner < outer."
  else if F32.lt (minSupportRatio (context cfg)) F32.zero
          || F32.gt (minSupportRatio (context cfg)) F32.one
  then setError errorOut "context.minSupportRatio must be in [0,1]."
  else
    unless_false (validateRange errorOut (satRange (supportColor (context cfg)))
                    "context.supportColor.satRange") (fun errorOut =>
    unless_false (validateRange errorOut (valRange (supportColor (context cfg)))
                    "context.supportColor.valRange") (fun errorOut =>
    unless_false (validateRange errorOut (excludeSatRange (context cfg))
                    "context.excludeSatRange") (fun errorOut =>
    unless_false (validateRange errorOut (excludeValRange (context cfg))
                    "context.excludeValRange") (fun errorOut =>
    (true, errorOut))))).

Definition ValidateConfig (cfg : ColorPatternConfig) (errorOut : option string)
    : bool * option string :=
  if Empty (hues (centerColor cfg))
  then setError errorOut "centerColor.hues is empty."
  else
    unless_false (validateRange errorOut (satRange (centerColor cfg))
                    "centerColor.satRange") (fun errorOut =>
    unless_false (validateRange errorOut (valRange (centerColor cfg))
                    "centerColor.valRange") (fun errorOut =>
    if minArea (shape cfg) <? 1
    then setError errorOut "shape.minArea must be >= 1."
    else if maxArea (shape cfg) <? minArea (shape cfg)
    then setError errorOut "shape.maxArea must be >= shape.minArea."
    else if F32.lt (minCircularity (shape cfg)) F32.zero
            || F32.gt (minCircularity (shape cfg)) F32.one
    then setError errorOut "shape.minCircularity must be in [0,1]."
    else if F32.lt (minFillRatio (shape cfg)) F32.zero
            || F32.gt (minFillRatio (shape cfg)) F32.one
    then setError errorOut "shape.minFillRatio must be in [0,1]."
    else if enabled (context cfg) then ValidateConfig_context cfg errorOut
    else (true, errorOut))).

(** [std::sort(first, last, comp)]: the result is ordered by [comp]; the
    order of elements that [comp] does not separate is unspecified by the
    standard.  The model inserts each element in turn before the first
    element that it precedes, as the library does on short ranges. *)
Fixpoint sort_insert {A} (comp : A -> A -> bool) (v : A) (sorted : list A) : list A :=
  match sorted with
  | [] => [v]
  | y :: rest => if comp v y then v :: y :: rest else y :: sort_insert comp v rest
  end.

Definition std_sort {A} (comp : A -> A -> bool) (l : list A) : list A :=
  fold_left (fun sorted v => sort_insert comp v sorted) l [].

Section WithExternals.
Context {ext : Externals}.
Variable config_ : ColorPatternConfig.

(** *** The locals of [Find] before the loop over the contours *)

Definition Find_hsv (sceneBgr : Scene) : Mat Vec3b :=
  cv_cvtColor_BGR2HSV (detail.EnsureColor sceneBgr).

Definition Find_centerMask (sceneBgr : Scene) : Mat Z :=
  detail.ApplyMorphology (detail.BuildMask (Find_hsv sceneBgr) (centerColor config_))
    (centerMorph config_).

Definition Find_supportMask (sceneBgr : Scene) : Mat Z :=
  if enabled (context config_)
  then detail.BuildMask (Find_hsv sceneBgr) (supportColor (context config_))
  else Mat_default.

Definition Find_excludeMask (sceneBgr : Scene) : Mat Z :=
  if enabled (context config_) && negb (Empty (excludeHues (context config_)))
  then detail.BuildExcludeMask (Find_hsv sceneBgr) (excludeHues (context config_))
         (excludeSatRange (context config_)) (excludeValRange (context config_))
  else Mat_default.

Definition Find_contours (sceneBgr : Scene) : list Contour :=
  findContours (Mat_map (fun v => v) (Find_centerMask sceneBgr)).

(** *** The locals of the context branch of the loop body *)

Definition ring_inner (radius : spec_float) : Z :=
  Z.max 1 (lround_int (F32.mul radius
    (F32.div (F32.of_int (innerRadiusPercent (context config_))) F32.c100))).

Definition ring_outer (radius : spec_float) : Z :=
  Z.max (to_int (ring_inner radius + 1)) (lround_int (F32.mul radius
    (F32.div (F32.of_int (outerRadiusPercent (context config_))) F32.c100))).

Definition ring_ringMask (centerMask : Mat Z) (center : Point) (radius : spec_float)
    : Mat Z :=
  let ringMask := cv_zeros (rows centerMask) (cols centerMask) in
  let ringMask := cv_circle ringMask center (ring_outer radius) 255 in
  cv_circle ringMask center (ring_inner radius) 0.

Definition ring_validRingMask (centerMask excludeMask : Mat Z) (center : Point)
    (radius : spec_float) : Mat Z :=
  let ringMask := ring_ringMask centerMask center radius in
  let validRingMask := Mat_map (fun v => v) ringMask in
  if negb (Mat_empty excludeMask) then
    let excludedInRing := cv_bitwise_and ringMask excludeMask in
    cv_bitwise_xor validRingMask excludedInRing
  else validRingMask.

Definition ring_supportInRing (centerMask supportMask excludeMask : Mat Z)
    (center : Point) (radius : spec_float) : Mat Z :=
  cv_bitwise_and supportMask (ring_validRingMask centerMask excludeMask center radius).

(** [m.ringSupportRatio] in the context branch. *)
Definition ring_ringSupportRatio (centerMask supportMask excludeMask : Mat Z)
    (center : Point) (radius : spec_float) : spec_float :=
  let validPx :=
    F32.of_int (cv_countNonZero (ring_validRingMask centerMask excludeMask center radius)) in
  let supportPx :=
    F32.of_int (cv_countNonZero
      (ring_supportInRing centerMask supportMask excludeMask center radius)) in
  detail.Clamp01 (detail.SafeDiv supportPx validPx).

(** *** The body of the loop over the contours: [None] is [continue],
    [Some det] the detection pushed onto [result.detections]. *)
Definition Find_candidate (centerMask supportMask excludeMask : Mat Z)
    (contour : Contour) : option ColorPatternDetection :=
  let area := F32.of_double (contourArea contour) in
  if F32.le area F32.zero then None
  else
    let '(centerFloat, radius) := minEnclosingCircle contour in
    let center : Point := (lround_int (fst centerFloat), lround_int (snd centerFloat)) in
    let box := boundingRect contour in
    let m_circularity := detail.Clamp01 (detail.ComputeCircularity contour) in
    let m_passesArea :=
      F32.ge area (F32.of_int (minArea (shape config_)))
      && F32.le area (F32.of_int (maxArea (shape config_))) in
    let m_passesCircularity := F32.ge m_circularity (minCircularity (shape config_)) in
    let circleArea := F32.max F32.one (F32.mul (F32.mul F32.CV_PI_F radius) radius) in
    let m_centerFillRatio := detail.Clamp01 (detail.SafeDiv area circleArea) in
    let m_passesCenterFill := F32.ge m_centerFillRatio (minFillRatio (shape config_)) in
    let m_ringSupportRatio :=
      if enabled (context config_)
      then ring_ringSupportRatio centerMask supportMask excludeMask center radius
      else F32.one in
    let m_passesContext :=
      if enabled (context config_)
      then F32.ge m_ringSupportRatio (minSupportRatio (context config_))
      else true in
    let shapeScore :=
      F32.add (F32.mul m_circularity F32.c0_55) (F32.mul m_centerFillRatio F32.c0_45) in
    let m_score :=
      if enabled (context config_)
      then detail.Clamp01
             (F32.add (F32.mul shapeScore F32.c0_60) (F32.mul m_ringSupportRatio F32.c0_40))
      else detail.Clamp01 shapeScore in
    let m_accepted :=
      m_passesArea && m_passesCircularity && m_passesCenterFill && m_passesContext in
    Some {| boxPx := box; centerPx := center; radiusPx := radius; contour := contour;
            metrics := {| areaPx := area;
                          circularity := m_circularity;
                          centerFillRatio := m_centerFillRatio;
                          ringSupportRatio := m_ringSupportRatio;
                          score := m_score;
                          passesArea := m_passesArea;
                          passesCircularity := m_passesCircularity;
                          passesCenterFill := m_passesCenterFill;
                          passesContext := m_passesContext;
                          accepted := m_accepted |} |}.

(** The loop over the contours, with [push_back] on the detections. *)
Definition Find_detections (centerMask supportMask excludeMask : Mat Z)
    (contours : list Contour) : list ColorPatternDetection :=
  fold_left
    (fun dets contour =>
       match Find_candidate centerMask supportMask excludeMask contour with
       | Some det => dets ++ [det]
       | None => dets
       end)
    contours [].

(** The comparison given to [std::sort]. *)
Definition Find_comp (a b : ColorPatternDetection) : bool :=
  if negb (Bool.eqb (accepted (metrics a)) (accepted (metrics b)))
  then accepted (metrics a) && negb (accepted (metrics b))
  else F32.gt (score (metrics a)) (score (metrics b)).

(** One step of the loop over the sorted detections (the drawing calls of
    its second half do not change the result fields kept here). *)
Definition Find_collect (result : ColorPatternRunResult.t) (det : ColorPatternDetection)
    : ColorPatternRunResult.t :=
  if accepted (metrics det) then
    {| ColorPatternRunResult.detections := detections result;
       ColorPatternRunResult.acceptedCentersPx := acceptedCentersPx result ++ [centerPx det];
       ColorPatternRunResult.acceptedBoxesPx := acceptedBoxesPx result ++ [boxPx det];
       ColorPatternRunResult.rawCandidateCount := rawCandidateCount result;
       ColorPatternRunResult.acceptedCount := to_int (acceptedCount result + 1);
       ColorPatternRunResult.acceptedRatio := acceptedRatio result;
       ColorPatternRunResult.sceneMaskCoverage := sceneMaskCoverage result;
       ColorPatternRunResult.score :=
         F32.max (ColorPatternRunResult.score result) (score (metrics det)) |}
  else result.

Definition Find (sceneBgr : Scene) : outcome ColorPatternRunResult.t :=
  if Scene_empty sceneBgr
  then Throws (invalid_argument "Find received empty scene image.")
  else
    let centerMask := Find_centerMask sceneBgr in
    let supportMask := Find_supportMask sceneBgr in
    let excludeMask := Find_excludeMask sceneBgr in
    let contours := Find_contours sceneBgr in
    let result :=
      {| ColorPatternRunResult.detections :=
           std_sort Find_comp (Find_detections centerMask supportMask excludeMask contours);
         ColorPatternRunResult.acceptedCentersPx := [];
         ColorPatternRunResult.acceptedBoxesPx := [];
         ColorPatternRunResult.rawCandidateCount :=
           to_int (Z.of_nat (List.length contours));
         ColorPatternRunResult.acceptedCount := 0;
         ColorPatternRunResult.acceptedRatio := F32.zero;
         ColorPatternRunResult.sceneMaskCoverage :=
           detail.SafeDiv (F32.of_int (cv_countNonZero centerMask))
             (F32.of_int (to_int (rows centerMask * cols centerMask)));
         ColorPatternRunResult.score := F32.zero |} in
    let result := fold_left Find_collect (detections result) result in
    Returns
      {| ColorPatternRunResult.detections := detections result;
         ColorPatternRunResult.acceptedCentersPx := acceptedCentersPx result;
         ColorPatternRunResult.acceptedBoxesPx := acceptedBoxesPx result;
         ColorPatternRunResult.rawCandidateCount := rawCandidateCount result;
         ColorPatternRunResult.acceptedCount := acceptedCount result;
         ColorPatternRunResult.acceptedRatio :=
           detail.SafeDiv (F32.of_int (acceptedCount result))
             (F32.of_int (Z.max 1 (rawCandidateCount result)));
         ColorPatternRunResult.sceneMaskCoverage := sceneMaskCoverage result;
         ColorPatternRunResult.score := ColorPatternRunResult.score result |}.

End WithExternals.
End vision.

Import vision.
Import vision.ColorPatternRunResult (detections, acceptedCentersPx, acceptedBoxesPx,
  rawCandidateCount, acceptedCount, acceptedRatio, sceneMaskCoverage).

(* ================================================================== *)
(** * Documented behaviour of the measuring primitives *)

(** [cv::contourArea] and [cv::arcLength] return ordinary numbers: the area,
    once converted to [float], is finite and the perimeter is not NaN. *)
Definition measures_finite (ext : Externals) : Prop :=
  forall c : Contour,
    IEEE.is_finite (F32.of_double (contourArea c)) = true /\
    IEEE.is_nan (arcLength c) = false.

(** [cv::contourArea] (not oriented) returns an absolute value. *)
Definition area_nonneg (ext : Externals) : Prop :=
  forall c : Contour, F32.le F32.zero (F32.of_double (contourArea c)) = true.

(* ================================================================== *)
(** * The rules of the configuration validator, in the words of the
      specification *)

Definition range_rule (r : ChannelRange) : bool :=
  (0 <=? minValue r) && (minValue r <=? 255) &&
  (0 <=? maxValue r) && (maxValue r <=? 255) &&
  (minValue r <=? maxValue r).

Definition context_rules (c : ContextRingConfig) : bool :=
  (1 <=? innerRadiusPercent c) &&
  (innerRadiusPercent c <? outerRadiusPercent c) &&
  F32.in_unit (minSupportRatio c) &&
  range_rule (satRange (supportColor c)) && range_rule (valRange (supportColor c)) &&
  range_rule (excludeSatRange c) && range_rule (excludeValRange c).

Definition config_rules (cfg : ColorPatternConfig) : bool :=
  negb (Empty (hues (centerColor cfg))) &&
  range_rule (satRange (centerColor cfg)) && range_rule (valRange (centerColor cfg)) &&
  (1 <=? minArea (shape cfg)) &&
  (minArea (shape cfg) <=? maxArea (shape cfg)) &&
  F32.in_unit (minCircularity (shape cfg)) &&
  F32.in_unit (minFillRatio (shape cfg)) &&
  (if enabled (context cfg) then context_rules (context cfg) else true).

(** The thresholds of a configuration are numbers. *)
Definition thresholds_not_nan (cfg : ColorPatternConfig) : bool :=
  negb (IEEE.is_nan (minCircularity (shape cfg))) &&
  negb (IEEE.is_nan (minFillRatio (shape cfg))) &&
  (negb (enabled (context cfg)) || negb (IEEE.is_nan (minSupportRatio (context cfg)))).

(** Membership of a hue in a range, in the words of the specification. *)
Definition hue_in_range (r : HueRange) (h : Z) : bool :=
  if minHue r <=? maxHue r
  then (minHue r <=? h) && (h <=? maxHue r)
  else ((0 <=? h) && (h <=? maxHue r)) || ((minHue r <=? h) && (h <=? 179)).

(** The channel bounds [BuildMask] works with: clamped to a byte, then put
    in order. *)
Definition effective_range (lo hi : Z) : Z * Z :=
  let lo := std_clamp lo 0 255 in
  let hi := std_clamp hi 0 255 in
  if lo >? hi then (hi, lo) else (lo, hi).

(* ================================================================== *)
(** * A small concrete instance *)

Module Example.

Definition square : Contour := [(1, 1); (3, 1); (3, 3); (1, 3)].
Definition triangle : Contour := [(1, 1); (3, 1); (1, 3)].
Definition dot : Contour := [(0, 0)].

(** A stand-in for the library: the three contours are reported when the
    pixel (1, 1) of the mask is set; a contour of four points measures area 4
    and perimeter 8, one of three points area 2 and perimeter 7, any other
    one measures 0; the enclosing circle has centre (2, 2) and radius 1.5. *)
Definition ext : Externals := {|
  cvtColor_BGR2HSV_px := fun p => p;
  morphology_px := fun _ _ m y x => px m y x;
  findContours := fun m => if px m 1 1 =? 0 then [] else [dot; triangle; square];
  contourArea := fun c =>
    match List.length c with
    | 4%nat => S754_finite false 4503599627370496 (-50)
    | 3%nat => S754_finite false 4503599627370496 (-51)
    | _ => S754_zero false
    end;
  arcLength := fun c =>
    match List.length c with
    | 4%nat => S754_finite false 4503599627370496 (-49)
    | 3%nat => S754_finite false 7881299347898368 (-50)
    | _ => S754_zero false
    end;
  minEnclosingCircle := fun _ =>
    ((S754_finite false 8388608 (-22), S754_finite false 8388608 (-22)),
     S754_finite false 12582912 (-23));
  boundingRect := fun _ => {| rect_x := 1; rect_y := 1; rect_width := 3; rect_height := 3 |};
  circle_covers := fun c r x y =>
    (x - fst c) * (x - fst c) + (y - snd c) * (y - snd c) <=? r * r;
  lround_out_of_range := fun _ => INT_MIN
|}.

Definition full_range : ChannelRange := {| minValue := 0; maxValue := 255 |}.

Definition center : ColorMaskConfig := {|
  hues := HueRangeSet_of [ {| minHue := 50; maxHue := 70 |} ];
  satRange := {| minValue := 100; maxValue := 255 |};
  valRange := {| minValue := 100; maxValue := 255 |}
|}.

Definition no_morph : MorphologyConfig :=
  {| openIterations := 0; closeIterations := 0; dilateIterations := 0 |}.

Definition shape_cfg : ShapeFilterConfig := {|
  minArea := 1; maxArea := 100;
  minCircularity := S754_finite false 8388608 (-24);   (* 0.5F *)
  minFillRatio := F32.c0_40
|}.

Definition ring (on : bool) : ContextRingConfig := {|
  enabled := on;
  innerRadiusPercent := 110;
  outerRadiusPercent := 220;
  supportColor := {| hues := HueRangeSet_of [ {| minHue := 0; maxHue := 179 |} ];
                     satRange := full_range; valRange := full_range |};
  excludeHues := HueRangeSet_of [ {| minHue := 170; maxHue := 10 |} ];
  excludeSatRange := full_range;
  excludeValRange := full_range;
  minSupportRatio := S754_finite false 13421773 (-26)   (* 0.2F *)
|}.

Definition config (on : bool) : ColorPatternConfig :=
  {| centerColor := center; centerMorph := no_morph; shape := shape_cfg; context := ring on |}.

(** A 5x5 image of one colour. *)
Definition uniform (p : Vec3b) : Scene :=
  Scene_bgr {| rows := 5; cols := 5; px := fun _ _ => p |}.

Definition green : Scene := uniform (60, 200, 200).
Definition grey : Scene := uniform (0, 0, 128).

Definition result_of (o : outcome ColorPatternRunResult.t) : ColorPatternRunResult.t :=
  match o with
  | Returns r => r
  | Throws _ =>
      {| ColorPatternRunResult.detections := [];
         ColorPatternRunResult.acceptedCentersPx := [];
         ColorPatternRunResult.acceptedBoxesPx := [];
         ColorPatternRunResult.rawCandidateCount := 0;
         ColorPatternRunResult.acceptedCount := 0;
         ColorPatternRunResult.acceptedRatio := F32.zero;
         ColorPatternRunResult.sceneMaskCoverage := F32.zero;
         ColorPatternRunResult.score := F32.zero |}
  end.

(** The result of the example finder on a scene. *)
Definition run (on : bool) (s : Scene) : ColorPatternRunResult.t :=
  result_of (@Find ext (config on) s).

Definition blank : ColorPatternDetection := {|
  boxPx := {| rect_x := 0; rect_y := 0; rect_width := 0; rect_height := 0 |};
  centerPx := (0, 0);
  radiusPx := F32.zero;
  contour := [];
  metrics := {| areaPx := F32.zero; circularity := F32.zero; centerFillRatio := F32.zero;
                ringSupportRatio := F32.zero; score := F32.zero;
                passesArea := false; passesCircularity := false;
                passesCenterFill := false; passesContext := false; accepted := false |}
|}.

(** The detection at a position of the result. *)
Definition found (on : bool) (s : Scene) (n : nat) : ColorPatternDetection :=
  nth n (detections (run on s)) blank.

(** A configuration whose circularity threshold is NaN, valid otherwise. *)
Definition nan_config : ColorPatternConfig :=
  {| centerColor := center; centerMorph := no_morph;
     shape := {| minArea := 1; maxArea := 100;
                 minCircularity := S754_nan; minFillRatio := F32.c0_40 |};
     context := ring false |}.

End Example.

(** Tactics that evaluate the example instance. *)
Ltac example_measures :=
  let c := fresh "c" in
  intros c; unfold contourArea, arcLength, Example.ext;
  destruct (List.length c) as [|[|[|[|[|?]]]]]; try split; reflexivity.

Ltac example_returns := vm_compute; reflexivity.

Ltac example_in := vm_compute; auto.

(* ================================================================== *)
(** * The C interface: [ChromaApi.h] and [ChromaCore.cpp]

    Pointers that may be null are options: [None] is [nullptr], [Some v] a
    valid pointer whose target holds [v].  A function that writes through
    its pointer arguments returns their targets after the call.  A wide
    string buffer is the text it holds up to its terminator; the messages are
    ASCII, for which [Utf8ToWide] keeps the characters.  The process-wide
    [g_activeConfig] is passed in and out; the mutex that guards it is left
    out, one call running at a time. *)

(** [l[i] = v] on an array held as a list (no effect outside the array). *)
Fixpoint list_set {A} (l : list A) (i : nat) (v : A) : list A :=
  match l, i with
  | [], _ => []
  | _ :: rest, O => v :: rest
  | a :: rest, S j => a :: list_set rest j v
  end.

(** [if (p != nullptr) *p = v;] *)
Definition store {A} (p : option A) (v : A) : option A :=
  match p with Some _ => Some v | None => None end.

(** A matrix of four 8-bit channels over existing memory,
    [cv::Mat(height, width, CV_8UC4, data, step)]: [mem] gives the byte at an
    offset from the pointer the caller passed and [data] is the offset of the
    first row. *)
Definition Mat_view (mem : Z -> Z) (data height width step : Z) : Mat Vec4b :=
  {| rows := height; cols := width;
     px := fun r c =>
       let o := data + r * step + 4 * c in
       (mem o, mem (o + 1), mem (o + 2), mem (o + 3)) |}.

(** [cv::flip(src, dst, 0)]: the rows in reverse order. *)
Definition cv_flip_rows {A} (src : Mat A) : Mat A :=
  {| rows := rows src; cols := cols src; px := fun y x => px src (rows src - 1 - y) x |}.

Module api.

Definition CHROMA_MAX_HUE_RANGES : Z := 8.

(** [enum ChromaStatusCode]. *)
Definition CHROMA_STATUS_OK : Z := 0.
Definition CHROMA_STATUS_INVALID_ARGUMENT : Z := 1.
Definition CHROMA_STATUS_CONFIG_ERROR : Z := 2.
Definition CHROMA_STATUS_RUNTIME_ERROR : Z := 3.
Definition CHROMA_STATUS_BUFFER_TOO_SMALL : Z := 4.

Module ChromaPoint.
Record t := { x : Z; y : Z }.
End ChromaPoint.

Module ChromaHueRange.
Record t := { minHue : Z; maxHue : Z }.
End ChromaHueRange.

Module ChromaChannelRange.
Record t := { minValue : Z; maxValue : Z }.
End ChromaChannelRange.

(** [struct ChromaConfigV1]; the two arrays of [CHROMA_MAX_HUE_RANGES]
    elements are lists. *)
Module ChromaConfigV1.
Record t := {
  structSize : Z;
  centerHueRangeCount : Z;
  centerHueRanges : list ChromaHueRange.t;
  centerSatRange : ChromaChannelRange.t;
  centerValRange : ChromaChannelRange.t;
  centerMorphOpenIterations : Z;
  centerMorphCloseIterations : Z;
  centerDilateIterations : Z;
  minBlobArea : Z;
  maxBlobArea : Z;
  minCircularity : spec_float;
  minCenterFillRatio : spec_float;
  requireContextRing : Z;
  ringInnerRadiusPercent : Z;
  ringOuterRadiusPercent : Z;
  contextSupportSatRange : ChromaChannelRange.t;
  contextSupportValRange : ChromaChannelRange.t;
  contextExcludeHueRangeCount : Z;
  contextExcludeHueRanges : list ChromaHueRange.t;
  contextMinSupportRatio : spec_float;
  drawRejectedCandidates : Z
}.
End ChromaConfigV1.

(** [sizeof(ChromaConfigV1)]: 55 members of four bytes each. *)
Definition sizeof_ChromaConfigV1 : Z := 220.

(** A value-initialised [ChromaHueRange], and the element [a[i]] of an
    array. *)
Definition zero_hue_range : ChromaHueRange.t :=
  {| ChromaHueRange.minHue := 0; ChromaHueRange.maxHue := 0 |}.

Definition array_at (a : list ChromaHueRange.t) (i : nat) : ChromaHueRange.t :=
  nth i a zero_hue_range.

(** [vision::ColorPatternConfig] together with [debug.drawRejected], the one
    member of [debug] that the interface takes from its input (the others
    are set to constants). *)
Record PatternConfig := {
  pattern : ColorPatternConfig;
  drawRejected : bool
}.

(** [WriteErrorMessage]: [wcsncpy] of at most [outErrorChars - 1] characters
    followed by the terminator, or [wcsncpy_s] with [_TRUNCATE]; both leave
    the longest beginning of the message that fits. *)
Definition WriteErrorMessage (outError : option string) (outErrorChars : Z)
    (message : string) : option string :=
  match outError with
  | None => None
  | Some old =>
      if outErrorChars <=? 0 then Some old
      else Some (substring 0 (Z.to_nat (outErrorChars - 1)) message)
  end.

(** [Utf8ToWide] on the ASCII texts of the messages. *)
Definition Utf8ToWide (utf8 : string) : string := utf8.

Definition BuildDefaultPatternConfig : PatternConfig :=
  let support := {| minValue := 0; maxValue := 255 |} in
  let supportVal := {| minValue := 120; maxValue := 255 |} in
  {| pattern :=
       {| centerColor :=
            {| hues := HueRangeSet_of [ {| minHue := 16; maxHue := 32 |} ];
               satRange := {| minValue := 50; maxValue := 125 |};
               valRange := {| minValue := 85; maxValue := 255 |} |};
          centerMorph :=
            {| openIterations := 5; closeIterations := 3; dilateIterations := 1 |};
          shape :=
            {| minArea := 20; maxArea := 800;
               minCircularity := S754_finite false 12582912 (-24);   (* 0.75F *)
               minFillRatio := S754_finite false 11408507 (-24) |};  (* 0.68F *)
          context :=
            {| enabled := true;
               innerRadiusPercent := 105;
               outerRadiusPercent := 225;
               supportColor :=
                 {| hues := HueRangeSet_of [ {| minHue := 0; maxHue := 179 |} ];
                    satRange := support; valRange := supportVal |};
               excludeHues := HueRangeSet_of [ {| minHue := 52; maxHue := 68 |};
                                               {| minHue := 24; maxHue := 48 |} ];
               excludeSatRange := support;
               excludeValRange := supportVal;
               minSupportRatio := S754_finite false 14092861 (-25) |} |};  (* 0.42F *)
     drawRejected := false |}.

Definition ValidateChannelRange (range : ChromaChannelRange.t) (name : string)
    (errorOut : string) : bool * string :=
  if (ChromaChannelRange.minValue range <? 0) || (ChromaChannelRange.minValue range >? 255)
     || (ChromaChannelRange.maxValue range <? 0) || (ChromaChannelRange.maxValue range >? 255)
  then (false, (name ++ " must be in [0,255].")%string)
  else if ChromaChannelRange.minValue range >? ChromaChannelRange.maxValue range
  then (false, (name ++ " must satisfy minValue <= maxValue.")%string)
  else (true, errorOut).

Definition ValidateHueRange (range : ChromaHueRange.t) (name : string)
    (errorOut : string) : bool * string :=
  if (ChromaHueRange.minHue range <? 0) || (ChromaHueRange.minHue range >? 179)
     || (ChromaHueRange.maxHue range <? 0) || (ChromaHueRange.maxHue range >? 179)
  then (false, (name ++ " must be in [0,179].")%string)
  else (true, errorOut).

Definition ToChannelRange (i : ChromaChannelRange.t) : ChannelRange :=
  {| minValue := ChromaChannelRange.minValue i; maxValue := ChromaChannelRange.maxValue i |}.

Definition ToApiChannelRange (i : ChannelRange) : ChromaChannelRange.t :=
  {| ChromaChannelRange.minValue := minValue i; ChromaChannelRange.maxValue := maxValue i |}.

(** The loops of [ConvertApiConfigToPattern] over the first [count] elements
    of an array: each range is validated, then added; the first invalid one
    ends the conversion. *)
Fixpoint add_hue_ranges (hs : list ChromaHueRange.t) (name : string)
    (hues : HueRangeSet) (errorOut : string) : bool * HueRangeSet * string :=
  match hs with
  | [] => (true, hues, errorOut)
  | h :: rest =>
      let '(ok, errorOut) := ValidateHueRange h name errorOut in
      if ok then
        add_hue_ranges rest name
          (Add hues {| minHue := ChromaHueRange.minHue h; maxHue := ChromaHueRange.maxHue h |})
          errorOut
      else (false, hues, errorOut)
  end.

(** The elements [a[0]], ..., [a[count - 1]]. *)
Definition first_elements (a : list ChromaHueRange.t) (count : Z) : list ChromaHueRange.t :=
  map (array_at a) (seq 0 (Z.to_nat count)).

(** The configuration that [ConvertApiConfigToPattern] hands to
    [ValidateConfig], given the two sets of hue ranges. *)
Definition pattern_of_api (i : ChromaConfigV1.t) (centerHues excludeHues : HueRangeSet)
    : PatternConfig :=
  let supportSat := ToChannelRange (ChromaConfigV1.contextSupportSatRange i) in
  let supportVal := ToChannelRange (ChromaConfigV1.contextSupportValRange i) in
  {| pattern :=
       {| centerColor :=
            {| hues := centerHues;
               satRange := ToChannelRange (ChromaConfigV1.centerSatRange i);
               valRange := ToChannelRange (ChromaConfigV1.centerValRange i) |};
          centerMorph :=
            {| openIterations := ChromaConfigV1.centerMorphOpenIterations i;
               closeIterations := ChromaConfigV1.centerMorphCloseIterations i;
               dilateIterations := ChromaConfigV1.centerDilateIterations i |};
          shape :=
            {| minArea := ChromaConfigV1.minBlobArea i;
               maxArea := ChromaConfigV1.maxBlobArea i;
               minCircularity := ChromaConfigV1.minCircularity i;
               minFillRatio := ChromaConfigV1.minCenterFillRatio i |};
          context :=
            {| enabled := negb (ChromaConfigV1.requireContextRing i =? 0);
               innerRadiusPercent := ChromaConfigV1.ringInnerRadiusPercent i;
               outerRadiusPercent := ChromaConfigV1.ringOuterRadiusPercent i;
               supportColor :=
                 {| hues := HueRangeSet_of [ {| minHue := 0; maxHue := 179 |} ];
                    satRange := supportSat; valRange := supportVal |};
               excludeHues := excludeHues;
               excludeSatRange := supportSat;
               excludeValRange := supportVal;
               minSupportRatio := ChromaConfigV1.contextMinSupportRatio i |} |};
     drawRejected := negb (ChromaConfigV1.drawRejectedCandidates i =? 0) |}.

(** [ConvertApiConfigToPattern]: the status, [outCfg] and [errorOut] after
    the call. *)
Definition ConvertApiConfigToPattern (i : ChromaConfigV1.t) (outCfg : PatternConfig)
    (errorOut : string) : Z * PatternConfig * string :=
  if ChromaConfigV1.structSize i <? sizeof_ChromaConfigV1 then
    (CHROMA_STATUS_INVALID_ARGUMENT, outCfg,
     "ChromaConfigV1.structSize is smaller than required."%string)
  else if (ChromaConfigV1.centerHueRangeCount i <? 1)
          || (ChromaConfigV1.centerHueRangeCount i >? CHROMA_MAX_HUE_RANGES) then
    (CHROMA_STATUS_CONFIG_ERROR, outCfg,
     "centerHueRangeCount must be in [1, CHROMA_MAX_HUE_RANGES]."%string)
  else if (ChromaConfigV1.contextExcludeHueRangeCount i <? 0)
          || (ChromaConfigV1.contextExcludeHueRangeCount i >? CHROMA_MAX_HUE_RANGES) then
    (CHROMA_STATUS_CONFIG_ERROR, outCfg,
     "contextExcludeHueRangeCount must be in [0, CHROMA_MAX_HUE_RANGES]."%string)
  else
    let '(ok1, errorOut) :=
      ValidateChannelRange (ChromaConfigV1.centerSatRange i) "centerSatRange" errorOut in
    if negb ok1 then (CHROMA_STATUS_CONFIG_ERROR, outCfg, errorOut) else
    let '(ok2, errorOut) :=
      ValidateChannelRange (ChromaConfigV1.centerValRange i) "centerValRange" errorOut in
    if negb ok2 then (CHROMA_STATUS_CONFIG_ERROR, outCfg, errorOut) else
    let '(ok3, errorOut) :=
      ValidateChannelRange (ChromaConfigV1.contextSupportSatRange i)
        "contextSupportSatRange" errorOut in
    if negb ok3 then (CHROMA_STATUS_CONFIG_ERROR, outCfg, errorOut) else
    let '(ok4, errorOut) :=
      ValidateChannelRange (ChromaConfigV1.contextSupportValRange i)
        "contextSupportValRange" errorOut in
    if negb ok4 then (CHROMA_STATUS_CONFIG_ERROR, outCfg, errorOut) else
    let '(okc, centerHues, errorOut) :=
      add_hue_ranges
        (first_elements (ChromaConfigV1.centerHueRanges i)
           (ChromaConfigV1.centerHueRangeCount i))
        "centerHueRanges[i]" (Clear HueRangeSet_default) errorOut in
    if negb okc then (CHROMA_STATUS_CONFIG_ERROR, outCfg, errorOut) else
    let '(oke, excludeHues, errorOut) :=
      add_hue_ranges
        (first_elements (ChromaConfigV1.contextExcludeHueRanges i)
           (ChromaConfigV1.contextExcludeHueRangeCount i))
        "contextExcludeHueRanges[i]" (Clear HueRangeSet_default) errorOut in
    if negb oke then (CHROMA_STATUS_CONFIG_ERROR, outCfg, errorOut) else
    let cfg := pattern_of_api i centerHues excludeHues in
    match ValidateConfig (pattern cfg) (Some ""%string) with
    | (true, _) => (CHROMA_STATUS_OK, cfg, errorOut)
    | (false, validationError) =>
        (CHROMA_STATUS_CONFIG_ERROR, outCfg,
         match validationError with Some e => e | None => ""%string end)
    end.

(** The loops of [ConvertPatternToApiConfig]: the first [count] elements of
    a value-initialised array are set from the ranges. *)
Definition fill_hue_array (ranges : list HueRange) (count : Z) : list ChromaHueRange.t :=
  fold_left
    (fun a i =>
       list_set a i
         {| ChromaHueRange.minHue := minHue (nth i ranges {| minHue := 0; maxHue := 0 |});
            ChromaHueRange.maxHue := maxHue (nth i ranges {| minHue := 0; maxHue := 0 |}) |})
    (seq 0 (Z.to_nat count))
    (repeat zero_hue_range (Z.to_nat CHROMA_MAX_HUE_RANGES)).

Definition ConvertPatternToApiConfig (i : PatternConfig) : ChromaConfigV1.t :=
  let centerHueRanges := Ranges (hues (centerColor (pattern i))) in
  let centerCount :=
    Z.min (Z.of_nat (List.length centerHueRanges)) CHROMA_MAX_HUE_RANGES in
  let excludeHueRanges := Ranges (excludeHues (context (pattern i))) in
  let excludeCount :=
    Z.min (Z.of_nat (List.length excludeHueRanges)) CHROMA_MAX_HUE_RANGES in
  {| ChromaConfigV1.structSize := sizeof_ChromaConfigV1;
     ChromaConfigV1.centerHueRangeCount := centerCount;
     ChromaConfigV1.centerHueRanges := fill_hue_array centerHueRanges centerCount;
     ChromaConfigV1.centerSatRange := ToApiChannelRange (satRange (centerColor (pattern i)));
     ChromaConfigV1.centerValRange := ToApiChannelRange (valRange (centerColor (pattern i)));
     ChromaConfigV1.centerMorphOpenIterations := openIterations (centerMorph (pattern i));
     ChromaConfigV1.centerMorphCloseIterations := closeIterations (centerMorph (pattern i));
     ChromaConfigV1.centerDilateIterations := dilateIterations (centerMorph (pattern i));
     ChromaConfigV1.minBlobArea := minArea (shape (pattern i));
     ChromaConfigV1.maxBlobArea := maxArea (shape (pattern i));
     ChromaConfigV1.minCircularity := minCircularity (shape (pattern i));
     ChromaConfigV1.minCenterFillRatio := minFillRatio (shape (pattern i));
     ChromaConfigV1.requireContextRing := if enabled (context (pattern i)) then 1 else 0;
     ChromaConfigV1.ringInnerRadiusPercent := innerRadiusPercent (context (pattern i));
     ChromaConfigV1.ringOuterRadiusPercent := outerRadiusPercent (context (pattern i));
     ChromaConfigV1.contextSupportSatRange :=
       ToApiChannelRange (satRange (supportColor (context (pattern i))));
     ChromaConfigV1.contextSupportValRange :=
       ToApiChannelRange (valRange (supportColor (context (pattern i))));
     ChromaConfigV1.contextExcludeHueRangeCount := excludeCount;
     ChromaConfigV1.contextExcludeHueRanges := fill_hue_array excludeHueRanges excludeCount;
     ChromaConfigV1.contextMinSupportRatio := minSupportRatio (context (pattern i));
     ChromaConfigV1.drawRejectedCandidates := if drawRejected i then 1 else 0 |}.

Definition BuildConfigFromPointer (config : option ChromaConfigV1.t) (outCfg : PatternConfig)
    (outError : option string) (outErrorChars : Z) : Z * PatternConfig * option string :=
  match config with
  | None =>
      (CHROMA_STATUS_INVALID_ARGUMENT, outCfg,
       WriteErrorMessage outError outErrorChars "config is null.")
  | Some c =>
      let '(status, outCfg, error) := ConvertApiConfigToPattern c outCfg ""%string in
      if negb (status =? CHROMA_STATUS_OK)
      then (status, outCfg, WriteErrorMessage outError outErrorChars (Utf8ToWide error))
      else (CHROMA_STATUS_OK, outCfg, outError)
  end.

(** A default-constructed [vision::ColorPatternConfig], from the member
    initialisers of [ChromaCore.h]. *)
Definition ColorPatternConfig_default : PatternConfig :=
  let full := {| minValue := 0; maxValue := 255 |} in
  {| pattern :=
       {| centerColor :=
            {| hues := HueRangeSet_default; satRange := full; valRange := full |};
          centerMorph :=
            {| openIterations := 0; closeIterations := 0; dilateIterations := 0 |};
          shape :=
            {| minArea := 10; maxArea := 5000;
               minCircularity := S754_finite false 10905190 (-24);   (* 0.65F *)
               minFillRatio := F32.c0_40 |};
          context :=
            {| enabled := false;
               innerRadiusPercent := 110;
               outerRadiusPercent := 220;
               supportColor :=
                 {| hues := HueRangeSet_default; satRange := full; valRange := full |};
               excludeHues := HueRangeSet_default;
               excludeSatRange := full;
               excludeValRange := full;
               minSupportRatio := S754_finite false 13421773 (-26) |} |};  (* 0.20F *)
     drawRejected := false |}.

(** ** The runtime configuration: every function takes [g_activeConfig] and
    returns it after the call where it can change. *)

Definition ChromaRuntime_GetDefaultConfig (outConfig : option ChromaConfigV1.t)
    (outError : option string) (outErrorChars : Z)
    : Z * option ChromaConfigV1.t * option string :=
  let outError := WriteErrorMessage outError outErrorChars "" in
  match outConfig with
  | None =>
      (CHROMA_STATUS_INVALID_ARGUMENT, None,
       WriteErrorMessage outError outErrorChars "outConfig is null.")
  | Some _ =>
      (CHROMA_STATUS_OK, Some (ConvertPatternToApiConfig BuildDefaultPatternConfig), outError)
  end.

Definition ChromaRuntime_GetActiveConfig (g_activeConfig : PatternConfig)
    (outConfig : option ChromaConfigV1.t) (outError : option string) (outErrorChars : Z)
    : Z * option ChromaConfigV1.t * option string :=
  let outError := WriteErrorMessage outError outErrorChars "" in
  match outConfig with
  | None =>
      (CHROMA_STATUS_INVALID_ARGUMENT, None,
       WriteErrorMessage outError outErrorChars "outConfig is null.")
  | Some _ =>
      (CHROMA_STATUS_OK, Some (ConvertPatternToApiConfig g_activeConfig), outError)
  end.

Definition ChromaRuntime_SetActiveConfig (g_activeConfig : PatternConfig)
    (config : option ChromaConfigV1.t) (outError : option string) (outErrorChars : Z)
    : Z * PatternConfig * option string :=
  let outError := WriteErrorMessage outError outErrorChars "" in
  let '(status, cfg, outError) :=
    BuildConfigFromPointer config ColorPatternConfig_default outError outErrorChars in
  if negb (status =? CHROMA_STATUS_OK) then (status, g_activeConfig, outError)
  else (CHROMA_STATUS_OK, cfg, outError).

Definition ChromaRuntime_ResetConfigToDefault (g_activeConfig : PatternConfig)
    (outError : option string) (outErrorChars : Z) : Z * PatternConfig * option string :=
  (CHROMA_STATUS_OK, BuildDefaultPatternConfig, WriteErrorMessage outError outErrorChars "").

(** ** Locating *)

(** The output arguments of the locate functions. *)
Record LocateOut := {
  outPoints : option (list ChromaPoint.t);
  outTotalFound : option Z;
  outWritten : option Z;
  outError : option string
}.

Definition set_outError (o : LocateOut) (e : option string) : LocateOut :=
  {| outPoints := outPoints o; outTotalFound := outTotalFound o;
     outWritten := outWritten o; outError := e |}.

Definition zero_point : ChromaPoint.t := {| ChromaPoint.x := 0; ChromaPoint.y := 0 |}.

Definition WriteLocateOutputs (centers : list ChromaPoint.t) (o : LocateOut)
    (outCapacity outErrorChars : Z) : Z * LocateOut :=
  let total := to_int (Z.of_nat (List.length centers)) in
  let outTotalFound := store (outTotalFound o) total in
  let countOnly :=
    match outPoints o with None => true | Some _ => outCapacity <=? 0 end in
  if countOnly then
    (CHROMA_STATUS_OK,
     {| outPoints := outPoints o; outTotalFound := outTotalFound;
        outWritten := store (outWritten o) 0; outError := outError o |})
  else
    let toCopy := Z.min total outCapacity in
    let points :=
      match outPoints o with
      | Some buffer =>
          Some (fold_left (fun b i => list_set b i (nth i centers zero_point))
                  (seq 0 (Z.to_nat toCopy)) buffer)
      | None => None
      end in
    let outWritten := store (outWritten o) toCopy in
    if toCopy <? total then
      (CHROMA_STATUS_BUFFER_TOO_SMALL,
       {| outPoints := points; outTotalFound := outTotalFound; outWritten := outWritten;
          outError := WriteErrorMessage (outError o) outErrorChars "Output buffer too small." |})
    else
      (CHROMA_STATUS_OK,
       {| outPoints := points; outTotalFound := outTotalFound; outWritten := outWritten;
          outError := outError o |}).

Definition ValidateOutputArgs (outCapacity : Z) (outPoints : option (list ChromaPoint.t))
    (outError : option string) (outErrorChars : Z) : Z * option string :=
  if outCapacity <? 0 then
    (CHROMA_STATUS_INVALID_ARGUMENT,
     WriteErrorMessage outError outErrorChars "outCapacity must be >= 0.")
  else if (outCapacity >? 0) && match outPoints with None => true | Some _ => false end then
    (CHROMA_STATUS_INVALID_ARGUMENT,
     WriteErrorMessage outError outErrorChars "outPoints is null while outCapacity > 0.")
  else (CHROMA_STATUS_OK, outError).

(** A value-initialised [vision::ColorPatternRunResult]. *)
Definition empty_result : ColorPatternRunResult.t :=
  {| ColorPatternRunResult.detections := [];
     ColorPatternRunResult.acceptedCentersPx := [];
     ColorPatternRunResult.acceptedBoxesPx := [];
     ColorPatternRunResult.rawCandidateCount := 0;
     ColorPatternRunResult.acceptedCount := 0;
     ColorPatternRunResult.acceptedRatio := F32.zero;
     ColorPatternRunResult.sceneMaskCoverage := F32.zero;
     ColorPatternRunResult.score := F32.zero |}.

(** [ex.what()]. *)
Definition what (e : exception) : string :=
  match e with invalid_argument w => w | runtime_error w => w end.

Section WithExternals.
Context {ext : Externals}.
(** [std::numeric_limits<size_t>::max()]. *)
Variable SIZE_MAX : Z.

(** [DetectRunResultFromMat]: the status, [outResult] and the error text
    after the call.  [Find] throws nothing but the exceptions of [exception],
    which derive from [std::exception], so the handler [catch (...)] has no
    counterpart. *)
Definition DetectRunResultFromMat (sceneBgrOrBgra : Scene) (cfg : ColorPatternConfig)
    (outError : option string) (outErrorChars : Z)
    : Z * ColorPatternRunResult.t * option string :=
  let outResult := empty_result in
  let outError := WriteErrorMessage outError outErrorChars "" in
  if Scene_empty sceneBgrOrBgra then
    (CHROMA_STATUS_INVALID_ARGUMENT, outResult,
     WriteErrorMessage outError outErrorChars "Bitmap input is empty.")
  else
    match Find cfg sceneBgrOrBgra with
    | Returns r => (CHROMA_STATUS_OK, r, outError)
    | Throws ex =>
        let wmsg := Utf8ToWide (what ex) in
        (CHROMA_STATUS_RUNTIME_ERROR, outResult,
         WriteErrorMessage outError outErrorChars
           (match wmsg with EmptyString => "Runtime error."%string | _ => wmsg end))
    end.

Definition DetectAcceptedCentersFromMat (sceneBgrOrBgra : Scene) (cfg : ColorPatternConfig)
    (outError : option string) (outErrorChars : Z)
    : Z * list ChromaPoint.t * option string :=
  let '(status, result, outError) :=
    DetectRunResultFromMat sceneBgrOrBgra cfg outError outErrorChars in
  if negb (status =? CHROMA_STATUS_OK) then (status, [], outError)
  else
    (CHROMA_STATUS_OK,
     map (fun p : Point => {| ChromaPoint.x := fst p; ChromaPoint.y := snd p |})
       (acceptedCentersPx result),
     outError).

(** The image that [LocateBitmapImpl] builds over the caller's pixels once
    its arguments are accepted. *)
Definition LocateBitmap_scene (mem : Z -> Z) (width height strideBytes : Z) : Mat Vec4b :=
  let absStride := if strideBytes <? 0 then - strideBytes else strideBytes in
  if strideBytes >? 0 then Mat_view mem 0 height width absStride
  else
    let lastRowOffset := absStride * (height - 1) in
    cv_flip_rows (Mat_view mem lastRowOffset height width absStride).

(** [LocateBitmapImpl]; [bgraPixels] is [None] for a null pointer and
    otherwise gives the byte at each offset from the pointer. *)
Definition LocateBitmapImpl (bgraPixels : option (Z -> Z)) (width height strideBytes : Z)
    (cfg : ColorPatternConfig) (o : LocateOut) (outCapacity outErrorChars : Z)
    : Z * LocateOut :=
  let o := {| outPoints := outPoints o; outTotalFound := store (outTotalFound o) 0;
              outWritten := store (outWritten o) 0; outError := outError o |} in
  let fail (message : string) :=
    (CHROMA_STATUS_INVALID_ARGUMENT,
     set_outError o (WriteErrorMessage (outError o) outErrorChars message)) in
  match bgraPixels with
  | None => fail "bgraPixels is null."%string
  | Some mem =>
      if (width <=? 0) || (height <=? 0) then fail "width/height must be > 0."%string
      else if strideBytes =? 0 then fail "strideBytes must not be 0."%string
      else
        let minStrideBytes := width * 4 in
        let absStride64 := if strideBytes <? 0 then - strideBytes else strideBytes in
        if absStride64 <? minStrideBytes
        then fail "strideBytes is smaller than width*4."%string
        else if (height >? 1) && (absStride64 * (height - 1) >? SIZE_MAX)
        then fail "Bitmap dimensions are too large."%string
        else
          let '(outputStatus, e) :=
            ValidateOutputArgs outCapacity (outPoints o) (outError o) outErrorChars in
          if negb (outputStatus =? CHROMA_STATUS_OK)
          then (outputStatus, set_outError o e)
          else
            let o := set_outError o e in
            let scene := Scene_bgra (LocateBitmap_scene mem width height strideBytes) in
            let '(detectStatus, centers, e) :=
              DetectAcceptedCentersFromMat scene cfg (outError o) outErrorChars in
            if negb (detectStatus =? CHROMA_STATUS_OK)
            then (detectStatus, set_outError o e)
            else WriteLocateOutputs centers (set_outError o e) outCapacity outErrorChars
  end.

Definition ChromaRuntime_LocateBitmapBGRAW (g_activeConfig : PatternConfig)
    (bgraPixels : option (Z -> Z)) (width height strideBytes : Z)
    (o : LocateOut) (outCapacity outErrorChars : Z) : Z * LocateOut :=
  let o := set_outError o (WriteErrorMessage (outError o) outErrorChars "") in
  LocateBitmapImpl bgraPixels width height strideBytes (pattern g_activeConfig)
    o outCapacity outErrorChars.

Definition ChromaRuntime_LocateBitmapWithConfigBGRAW
    (bgraPixels : option (Z -> Z)) (width height strideBytes : Z)
    (config : option ChromaConfigV1.t)
    (o : LocateOut) (outCapacity outErrorChars : Z) : Z * LocateOut :=
  let o := set_outError o (WriteErrorMessage (outError o) outErrorChars "") in
  let '(cfgStatus, cfg, e) :=
    BuildConfigFromPointer config ColorPatternConfig_default (outError o) outErrorChars in
  if negb (cfgStatus =? CHROMA_STATUS_OK) then (cfgStatus, set_outError o e)
  else
    LocateBitmapImpl bgraPixels width height strideBytes (pattern cfg)
      (set_outError o e) outCapacity outErrorChars.

End WithExternals.
End api.

(* ================================================================== *)
(** * Notions used by the properties of the interface *)

(** The behaviour of a validation step towards [errorOut]: the flag does not
    depend on the pointer, nothing is written through a null pointer, success
    leaves the string as it was, failure stores a message. *)
Definition errorOut_discipline (f : option string -> bool * option string) : Prop :=
  (forall e, fst (f e) = fst (f None)) /\
  snd (f None) = None /\
  (forall e, fst (f e) = true -> snd (f e) = e) /\
  (forall old, fst (f (Some old)) = false ->
     exists msg, snd (f (Some old)) = Some msg /\ msg <> ""%string).

(** The hues that [ValidateHueRange] lets through. *)
Definition hue_range_ok (h : api.ChromaHueRange.t) : bool :=
  (0 <=? api.ChromaHueRange.minHue h) && (api.ChromaHueRange.minHue h <=? 179) &&
  (0 <=? api.ChromaHueRange.maxHue h) && (api.ChromaHueRange.maxHue h <=? 179).

(** A range of the interface as a range of the finder, and back. *)
Definition to_HueRange (h : api.ChromaHueRange.t) : HueRange :=
  {| minHue := api.ChromaHueRange.minHue h; maxHue := api.ChromaHueRange.maxHue h |}.

Definition of_HueRange (r : HueRange) : api.ChromaHueRange.t :=
  {| api.ChromaHueRange.minHue := minHue r; api.ChromaHueRange.maxHue := maxHue r |}.

(** The configuration that [ConvertApiConfigToPattern] builds from the
    counted elements of the two arrays. *)
Definition imported_config (i : api.ChromaConfigV1.t) : api.PatternConfig :=
  api.pattern_of_api i
    {| ranges_ := map to_HueRange
         (api.first_elements (api.ChromaConfigV1.centerHueRanges i)
            (api.ChromaConfigV1.centerHueRangeCount i)) |}
    {| ranges_ := map to_HueRange
         (api.first_elements (api.ChromaConfigV1.contextExcludeHueRanges i)
            (api.ChromaConfigV1.contextExcludeHueRangeCount i)) |}.

(** The inputs that [ConvertApiConfigToPattern] accepts. *)
Definition api_config_ok (i : api.ChromaConfigV1.t) : bool :=
  (api.sizeof_ChromaConfigV1 <=? api.ChromaConfigV1.structSize i) &&
  (1 <=? api.ChromaConfigV1.centerHueRangeCount i) &&
  (api.ChromaConfigV1.centerHueRangeCount i <=? api.CHROMA_MAX_HUE_RANGES) &&
  (0 <=? api.ChromaConfigV1.contextExcludeHueRangeCount i) &&
  (api.ChromaConfigV1.contextExcludeHueRangeCount i <=? api.CHROMA_MAX_HUE_RANGES) &&
  range_rule (api.ToChannelRange (api.ChromaConfigV1.centerSatRange i)) &&
  range_rule (api.ToChannelRange (api.ChromaConfigV1.centerValRange i)) &&
  range_rule (api.ToChannelRange (api.ChromaConfigV1.contextSupportSatRange i)) &&
  range_rule (api.ToChannelRange (api.ChromaConfigV1.contextSupportValRange i)) &&
  forallb hue_range_ok
    (api.first_elements (api.ChromaConfigV1.centerHueRanges i)
       (api.ChromaConfigV1.centerHueRangeCount i)) &&
  forallb hue_range_ok
    (api.first_elements (api.ChromaConfigV1.contextExcludeHueRanges i)
       (api.ChromaConfigV1.contextExcludeHueRangeCount i)) &&
  fst (ValidateConfig (api.pattern (imported_config i)) None).

(** The values that [g_activeConfig] takes: its initial value, and what a
    call of [ChromaRuntime_SetActiveConfig] or of
    [ChromaRuntime_ResetConfigToDefault] leaves in it (no other function
    assigns it). *)
Inductive active_config : api.PatternConfig -> Prop :=
| active_initial : active_config api.BuildDefaultPatternConfig
| active_Set (g : api.PatternConfig) (config : option api.ChromaConfigV1.t)
    (outError : option string) (outErrorChars : Z) :
    active_config g ->
    active_config
      (snd (fst (api.ChromaRuntime_SetActiveConfig g config outError outErrorChars)))
| active_Reset (g : api.PatternConfig) (outError : option string) (outErrorChars : Z) :
    active_config g ->
    active_config (snd (fst (api.ChromaRuntime_ResetConfigToDefault g outError outErrorChars))).

(* ================================================================== *)
(** * A small concrete instance of the interface *)

Module ApiExample.

(** The structure that [ChromaRuntime_GetDefaultConfig] writes. *)
Definition default_api : api.ChromaConfigV1.t :=
  api.ConvertPatternToApiConfig api.BuildDefaultPatternConfig.

(** The example configuration with the ring disabled and other ring
    settings. *)
Definition other_ring : ColorPatternConfig :=
  {| centerColor := Example.center; centerMorph := Example.no_morph;
     shape := Example.shape_cfg;
     context :=
       {| enabled := false;
          innerRadiusPercent := 150;
          outerRadiusPercent := 300;
          supportColor := Example.center;
          excludeHues := HueRangeSet_default;
          excludeSatRange := Example.full_range;
          excludeValRange := Example.full_range;
          minSupportRatio := F32.one |} |}.

Definition point (x y : Z) : api.ChromaPoint.t :=
  {| api.ChromaPoint.x := x; api.ChromaPoint.y := y |}.

Definition centers : list api.ChromaPoint.t := [point 1 1; point 2 2; point 3 3].

Definition buffer : list api.ChromaPoint.t := [point 0 0; point 0 0].

(** Output arguments that hold values of an earlier call. *)
Definition out (points : option (list api.ChromaPoint.t)) : api.LocateOut :=
  {| api.outPoints := points; api.outTotalFound := Some 7; api.outWritten := Some 7;
     api.outError := Some "earlier"%string |}.

(** A bitmap in which every pixel has the bytes 60, 200, 200, 255. *)
Definition pixels : Z -> Z :=
  fun k => if k mod 4 =? 0 then 60 else if k mod 4 =? 3 then 255 else 200.

(** The result of the example finder on the 5x5 bitmap over [pixels]. *)
Definition located : ColorPatternRunResult.t :=
  Example.result_of
    (@Find Example.ext (Example.config true)
       (Scene_bgra (api.LocateBitmap_scene pixels 5 5 20))).

End ApiExample.

(** Tactics for the ways out of [ConvertApiConfigToPattern]. *)
Ltac conj_false :=
  unfold api_config_ok;
  repeat match goal with H : _ = false |- _ => rewrite H end;
  repeat (rewrite andb_false_r || rewrite andb_false_l); reflexivity.

Ltac rejected :=
  right; split; [conj_false|];
  eexists _, _; split; [reflexivity|]; split; [try discriminate|right; split; [reflexivity|lia]].

(* ================================================================== *)
(** * The ring radius in the words of the specification *)

(** [round(radius * percent / 100)] in exact arithmetic, for a radius that
    is a number >= 0 and a percentage >= 0: the integer nearest to the
    quotient, a half rounded up. *)
Definition claimed_radius_exact (radius : spec_float) (percent : Z) : option Z :=
  match radius with
  | S754_zero _ => Some 0
  | S754_finite false m e =>
      let num := if 0 <=? e then Zpos m * 2 ^ e * percent else Zpos m * percent in
      let den := if 0 <=? e then 100 else 100 * 2 ^ (- e) in
      Some ((2 * num + den) / (2 * den))
  | _ => None
  end.

(** The same expression evaluated in [float] in the order it is written:
    the product first, then the division by 100. *)
Definition claimed_radius_float {ext : Externals} (radius : spec_float) (percent : Z) : Z :=
  lround_int (F32.div (F32.mul radius (F32.of_int percent)) F32.c100).

(** An instance on which the two ways of computing the radius differ. *)
Module RingExample.

Definition radius30 : spec_float := S754_finite false 15728640 (-19).   (* 30.0F *)

(** The stand-in library of [Example], with enclosing circles of radius 30
    around (2, 2). *)
Definition ext : Externals := {|
  cvtColor_BGR2HSV_px := @cvtColor_BGR2HSV_px Example.ext;
  morphology_px := @morphology_px Example.ext;
  findContours := @findContours Example.ext;
  contourArea := @contourArea Example.ext;
  arcLength := @arcLength Example.ext;
  minEnclosingCircle := fun _ =>
    ((S754_finite false 8388608 (-22), S754_finite false 8388608 (-22)), radius30);
  boundingRect := @boundingRect Example.ext;
  circle_covers := @circle_covers Example.ext;
  lround_out_of_range := @lround_out_of_range Example.ext
|}.

(** The example configuration with the ring percentages 105 and 225 of
    [BuildDefaultPatternConfig]. *)
Definition config : ColorPatternConfig :=
  {| centerColor := Example.center; centerMorph := Example.no_morph;
     shape := Example.shape_cfg;
     context :=
       {| enabled := true;
          innerRadiusPercent := 105;
          outerRadiusPercent := 225;
          supportColor := supportColor (Example.ring true);
          excludeHues := excludeHues (Example.ring true);
          excludeSatRange := Example.full_range;
          excludeValRange := Example.full_range;
          minSupportRatio := minSupportRatio (Example.ring true) |} |}.

Definition result : ColorPatternRunResult.t :=
  Example.result_of (@Find ext config Example.green).

(** The first detection of the result. *)
Definition candidate : ColorPatternDetection := nth 0 (detections result) Example.blank.

End RingExample.

(* ================================================================== *)
(** * Rounding to a binary format

    Facts about [SpecFloat]'s rounding that the properties of the finder rest
    on: the sign and validity of a rounded value, and that a value in the
    normal range rounds to a finite number. *)

Import IEEE.

Lemma digits2_pos_log2 (m : positive) :
  Zpos (digits2_pos m) = Z.log2 (Zpos m) + 1.
Proof.
  assert (H : forall p, digits2_pos p = Pos.size p).
  { induction p; simpl; congruence. }
  destruct m; simpl; rewrite ?H; lia.
Qed.

Lemma digits2_pos_bounds (m : positive) :
  2 ^ (Zpos (digits2_pos m) - 1) <= Zpos m < 2 ^ Zpos (digits2_pos m).
Proof.
  rewrite digits2_pos_log2.
  replace (Z.log2 (Zpos m) + 1 - 1) with (Z.log2 (Zpos m)) by lia.
  apply Z.log2_spec. lia.
Qed.

Lemma digits2_pos_unique (m : positive) (d : Z) :
  2 ^ (d - 1) <= Zpos m < 2 ^ d -> Zpos (digits2_pos m) = d.
Proof.
  intros [Hlo Hhi]. rewrite digits2_pos_log2.
  assert (0 < d).
  { destruct (Z_lt_le_dec 0 d) as [|Hd]; [assumption|].
    destruct d as [|p|p]; [simpl in Hhi; lia|lia|].
    rewrite Z.pow_neg_r in Hhi; lia. }
  assert (Z.log2 (Zpos m) = d - 1); [|lia].
  apply Z.log2_unique; [lia|]. replace (Z.succ (d - 1)) with d by lia. lia.
Qed.

Section Iter.
Context {A : Type} (f : A -> A) (P : A -> Prop).
Hypothesis step : forall x, P x -> P (f x).

Lemma iter_pos_invariant (n : positive) : forall x, P x -> P (iter_pos f n x).
Proof.
  induction n as [n IH | n IH |]; intros x Hx; simpl; auto.
Qed.
End Iter.

Lemma shr_1_m (mrs : shr_record) :
  0 <= shr_m mrs -> shr_m (shr_1 mrs) = shr_m mrs / 2.
Proof.
  destruct mrs as [m r s]. simpl. intros Hm.
  destruct m as [|p|p]; [reflexivity| |lia].
  destruct p as [p|p|]; simpl shr_m.
  - rewrite Pos2Z.inj_xI. apply Z.div_unique with (r := 1); lia.
  - rewrite Pos2Z.inj_xO. apply Z.div_unique with (r := 0); lia.
  - reflexivity.
Qed.

Lemma shr_iter_m (n : positive) : forall mrs,
  0 <= shr_m mrs ->
  shr_m (iter_pos shr_1 n mrs) = shr_m mrs / 2 ^ Zpos n.
Proof.
  assert (Hdbl : forall k, 0 <= k -> 2 ^ (2 * k) = 2 ^ k * 2 ^ k).
  { intros k Hk. replace (2 * k) with (k + k) by lia. apply Z.pow_add_r; lia. }
  assert (Hpos : forall k, 0 <= k -> 0 < 2 ^ k) by (intros; apply Z.pow_pos_nonneg; lia).
  induction n as [n IH | n IH |]; intros mrs Hm; simpl iter_pos.
  - assert (H1 : 0 <= shr_m (shr_1 mrs)).
    { rewrite shr_1_m by assumption. apply Z.div_pos; lia. }
    assert (H2 : 0 <= shr_m (iter_pos shr_1 n (shr_1 mrs))).
    { rewrite IH by assumption. apply Z.div_pos; [lia|apply Hpos; lia]. }
    rewrite IH, IH, shr_1_m by assumption.
    pose proof (Hpos (Zpos n) ltac:(lia)).
    rewrite !Z.div_div by lia. f_equal.
    rewrite (Pos2Z.inj_xI n), Z.pow_add_r, Hdbl by lia. lia.
  - assert (H2 : 0 <= shr_m (iter_pos shr_1 n mrs)).
    { rewrite IH by assumption. apply Z.div_pos; [lia|apply Hpos; lia]. }
    rewrite IH, IH by assumption.
    pose proof (Hpos (Zpos n) ltac:(lia)).
    rewrite !Z.div_div by lia. f_equal.
    rewrite (Pos2Z.inj_xO n), Hdbl by lia. lia.
  - rewrite shr_1_m by assumption. reflexivity.
Qed.

Lemma shr_m_spec (mrs : shr_record) (e n : Z) :
  0 <= shr_m mrs -> 0 <= n ->
  shr mrs e n = (fst (shr mrs e n), e + n) /\
  shr_m (fst (shr mrs e n)) = shr_m mrs / 2 ^ n.
Proof.
  intros Hm Hn. destruct n as [|p|p]; simpl; [| |lia].
  - rewrite Z.add_0_r, Z.div_1_r. auto.
  - split; [reflexivity|]. apply shr_iter_m; assumption.
Qed.

Lemma shr_record_of_loc_m m l : shr_m (shr_record_of_loc m l) = m.
Proof. destruct l as [|[]]; reflexivity. Qed.

Lemma round_nearest_even_range m l :
  m <= round_nearest_even m l <= m + 1.
Proof.
  unfold round_nearest_even. destruct l as [|[]]; try destruct (Z.even m); lia.
Qed.

Lemma pow2_pos k : 0 <= k -> 0 < 2 ^ k.
Proof. intros. apply Z.pow_pos_nonneg; lia. Qed.

Lemma pow2_le k1 k2 : 0 <= k1 -> 2 ^ k1 <= 2 ^ k2 -> k1 <= k2.
Proof.
  intros Hk H. destruct (Z_le_gt_dec k1 k2) as [|Hgt]; [assumption|].
  destruct (Z_lt_le_dec k2 0) as [Hneg|Hnn].
  - rewrite (Z.pow_neg_r 2 k2) in H by assumption. pose proof (pow2_pos k1 Hk). lia.
  - assert (2 ^ k2 < 2 ^ k1) by (apply Z.pow_lt_mono_r; lia). lia.
Qed.

Lemma pow2_lt k1 k2 : 0 <= k1 -> 2 ^ k1 < 2 ^ k2 -> k1 < k2.
Proof.
  intros Hk H. destruct (Z_lt_le_dec k1 k2) as [|Hge]; [assumption|].
  destruct (Z_lt_le_dec k2 0) as [Hneg|Hnn].
  - rewrite (Z.pow_neg_r 2 k2) in H by assumption. pose proof (pow2_pos k1 Hk). lia.
  - assert (2 ^ k2 <= 2 ^ k1) by (apply Z.pow_le_mono_r; lia). lia.
Qed.

Lemma digits2_pos_pos m : 0 < Zpos (digits2_pos m).
Proof. lia. Qed.

Lemma div_pow2_bounds (m d n k : Z) :
  0 <= n -> 0 <= k -> d = n + k ->
  2 ^ (d - 1) <= m < 2 ^ d ->
  (1 <= k -> 2 ^ (k - 1) <= m / 2 ^ n) /\ m / 2 ^ n < 2 ^ k.
Proof.
  intros Hn Hk -> [Hlo Hhi].
  pose proof (pow2_pos n Hn) as Hp.
  split.
  - intros Hk1. apply Z.div_le_lower_bound; [lia|].
    rewrite <- Z.pow_add_r by lia. replace (n + (k - 1)) with (n + k - 1) by lia. assumption.
  - apply Z.div_lt_upper_bound; [lia|].
    rewrite <- Z.pow_add_r by lia. assumption.
Qed.

Section Rounding.
Variables prec emax : Z.
Hypothesis prec_pos : 0 < prec.
Hypothesis prec_lt_emax : prec < emax.

Lemma fexp_ge_emin k : emin prec emax <= fexp prec emax k.
Proof. unfold fexp. lia. Qed.

Lemma shr_zero mrs e n : shr_m mrs = 0 -> shr_m (fst (shr mrs e n)) = 0.
Proof.
  intros H. destruct n as [|p|p]; simpl; try assumption.
  rewrite shr_iter_m by lia. rewrite H. apply Z.div_0_l.
  pose proof (pow2_pos (Zpos p)). lia.
Qed.

Lemma shr_fexp_spec (m : positive) (e : Z) (l : location) :
  e <= fexp prec emax (Zpos (digits2_pos m) + e) ->
  shr_fexp prec emax (Zpos m) e l =
    (fst (shr_fexp prec emax (Zpos m) e l), fexp prec emax (Zpos (digits2_pos m) + e)) /\
  shr_m (fst (shr_fexp prec emax (Zpos m) e l)) =
    Zpos m / 2 ^ (fexp prec emax (Zpos (digits2_pos m) + e) - e).
Proof.
  intros Hn. unfold shr_fexp. simpl Zdigits2.
  set (n := fexp prec emax (Zpos (digits2_pos m) + e) - e).
  destruct (shr_m_spec (shr_record_of_loc (Zpos m) l) e n) as [H1 H2].
  - rewrite shr_record_of_loc_m. lia.
  - lia.
  - rewrite shr_record_of_loc_m in H2. split; [|assumption].
    rewrite H1 at 1. f_equal. lia.
Qed.

(** Outcome of rounding a positive mantissa whose exponent is not above the
    target exponent: the result is a zero or a finite number of the given
    sign, it is a valid member of the format, and in the normal range it is
    finite with its magnitude moved by at most one binade. *)
Lemma binary_round_aux_pos (s : bool) (m : positive) (e : Z) (l : location) :
  let d := Zpos (digits2_pos m) in
  e <= fexp prec emax (d + e) ->
  let r := binary_round_aux prec emax s (Zpos m) e l in
  has_sign s r /\ valid_binary prec emax r = true /\
  (emin prec emax <= d + e - prec -> d + e + 1 <= emax ->
   exists m' e', r = S754_finite s m' e' /\
     d + e <= Zpos (digits2_pos m') + e' <= d + e + 1).
Proof.
  intros d Hn r. subst r. unfold binary_round_aux.
  destruct (shr_fexp_spec m e l Hn) as [E1 Q1]. fold d in E1, Q1.
  set (e1 := fexp prec emax (d + e)) in *.
  rewrite E1.
  set (mrs1 := fst (shr_fexp prec emax (Zpos m) e l)) in *.
  set (q := shr_m mrs1) in *.
  pose proof (round_nearest_even_range q (loc_of_shr_record mrs1)) as Hq'.
  set (q' := round_nearest_even q (loc_of_shr_record mrs1)) in *.
  pose proof (digits2_pos_bounds m) as Hm. fold d in Hm.
  pose proof (fexp_ge_emin (d + e)) as Hemin. fold e1 in Hemin.
  assert (Hn0 : 0 <= e1 - e) by lia.
  assert (Hqnn : 0 <= q).
  { rewrite Q1. apply Z.div_pos; [lia|apply pow2_pos; lia]. }
  destruct q' as [|p|p] eqn:Eq'; [| |lia].
  - (* rounded to zero *)
    unfold shr_fexp. simpl Zdigits2.
    destruct (shr _ e1 _) as [mrs2 e2] eqn:E2.
    assert (H0 : shr_m mrs2 = 0).
    { change mrs2 with (fst (mrs2, e2)). rewrite <- E2. apply shr_zero. reflexivity. }
    rewrite H0. cbv beta iota delta [has_sign valid_binary]. repeat split; trivial.
    intros Hnorm _. exfalso.
    assert (Hk : e1 = d + e - prec) by (unfold e1, fexp; lia).
    destruct (div_pow2_bounds (Zpos m) d (e1 - e) prec) as [Hlo _]; try lia.
  - (* rounded to a positive mantissa *)
    pose proof (digits2_pos_bounds p) as Hp.
    set (d' := Zpos (digits2_pos p)) in *.
    assert (Hemax : emin prec emax <= emax - prec) by (unfold emin; lia).
    destruct (Z_le_gt_dec (emin prec emax) (d + e - prec)) as [Hnorm|Hsub].
    + (* normal range *)
      assert (Hk : e1 = d + e - prec) by (unfold e1, fexp; lia).
      destruct (div_pow2_bounds (Zpos m) d (e1 - e) prec) as [Hlo Hhi]; try lia.
      rewrite <- Q1 in Hlo, Hhi. specialize (Hlo ltac:(lia)).
      destruct (Z_lt_le_dec (Zpos p) (2 ^ prec)) as [Hlt|Hge].
      * assert (Hd' : d' = prec) by (apply digits2_pos_unique; lia).
        destruct (shr_fexp_spec p e1 loc_Exact) as [E2 Q2].
        { fold d'. rewrite Hd'. unfold fexp. lia. }
        fold d' in E2, Q2. rewrite Hd' in E2, Q2.
        assert (Hf : fexp prec emax (prec + e1) = e1) by (unfold fexp; lia).
        rewrite Hf in E2, Q2. rewrite E2. rewrite Q2.
        rewrite Z.sub_diag, Z.div_1_r.
        destruct (Z.leb_spec e1 (emax - prec)); cbv beta iota delta [has_sign valid_binary].
        -- repeat split; trivial.
           ++ unfold bounded, canonical_mantissa. fold d'. rewrite Hd', Hf.
              rewrite Z.eqb_refl. apply Z.leb_le. assumption.
           ++ intros _ _. exists p, e1. split; [reflexivity|]. fold d'. lia.
        -- repeat split; trivial. intros _ Hmax. lia.
      * assert (Hp2 : Zpos p = 2 ^ prec) by lia.
        assert (Hd' : d' = prec + 1).
        { apply digits2_pos_unique. replace (prec + 1 - 1) with prec by lia.
          rewrite Hp2. split; [lia|]. apply Z.pow_lt_mono_r; lia. }
        destruct (shr_fexp_spec p e1 loc_Exact) as [E2 Q2].
        { fold d'. rewrite Hd'. unfold fexp. lia. }
        fold d' in E2, Q2. rewrite Hd' in E2, Q2.
        assert (Hf : fexp prec emax (prec + 1 + e1) = e1 + 1) by (unfold fexp; lia).
        rewrite Hf in E2, Q2. rewrite E2. rewrite Q2.
        replace (e1 + 1 - e1) with 1 by lia. rewrite Hp2, Z.pow_1_r.
        assert (Hhalf : 2 ^ prec / 2 = 2 ^ (prec - 1)).
        { replace prec with (prec - 1 + 1) at 1 by lia.
          rewrite Z.pow_add_r, Z.pow_1_r by lia. apply Z.div_mul. lia. }
        rewrite Hhalf.
        pose proof (pow2_pos (prec - 1) ltac:(lia)) as Hpp.
        destruct (2 ^ (prec - 1)) as [|p2|p2] eqn:Ep2; try lia.
        assert (Hd2 : Zpos (digits2_pos p2) = prec).
        { apply digits2_pos_unique. rewrite <- Ep2. split; [lia|].
          apply Z.pow_lt_mono_r; lia. }
        destruct (Z.leb_spec (e1 + 1) (emax - prec)); cbv beta iota delta [has_sign valid_binary].
        -- repeat split; trivial.
           ++ unfold bounded, canonical_mantissa. rewrite Hd2.
              replace (prec + (e1 + 1)) with (prec + 1 + e1) by lia. rewrite Hf.
              rewrite Z.eqb_refl. apply Z.leb_le. assumption.
           ++ intros _ _. exists p2, (e1 + 1). split; [reflexivity|]. rewrite Hd2. lia.
        -- repeat split; trivial. intros _ Hmax. lia.
    + (* subnormal range *)
      assert (Hk : e1 = emin prec emax) by (unfold e1, fexp; lia).
      assert (Hq1 : q < 2 ^ (prec - 1)).
      { rewrite Q1. apply Z.div_lt_upper_bound; [apply pow2_pos; lia|].
        rewrite <- Z.pow_add_r by lia.
        apply Z.lt_le_trans with (1 := proj2 Hm).
        apply Z.pow_le_mono_r; lia. }
      assert (Hd' : d' <= prec).
      { assert (d' - 1 <= prec - 1); [|lia].
        apply pow2_le; [unfold d'; lia|]. lia. }
      destruct (shr_fexp_spec p e1 loc_Exact) as [E2 Q2].
      { fold d'. unfold fexp. lia. }
      fold d' in E2, Q2.
      assert (Hf : fexp prec emax (d' + e1) = e1) by (unfold fexp; lia).
      rewrite Hf in E2, Q2. rewrite E2. rewrite Q2.
      rewrite Z.sub_diag, Z.div_1_r.
      destruct (Z.leb_spec e1 (emax - prec)); cbv beta iota delta [has_sign valid_binary]; [|lia].
      repeat split; trivial.
      * unfold bounded, canonical_mantissa. fold d'. rewrite Hf.
        rewrite Z.eqb_refl. apply Z.leb_le. assumption.
      * intros Hnorm. lia.
Qed.
End Rounding.

Lemma has_sign_not_nan s x : has_sign s x -> is_nan x = false.
Proof. destruct x; simpl; intros H; [reflexivity|reflexivity|contradiction|reflexivity]. Qed.

Lemma has_sign_SFsign s x : has_sign s x -> SFsign x = s.
Proof. destruct x; simpl; intros H; contradiction || assumption. Qed.

Lemma not_nan_has_sign x : is_nan x = false -> has_sign (SFsign x) x.
Proof. destruct x; simpl; intros H; reflexivity || discriminate. Qed.

Lemma digits2_pos_iter_xO (m p : positive) :
  digits2_pos (Pos.iter xO m p) = (digits2_pos m + p)%positive.
Proof.
  induction p as [|p IH] using Pos.peano_ind.
  - simpl. lia.
  - rewrite Pos.iter_succ. simpl. rewrite IH. lia.
Qed.

Section Operations.
Variables prec emax : Z.
Hypothesis prec_pos : 0 < prec.
Hypothesis prec_lt_emax : prec < emax.

Lemma shr_nonneg mrs e n : 0 <= shr_m mrs -> 0 <= shr_m (fst (shr mrs e n)).
Proof.
  intros H. destruct n as [|p|p]; simpl; try assumption.
  rewrite shr_iter_m by assumption. apply Z.div_pos; [assumption|apply pow2_pos; lia].
Qed.

Lemma binary_round_aux_sign (s : bool) (m e : Z) (l : location) :
  0 <= m -> has_sign s (binary_round_aux prec emax s m e l).
Proof.
  intros Hm. unfold binary_round_aux.
  destruct (shr_fexp prec emax m e l) as [mrs1 e1] eqn:E1.
  assert (H1 : 0 <= shr_m mrs1).
  { change mrs1 with (fst (mrs1, e1)). rewrite <- E1. unfold shr_fexp.
    apply shr_nonneg. rewrite shr_record_of_loc_m. assumption. }
  pose proof (round_nearest_even_range (shr_m mrs1) (loc_of_shr_record mrs1)) as Hr.
  destruct (shr_fexp prec emax (round_nearest_even _ _) e1 loc_Exact) as [mrs2 e2] eqn:E2.
  assert (H2 : 0 <= shr_m mrs2).
  { change mrs2 with (fst (mrs2, e2)). rewrite <- E2. unfold shr_fexp.
    apply shr_nonneg. rewrite shr_record_of_loc_m. lia. }
  destruct (shr_m mrs2) as [|p|p]; [reflexivity| |lia].
  destruct (Z.leb e2 (emax - prec)); reflexivity.
Qed.

Lemma shl_align_mag (m : positive) (e e' : Z) :
  Zpos (digits2_pos (fst (shl_align m e e'))) + snd (shl_align m e e') =
  Zpos (digits2_pos m) + e /\
  snd (shl_align m e e') = Z.min e e'.
Proof.
  unfold shl_align. destruct (e' - e) as [|d|d] eqn:E; simpl fst; simpl snd.
  - lia.
  - lia.
  - rewrite digits2_pos_iter_xO. lia.
Qed.

Lemma binary_round_spec (s : bool) (m : positive) (e : Z) :
  let d := Zpos (digits2_pos m) in
  let r := binary_round prec emax s m e in
  has_sign s r /\ valid_binary prec emax r = true /\
  (emin prec emax <= d + e - prec -> d + e + 1 <= emax ->
   exists m' e', r = S754_finite s m' e' /\
     d + e <= Zpos (digits2_pos m') + e' <= d + e + 1).
Proof.
  intros d r. subst r. unfold binary_round.
  pose proof (shl_align_mag m e (fexp prec emax (Zpos (digits2_pos m) + e))) as [Hmag Hmin].
  destruct (shl_align m e _) as [mz ez]. simpl fst in *. simpl snd in *.
  fold d in Hmag, Hmin.
  pose proof (binary_round_aux_pos prec emax prec_pos prec_lt_emax s mz ez loc_Exact) as H.
  cbv zeta in H. rewrite Hmag in H. apply H. lia.
Qed.

Lemma binary_normalize_not_nan (m e : Z) (sz : bool) :
  is_nan (binary_normalize prec emax m e sz) = false.
Proof.
  destruct m as [|p|p]; simpl; [reflexivity| |];
    eapply has_sign_not_nan, binary_round_spec.
Qed.

Lemma binary_normalize_valid (m e : Z) (sz : bool) :
  valid_binary prec emax (binary_normalize prec emax m e sz) = true.
Proof.
  destruct m as [|p|p]; simpl; [reflexivity| |]; apply binary_round_spec.
Qed.

Lemma SFmul_sign (x y : spec_float) :
  is_nan x = false -> is_nan y = false ->
  is_inf x && is_zero y = false -> is_zero x && is_inf y = false ->
  has_sign (xorb (SFsign x) (SFsign y)) (SFmul prec emax x y).
Proof.
  destruct x as [sx|sx| |sx mx ex], y as [sy|sy| |sy my ey]; simpl;
    intros; try discriminate; try reflexivity.
  apply binary_round_aux_sign. lia.
Qed.

Lemma div_eucl_nonneg (a b : Z) : 0 <= a -> 0 < b -> 0 <= fst (Z.div_eucl a b).
Proof.
  intros Ha Hb. pose proof (Z_div_mod a b ltac:(lia)) as H.
  destruct (Z.div_eucl a b) as [q r]. simpl. nia.
Qed.

Lemma SFdiv_sign (x y : spec_float) :
  is_nan x = false -> is_nan y = false ->
  is_inf x && is_inf y = false -> is_zero x && is_zero y = false ->
  has_sign (xorb (SFsign x) (SFsign y)) (SFdiv prec emax x y).
Proof.
  destruct x as [sx|sx| |sx mx ex], y as [sy|sy| |sy my ey]; simpl;
    intros; try discriminate; try reflexivity.
  unfold SFdiv_core_binary.
  set (m' := match _ - _ with Z0 => _ | Zpos _ => _ | Zneg _ => _ end).
  assert (Hm' : 0 <= m').
  { subst m'. destruct (_ - _) as [|p|p]; try lia.
    apply Z.shiftl_nonneg. lia. }
  pose proof (div_eucl_nonneg m' (Zpos my) Hm' ltac:(lia)) as Hq.
  destruct (Z.div_eucl m' (Zpos my)) as [q r]. simpl in Hq.
  apply binary_round_aux_sign. assumption.
Qed.

Lemma SFadd_nonneg (x y : spec_float) :
  SFleb (S754_zero false) x = true -> SFleb (S754_zero false) y = true ->
  SFleb (S754_zero false) (SFadd prec emax x y) = true.
Proof.
  destruct x as [sx|[|]| |[|] mx ex], y as [sy|[|]| |[|] my ey];
    try discriminate; intros _ _; try reflexivity.
  - simpl. destruct sx, sy; reflexivity.
  - unfold SFadd.
    set (a := fst (shl_align mx ex (Z.min ex ey))).
    set (b := fst (shl_align my ey (Z.min ex ey))).
    simpl cond_Zopp. change (Zpos a + Zpos b) with (Zpos (a + b)).
    simpl binary_normalize.
    pose proof (binary_round_spec false (a + b) (Z.min ex ey)) as [Hs _].
    destruct (binary_round prec emax false (a + b) (Z.min ex ey)) as [s|s| |s m e];
      simpl in Hs; subst; try contradiction; reflexivity.
Qed.
End Operations.

Lemma SFcompare_antisym (x y : spec_float) (c : comparison) :
  SFcompare x y = Some c -> SFcompare y x = Some (CompOpp c).
Proof.
  destruct x as [sx|sx| |sx mx ex], y as [sy|sy| |sy my ey]; simpl;
    try discriminate;
    try (destruct sx; intros [= <-]; reflexivity);
    try (destruct sy; intros [= <-]; reflexivity);
    try (intros [= <-]; reflexivity).
  - destruct sx, sy; intros [= <-]; reflexivity.
  - intros [= <-]. f_equal.
    rewrite (Z.compare_antisym ex ey).
    change (Pos.compare_cont Eq my mx) with (Pos.compare my mx).
    change (Pos.compare_cont Eq mx my) with (Pos.compare mx my).
    rewrite (Pos.compare_antisym mx my).
    destruct sx, sy; try reflexivity;
      destruct (ex ?= ey); simpl; try reflexivity;
      destruct (mx ?= my)%positive; reflexivity.
Qed.

Lemma SFcompare_not_nan (x y : spec_float) :
  is_nan x = false -> is_nan y = false -> exists c, SFcompare x y = Some c.
Proof.
  destruct x, y; simpl; intros; try discriminate; eexists; reflexivity.
Qed.

Lemma SFltb_false_SFleb (x y : spec_float) :
  is_nan x = false -> is_nan y = false -> SFltb x y = false -> SFleb y x = true.
Proof.
  intros Hx Hy. destruct (SFcompare_not_nan x y Hx Hy) as [c Hc].
  unfold SFltb, SFleb. rewrite Hc, (SFcompare_antisym _ _ _ Hc).
  destruct c; simpl; congruence.
Qed.

Lemma SFltb_true_SFleb (x y : spec_float) :
  SFltb x y = true -> SFleb x y = true /\ SFleb y x = false.
Proof.
  unfold SFltb, SFleb. destruct (SFcompare x y) as [c|] eqn:Hc; [|discriminate].
  rewrite (SFcompare_antisym _ _ _ Hc). destruct c; simpl; try discriminate. auto.
Qed.

Lemma SFleb_not_nan (x y : spec_float) :
  SFleb x y = true -> is_nan x = false /\ is_nan y = false.
Proof. destruct x, y; simpl; try discriminate; auto. Qed.

Lemma SFleb_trans (x y z : spec_float) :
  SFleb x y = true -> SFleb y z = true -> SFleb x z = true.
Proof.
  unfold SFleb.
  destruct x as [sx|sx| |sx mx ex], y as [sy|sy| |sy my ey], z as [sz|sz| |sz mz ez];
    simpl; try discriminate; try reflexivity;
    repeat match goal with s : bool |- _ => destruct s end;
    simpl; try discriminate; try reflexivity;
    change (Pos.compare_cont Eq) with Pos.compare;
    repeat match goal with
    | |- context [Z.compare ?a ?b] => destruct (Z.compare_spec a b)
    | |- context [Pos.compare ?a ?b] => destruct (Pos.compare_spec a b)
    end; simpl; try discriminate; try reflexivity; intros; exfalso; lia.
Qed.

(* ================================================================== *)
(** * binary32 and binary64 *)

Lemma to_int_range (z : Z) : INT_MIN <= to_int z <= INT_MAX.
Proof.
  unfold to_int, INT_MIN, INT_MAX.
  pose proof (Z.mod_pos_bound (z + 2 ^ 31) (2 ^ 32) ltac:(lia)). lia.
Qed.

Lemma to_int_id (z : Z) : INT_MIN <= z <= INT_MAX -> to_int z = z.
Proof.
  unfold to_int, INT_MIN, INT_MAX. intros H.
  rewrite Z.mod_small; lia.
Qed.

Lemma f32_prec_pos : 0 < F32.prec.
Proof. reflexivity. Qed.

Lemma f32_prec_lt_emax : F32.prec < F32.emax.
Proof. reflexivity. Qed.

Lemma f64_prec_pos : 0 < F64.prec.
Proof. reflexivity. Qed.

Lemma f64_prec_lt_emax : F64.prec < F64.emax.
Proof. reflexivity. Qed.

Lemma digits2_pos_le (p : positive) (k : Z) :
  0 <= k -> Zpos p <= 2 ^ k -> Zpos (digits2_pos p) <= k + 1.
Proof.
  intros Hk Hp. pose proof (digits2_pos_bounds p) as [Hlo _].
  assert (Zpos (digits2_pos p) - 1 <= k); [|lia].
  apply pow2_le; lia.
Qed.

Lemma digits2_pos_mul (a b : positive) :
  Zpos (digits2_pos a) + Zpos (digits2_pos b) - 1 <= Zpos (digits2_pos (a * b))
    <= Zpos (digits2_pos a) + Zpos (digits2_pos b).
Proof.
  pose proof (digits2_pos_bounds a) as [Ha1 Ha2].
  pose proof (digits2_pos_bounds b) as [Hb1 Hb2].
  pose proof (digits2_pos_bounds (a * b)) as [Hc1 Hc2].
  set (da := Zpos (digits2_pos a)) in *. set (db := Zpos (digits2_pos b)) in *.
  set (dc := Zpos (digits2_pos (a * b))) in *.
  assert (Hda : 0 < da) by (unfold da; lia).
  assert (Hdb : 0 < db) by (unfold db; lia).
  assert (Hdc : 0 < dc) by (unfold dc; lia).
  rewrite Pos2Z.inj_mul in Hc1, Hc2.
  assert (Hlo : 2 ^ (da + db - 2) <= Zpos a * Zpos b).
  { replace (da + db - 2) with ((da - 1) + (db - 1)) by lia.
    rewrite Z.pow_add_r by lia.
    pose proof (pow2_pos (da - 1) ltac:(lia)). pose proof (pow2_pos (db - 1) ltac:(lia)).
    nia. }
  assert (Hhi : Zpos a * Zpos b < 2 ^ (da + db)).
  { rewrite Z.pow_add_r by lia. nia. }
  split.
  - assert (da + db - 2 < dc); [|lia]. apply pow2_lt; lia.
  - assert (dc - 1 < da + db); [|lia]. apply pow2_lt; lia.
Qed.

(** The conversion of an [int] to [float] is zero or a finite number of the
    sign of the integer. *)
Lemma of_int_cases (n : Z) :
  INT_MIN <= n <= INT_MAX ->
  match n with
  | Z0 => F32.of_int n = F32.zero
  | Zpos _ => exists m e, F32.of_int n = S754_finite false m e
  | Zneg _ => exists m e, F32.of_int n = S754_finite true m e
  end.
Proof.
  unfold INT_MIN, INT_MAX. intros Hn.
  destruct n as [|p|p]; [reflexivity| |]; unfold F32.of_int; simpl binary_normalize.
  - assert (Hd : Zpos (digits2_pos p) <= 32) by (apply (digits2_pos_le p 31); lia).
    destruct (binary_round_spec F32.prec F32.emax f32_prec_pos f32_prec_lt_emax false p 0)
      as (_ & _ & H).
    destruct H as (m & e & Hr & _); unfold emin, F32.prec, F32.emax; try lia.
    exists m, e. exact Hr.
  - assert (Hd : Zpos (digits2_pos p) <= 32) by (apply (digits2_pos_le p 31); lia).
    destruct (binary_round_spec F32.prec F32.emax f32_prec_pos f32_prec_lt_emax true p 0)
      as (_ & _ & H).
    destruct H as (m & e & Hr & _); unfold emin, F32.prec, F32.emax; try lia.
    exists m, e. exact Hr.
Qed.

Lemma of_int_finite (n : Z) :
  INT_MIN <= n <= INT_MAX -> is_finite (F32.of_int n) = true.
Proof.
  intros H. pose proof (of_int_cases n H) as Hc.
  destruct n; [rewrite Hc; reflexivity| |]; destruct Hc as (m & e & ->); reflexivity.
Qed.

Lemma of_int_le_zero (n : Z) :
  INT_MIN <= n <= INT_MAX -> F32.le (F32.of_int n) F32.zero = (n <=? 0).
Proof.
  intros H. pose proof (of_int_cases n H) as Hc.
  destruct n; [rewrite Hc; reflexivity| |]; destruct Hc as (m & e & ->); reflexivity.
Qed.

Lemma of_double_sign (d : spec_float) :
  is_nan d = false -> has_sign (SFsign d) (F32.of_double d).
Proof.
  destruct d as [s|s| |s m e]; simpl; intros H; try reflexivity; try discriminate.
  apply (binary_round_spec F32.prec F32.emax f32_prec_pos f32_prec_lt_emax).
Qed.

Lemma of_double_valid (d : spec_float) :
  valid_binary F32.prec F32.emax (F32.of_double d) = true.
Proof.
  destruct d as [s|s| |s m e]; simpl; try reflexivity.
  apply (binary_round_spec F32.prec F32.emax f32_prec_pos f32_prec_lt_emax).
Qed.

Lemma of_float_sign (x : spec_float) :
  is_nan x = false -> has_sign (SFsign x) (F64.of_float x).
Proof.
  destruct x as [s|s| |s m e]; simpl; intros H; try reflexivity; try discriminate.
  apply (binary_round_spec F64.prec F64.emax f64_prec_pos f64_prec_lt_emax).
Qed.

(** A finite non-zero [float] stays finite and non-zero as a [double], with
    its magnitude between 2^-149 and 2^129. *)
Lemma of_float_finite (s : bool) (m : positive) (e : Z) :
  valid_binary F32.prec F32.emax (S754_finite s m e) = true ->
  exists m' e', F64.of_float (S754_finite s m e) = S754_finite s m' e' /\
    -148 <= Zpos (digits2_pos m') + e' <= 129.
Proof.
  unfold valid_binary, bounded, canonical_mantissa, fexp, emin, F32.prec, F32.emax.
  intros Hv. apply andb_prop in Hv as [Hc He].
  apply Z.eqb_eq in Hc. apply Z.leb_le in He.
  pose proof (digits2_pos_pos m) as Hd.
  destruct (binary_round_spec F64.prec F64.emax f64_prec_pos f64_prec_lt_emax s m e)
    as (_ & _ & H).
  destruct H as (m' & e' & Hr & Hmag); unfold emin, F64.prec, F64.emax; try lia.
  exists m', e'. split; [exact Hr|lia].
Qed.

(* ================================================================== *)
(** * [SafeDiv], [Clamp01] and the ranges of the metrics *)

Lemma has_sign_false_nonneg (x : spec_float) :
  has_sign false x -> F32.le F32.zero x = true.
Proof. destruct x as [s|s| |s m e]; simpl; intros H; subst; reflexivity || contradiction. Qed.

Lemma nonneg_not_nan (x : spec_float) : F32.le F32.zero x = true -> is_nan x = false.
Proof. destruct x; simpl; intros H; reflexivity || discriminate. Qed.

Lemma in_unit_nonneg (x : spec_float) : F32.in_unit x = true -> F32.le F32.zero x = true.
Proof. unfold F32.in_unit. intros H. apply andb_prop in H. tauto. Qed.

Lemma in_unit_not_nan (x : spec_float) : F32.in_unit x = true -> is_nan x = false.
Proof. intros H. apply nonneg_not_nan, in_unit_nonneg, H. Qed.

Lemma Clamp01_in_unit (x : spec_float) :
  is_nan x = false -> F32.in_unit (detail.Clamp01 x) = true.
Proof.
  intros Hx. unfold detail.Clamp01, F32.lt, F32.gt.
  destruct (SFltb x F32.zero) eqn:H0; [reflexivity|].
  destruct (SFltb F32.one x) eqn:H1; [reflexivity|].
  unfold F32.in_unit, F32.le.
  rewrite (SFltb_false_SFleb x F32.zero Hx eq_refl H0).
  rewrite (SFltb_false_SFleb F32.one x eq_refl Hx H1). reflexivity.
Qed.

Lemma Clamp01_zero : detail.Clamp01 F32.zero = F32.zero.
Proof. reflexivity. Qed.

Lemma mul_const_nonneg (x : spec_float) (mc : positive) (ec : Z) :
  F32.le F32.zero x = true ->
  F32.le F32.zero (F32.mul x (S754_finite false mc ec)) = true.
Proof.
  intros Hx. destruct x as [s|[|]| |[|] m e]; try discriminate; try reflexivity.
  apply has_sign_false_nonneg.
  apply (SFmul_sign F32.prec F32.emax
           (S754_finite false m e) (S754_finite false mc ec)); reflexivity.
Qed.

Lemma add_nonneg (x y : spec_float) :
  F32.le F32.zero x = true -> F32.le F32.zero y = true ->
  F32.le F32.zero (F32.add x y) = true.
Proof. apply (SFadd_nonneg F32.prec F32.emax f32_prec_pos f32_prec_lt_emax). Qed.

(** Both composite scores lie in the unit interval once the three ratios are
    numbers that are not negative. *)
Lemma score_in_unit (c f r : spec_float) :
  F32.le F32.zero c = true -> F32.le F32.zero f = true -> F32.le F32.zero r = true ->
  let shapeScore := F32.add (F32.mul c F32.c0_55) (F32.mul f F32.c0_45) in
  F32.in_unit (detail.Clamp01 shapeScore) = true /\
  F32.in_unit (detail.Clamp01
    (F32.add (F32.mul shapeScore F32.c0_60) (F32.mul r F32.c0_40))) = true.
Proof.
  intros Hc Hf Hr shapeScore.
  assert (Hs : F32.le F32.zero shapeScore = true).
  { apply add_nonneg; apply mul_const_nonneg; assumption. }
  split; apply Clamp01_in_unit, nonneg_not_nan; [assumption|].
  apply add_nonneg; apply mul_const_nonneg; assumption.
Qed.

Lemma SafeDiv_of_int_not_nan (a b : Z) :
  INT_MIN <= a <= INT_MAX -> INT_MIN <= b <= INT_MAX ->
  is_nan (detail.SafeDiv (F32.of_int a) (F32.of_int b)) = false.
Proof.
  intros Ha Hb. unfold detail.SafeDiv. rewrite (of_int_le_zero b Hb).
  destruct (Z.leb_spec b 0) as [Hle|Hgt]; [reflexivity|].
  pose proof (of_int_cases b Hb) as Hcb. destruct b as [|pb|pb]; try lia.
  destruct Hcb as (mb & eb & ->).
  eapply has_sign_not_nan.
  apply (SFdiv_sign F32.prec F32.emax).
  - pose proof (of_int_finite a Ha). destruct (F32.of_int a); simpl in *; congruence.
  - reflexivity.
  - rewrite andb_false_r. reflexivity.
  - rewrite andb_false_r. reflexivity.
Qed.

(** With a positive divisor [SafeDiv] is the division. *)
Lemma SafeDiv_of_int_pos (a b : Z) :
  INT_MIN <= b <= INT_MAX -> 0 < b ->
  detail.SafeDiv (F32.of_int a) (F32.of_int b) = F32.div (F32.of_int a) (F32.of_int b).
Proof.
  intros Hb Hpos. unfold detail.SafeDiv. rewrite (of_int_le_zero b Hb).
  destruct (Z.leb_spec b 0); [lia|reflexivity].
Qed.

(** [std::max(1.0F, x)] is a number that is at least 1, whatever [x] is. *)
Lemma max_one_ge_one (x : spec_float) :
  F32.le F32.one (F32.max F32.one x) = true.
Proof.
  unfold F32.max, F32.lt, F32.le.
  destruct (SFltb F32.one x) eqn:H; [|reflexivity].
  apply SFltb_true_SFleb in H. tauto.
Qed.

Lemma ge_one_cases (x : spec_float) :
  F32.le F32.one x = true ->
  x = S754_infinity false \/ exists m e, x = S754_finite false m e.
Proof.
  destruct x as [s|[|]| |[|] m e]; simpl; intros H; try discriminate; eauto.
Qed.

(** A finite positive area over a divisor that is at least 1. *)
Lemma SafeDiv_fill_not_nan (area circleArea : spec_float) :
  is_finite area = true -> F32.le F32.one circleArea = true ->
  is_nan (detail.SafeDiv area circleArea) = false.
Proof.
  intros Ha Hc. unfold detail.SafeDiv.
  destruct (F32.le circleArea F32.zero); [reflexivity|].
  eapply has_sign_not_nan.
  apply (SFdiv_sign F32.prec F32.emax).
  - destruct area; try discriminate; reflexivity.
  - destruct (ge_one_cases _ Hc) as [-> | (m & e & ->)]; reflexivity.
  - destruct area; try discriminate; reflexivity.
  - destruct (ge_one_cases _ Hc) as [-> | (m & e & ->)]; simpl;
      rewrite andb_false_r; reflexivity.
Qed.

Section Circularity.
Context {ext : Externals}.

Lemma ComputeCircularity_degenerate (c : Contour) :
  F32.le (F32.of_double (contourArea c)) F32.zero = true \/
  F32.le (F32.of_double (arcLength c)) F32.zero = true ->
  detail.ComputeCircularity c = F32.zero.
Proof.
  intros H. unfold detail.ComputeCircularity.
  destruct H as [-> | ->]; [reflexivity|]. rewrite orb_true_r. reflexivity.
Qed.

(** The product [4.0 * CV_PI * area] for a finite positive [float] area is a
    finite positive [double]. *)
Lemma circularity_numerator (m : positive) (e : Z) :
  valid_binary F32.prec F32.emax (S754_finite false m e) = true ->
  exists mn en,
    F64.mul (F64.mul F64.c4 F64.CV_PI) (F64.of_float (S754_finite false m e))
    = S754_finite false mn en.
Proof.
  intros Hv. destruct (of_float_finite false m e Hv) as (m' & e' & -> & Hmag).
  change (F64.mul F64.c4 F64.CV_PI) with (S754_finite false 7074237752028440 (-49)).
  unfold F64.mul, SFmul. simpl xorb.
  pose proof (digits2_pos_mul 7074237752028440 m') as Hd.
  change (Zpos (digits2_pos 7074237752028440)) with 53 in Hd.
  pose proof (digits2_pos_pos m') as Hd'.
  destruct (binary_round_aux_pos F64.prec F64.emax f64_prec_pos f64_prec_lt_emax false
              (7074237752028440 * m') (-49 + e') loc_Exact) as (_ & _ & H).
  - unfold fexp, F64.prec. lia.
  - destruct H as (mn & en & Hr & _); unfold emin, F64.prec, F64.emax; try lia.
    exists mn, en. exact Hr.
Qed.

Lemma ComputeCircularity_nonneg (c : Contour) :
  measures_finite ext -> has_sign false (detail.ComputeCircularity c).
Proof.
  intros Hm. destruct (Hm c) as [Hfin Hper].
  unfold detail.ComputeCircularity.
  pose proof (of_double_valid (contourArea c)) as Hval.
  pose proof (of_double_sign (arcLength c) Hper) as Hps.
  set (area := F32.of_double (contourArea c)) in *.
  set (perimeter := F32.of_double (arcLength c)) in *.
  destruct (F32.le area F32.zero) eqn:Ha; [reflexivity|].
  destruct (F32.le perimeter F32.zero) eqn:Hp; [reflexivity|]. simpl orb. cbv iota.
  assert (Harea : exists m e, area = S754_finite false m e).
  { destruct area as [s|s| |[|] m e]; simpl in *; try discriminate; eauto. }
  destruct Harea as (m & e & Harea). rewrite Harea in *.
  destruct (circularity_numerator m e Hval) as (mn & en & ->).
  assert (Hden : has_sign false (F64.of_float (F32.mul perimeter perimeter))).
  { assert (Hmul : has_sign false (F32.mul perimeter perimeter)).
    { replace false with (xorb (SFsign perimeter) (SFsign perimeter)) by apply xorb_nilpotent.
      apply (SFmul_sign F32.prec F32.emax);
        destruct perimeter; simpl in *; try reflexivity; try discriminate; contradiction. }
    rewrite <- (has_sign_SFsign _ _ Hmul) at 1.
    apply of_float_sign. eapply has_sign_not_nan, Hmul. }
  set (den := F64.of_float (F32.mul perimeter perimeter)) in *.
  assert (Hq : has_sign false (F64.div (S754_finite false mn en) den)).
  { replace false with (xorb (SFsign (S754_finite false mn en)) (SFsign den)) at 1
      by (rewrite (has_sign_SFsign _ _ Hden); reflexivity).
    apply (SFdiv_sign F64.prec F64.emax);
      try reflexivity.
    eapply has_sign_not_nan, Hden. }
  rewrite <- (has_sign_SFsign _ _ Hq) at 1.
  apply of_double_sign. eapply has_sign_not_nan, Hq.
Qed.

End Circularity.

(* ================================================================== *)
(** * The model of [std::sort] *)

Section Sorting.
Context {A : Type} (comp : A -> A -> bool) (P : A -> Prop).

(** [comp] is a strict weak ordering on the elements that satisfy [P]. *)
Hypothesis comp_asym :
  forall x y, P x -> P y -> comp x y = true -> comp y x = false.
Hypothesis comp_negtrans :
  forall x y z, P x -> P y -> P z ->
    comp y x = false -> comp z y = false -> comp z x = false.

Lemma sort_insert_perm (v : A) (l : list A) :
  Permutation (v :: l) (sort_insert comp v l).
Proof.
  induction l as [|y rest IH]; simpl; [reflexivity|].
  destruct (comp v y); [reflexivity|].
  rewrite perm_swap. constructor. exact IH.
Qed.

Lemma std_sort_fold_perm (l acc : list A) :
  Permutation (acc ++ l) (fold_left (fun sorted v => sort_insert comp v sorted) l acc).
Proof.
  revert acc. induction l as [|x l IH]; intros acc; simpl.
  - rewrite app_nil_r. reflexivity.
  - rewrite <- IH. rewrite <- sort_insert_perm.
    symmetry. apply Permutation_middle.
Qed.

Lemma std_sort_perm (l : list A) : Permutation l (std_sort comp l).
Proof. exact (std_sort_fold_perm l []). Qed.

Lemma sort_insert_ordered (v : A) (l : list A) :
  P v -> Forall P l -> StronglySorted (fun a b => comp b a = false) l ->
  StronglySorted (fun a b => comp b a = false) (sort_insert comp v l).
Proof.
  intros Hv HP Hs. induction Hs as [|y rest Hrest IH Hy]; simpl.
  - repeat constructor.
  - inversion HP as [|? ? HPy HPrest]; subst.
    destruct (comp v y) eqn:Hc.
    + constructor; [constructor; assumption|].
      constructor; [apply comp_asym; assumption|].
      rewrite Forall_forall in *. intros z Hz.
      apply (comp_negtrans v y z); auto.
    + constructor; [apply IH; assumption|].
      apply (Permutation_Forall (sort_insert_perm v rest)).
      constructor; assumption.
Qed.

Lemma std_sort_fold_ordered (l acc : list A) :
  Forall P l -> Forall P acc -> StronglySorted (fun a b => comp b a = false) acc ->
  StronglySorted (fun a b => comp b a = false)
    (fold_left (fun sorted v => sort_insert comp v sorted) l acc).
Proof.
  revert acc. induction l as [|x l IH]; intros acc Hl Hacc Hs; simpl; [assumption|].
  inversion Hl; subst. apply IH; [assumption| |].
  - apply (Permutation_Forall (sort_insert_perm x acc)). constructor; assumption.
  - apply sort_insert_ordered; assumption.
Qed.

Lemma std_sort_ordered (l : list A) : Forall P l -> StronglySorted (fun a b => comp b a = false) (std_sort comp l).
Proof. intros H. apply std_sort_fold_ordered; [assumption|constructor|constructor]. Qed.

Lemma ordered_middle (l1 l2 l3 : list A) (a b : A) :
  StronglySorted (fun a b => comp b a = false) (l1 ++ a :: l2 ++ b :: l3) ->
  comp b a = false.
Proof.
  induction l1 as [|x l1 IH]; simpl; intros H; inversion H as [|? ? Hs Hall]; subst.
  - rewrite Forall_forall in Hall. apply Hall. apply in_or_app. right. left. reflexivity.
  - apply IH. assumption.
Qed.

End Sorting.

Lemma SFleb_SFltb_false (x y : spec_float) : SFleb x y = true -> SFltb y x = false.
Proof.
  intros H. destruct (SFltb y x) eqn:E; [|reflexivity].
  apply SFltb_true_SFleb in E. destruct E as [_ E]. congruence.
Qed.

Lemma SFleb_refl (x : spec_float) : is_nan x = false -> SFleb x x = true.
Proof.
  intros H. apply SFltb_false_SFleb; try assumption.
  destruct (SFltb x x) eqn:E; [|reflexivity].
  apply SFltb_true_SFleb in E. destruct E as [E1 E2]. congruence.
Qed.

Lemma SFleb_antisym_eqb (x y : spec_float) :
  SFleb x y = true -> SFleb y x = true -> SFeqb x y = true.
Proof.
  unfold SFleb, SFeqb. destruct (SFcompare x y) as [c|] eqn:Hc; [|discriminate].
  rewrite (SFcompare_antisym _ _ _ Hc). destruct c; simpl; congruence.
Qed.

(** The comparison of [Find] is a strict weak ordering on detections whose
    score is a number. *)
Lemma Find_comp_asym (x y : ColorPatternDetection) :
  Find_comp x y = true -> Find_comp y x = false.
Proof.
  unfold Find_comp, F32.gt.
  destruct (accepted (metrics x)), (accepted (metrics y)); simpl; try discriminate;
    try reflexivity; intros H; apply SFltb_true_SFleb in H; destruct H as [H1 H2];
    destruct (SFltb (score (metrics x)) (score (metrics y))) eqn:E; try reflexivity;
    apply SFltb_true_SFleb in E; destruct E; congruence.
Qed.

Lemma Find_comp_negtrans (x y z : ColorPatternDetection) :
  is_nan (score (metrics x)) = false ->
  is_nan (score (metrics y)) = false ->
  is_nan (score (metrics z)) = false ->
  Find_comp y x = false -> Find_comp z y = false -> Find_comp z x = false.
Proof.
  unfold Find_comp, F32.gt. intros Hx Hy Hz.
  destruct (accepted (metrics x)), (accepted (metrics y)), (accepted (metrics z));
    simpl; try discriminate; try reflexivity; intros H1 H2;
    apply SFleb_SFltb_false;
    apply (SFleb_trans _ (score (metrics y)));
    apply SFltb_false_SFleb; assumption.
Qed.

(* ================================================================== *)
(** * The structure of [Find] *)

Section Finder.
Context {ext : Externals}.
Variable config_ : ColorPatternConfig.

(** What the loop body stores in a detection. *)
Lemma Find_candidate_Some (cm sm em : Mat Z) (c : Contour) (det : ColorPatternDetection) :
  Find_candidate config_ cm sm em c = Some det ->
  let m := metrics det in
  contour det = c /\
  radiusPx det = snd (minEnclosingCircle c) /\
  areaPx m = F32.of_double (contourArea c) /\
  F32.le (areaPx m) F32.zero = false /\
  circularity m = detail.Clamp01 (detail.ComputeCircularity c) /\
  centerFillRatio m =
    detail.Clamp01 (detail.SafeDiv (areaPx m)
      (F32.max F32.one (F32.mul (F32.mul F32.CV_PI_F (radiusPx det)) (radiusPx det)))) /\
  ringSupportRatio m =
    (if enabled (context config_)
     then ring_ringSupportRatio config_ cm sm em (centerPx det) (radiusPx det)
     else F32.one) /\
  passesContext m =
    (if enabled (context config_)
     then F32.ge (ringSupportRatio m) (minSupportRatio (context config_))
     else true) /\
  score m =
    (let shapeScore := F32.add (F32.mul (circularity m) F32.c0_55)
                               (F32.mul (centerFillRatio m) F32.c0_45) in
     if enabled (context config_)
     then detail.Clamp01 (F32.add (F32.mul shapeScore F32.c0_60)
                                  (F32.mul (ringSupportRatio m) F32.c0_40))
     else detail.Clamp01 shapeScore) /\
  accepted m =
    passesArea m && passesCircularity m && passesCenterFill m && passesContext m.
Proof.
  unfold Find_candidate.
  destruct (F32.le (F32.of_double (contourArea c)) F32.zero) eqn:Ha; [discriminate|].
  destruct (minEnclosingCircle c) as [centerFloat radius].
  intros [= <-]. simpl. rewrite Ha. repeat split; reflexivity.
Qed.

Lemma Find_candidate_None (cm sm em : Mat Z) (c : Contour) :
  Find_candidate config_ cm sm em c = None <->
  F32.le (F32.of_double (contourArea c)) F32.zero = true.
Proof.
  unfold Find_candidate.
  destruct (F32.le (F32.of_double (contourArea c)) F32.zero); [tauto|].
  destruct (minEnclosingCircle c). split; discriminate.
Qed.

Lemma Find_detections_fold (cm sm em : Mat Z) (contours : list Contour)
    (acc : list ColorPatternDetection) :
  fold_left
    (fun dets contour =>
       match Find_candidate config_ cm sm em contour with
       | Some det => dets ++ [det]
       | None => dets
       end) contours acc
  = acc ++ flat_map (fun contour =>
             match Find_candidate config_ cm sm em contour with
             | Some det => [det]
             | None => []
             end) contours.
Proof.
  revert acc. induction contours as [|c l IH]; intros acc; simpl.
  - rewrite app_nil_r. reflexivity.
  - rewrite IH. destruct (Find_candidate config_ cm sm em c).
    + rewrite <- app_assoc. reflexivity.
    + reflexivity.
Qed.

Lemma Find_detections_In (cm sm em : Mat Z) (contours : list Contour)
    (det : ColorPatternDetection) :
  In det (Find_detections config_ cm sm em contours) <->
  exists c, In c contours /\ Find_candidate config_ cm sm em c = Some det.
Proof.
  unfold Find_detections. rewrite Find_detections_fold. simpl.
  rewrite in_flat_map. split; intros (c & Hc & H); exists c; split; trivial.
  - destruct (Find_candidate config_ cm sm em c) as [d|]; simpl in H; [|contradiction].
    destruct H as [<-|[]]. reflexivity.
  - rewrite H. left. reflexivity.
Qed.

(** The number of detections against the number of contours. *)
Lemma Find_detections_length (cm sm em : Mat Z) (contours : list Contour) :
  (List.length (Find_detections config_ cm sm em contours) <= List.length contours)%nat /\
  (List.length (Find_detections config_ cm sm em contours) <> List.length contours <->
   exists c, In c contours /\ F32.le (F32.of_double (contourArea c)) F32.zero = true).
Proof.
  unfold Find_detections. rewrite Find_detections_fold. simpl.
  induction contours as [|c l [IHle IHiff]]; simpl.
  - split; [lia|]. split; [intros H; contradiction H; reflexivity|intros (c & [] & _)].
  - rewrite length_app.
    destruct (Find_candidate config_ cm sm em c) as [d|] eqn:Hc; simpl.
    + split; [lia|]. split.
      * intros H. destruct IHiff as [IH1 _].
        destruct IH1 as (c' & Hin & Hz); [lia|]. exists c'. auto.
      * intros (c' & [<-|Hin] & Hz).
        -- apply Find_candidate_None with (cm := cm) (sm := sm) (em := em) in Hz. congruence.
        -- destruct IHiff as [_ IH2]. assert (H : exists c, In c l /\ _) by eauto.
           apply IH2 in H. lia.
    + split; [lia|]. split; [|lia].
      intros _. exists c. split; [left; reflexivity|].
      apply (Find_candidate_None cm sm em). assumption.
Qed.

Lemma Find_collect_fold_fields (l : list ColorPatternDetection)
    (r0 : ColorPatternRunResult.t) :
  let r := fold_left Find_collect l r0 in
  detections r = detections r0 /\
  rawCandidateCount r = rawCandidateCount r0 /\
  (INT_MIN <= acceptedCount r0 <= INT_MAX -> INT_MIN <= acceptedCount r <= INT_MAX).
Proof.
  revert r0. induction l as [|d l IH]; intros r0; simpl; [tauto|].
  destruct (IH (Find_collect r0 d)) as (H1 & H2 & H3).
  assert (Hstep : detections (Find_collect r0 d) = detections r0 /\
                  rawCandidateCount (Find_collect r0 d) = rawCandidateCount r0 /\
                  (INT_MIN <= acceptedCount r0 <= INT_MAX ->
                   INT_MIN <= acceptedCount (Find_collect r0 d) <= INT_MAX)).
  { unfold Find_collect. destruct (accepted (metrics d)); simpl; [|tauto].
    repeat split; try reflexivity; apply to_int_range. }
  destruct Hstep as (S1 & S2 & S3).
  rewrite H1, H2, S1, S2. split; [reflexivity|split; [reflexivity|]].
  intros Hr. apply H3, S3, Hr.
Qed.

Lemma Find_collect_score (r0 : ColorPatternRunResult.t) (d : ColorPatternDetection) :
  ColorPatternRunResult.score (Find_collect r0 d) =
  if accepted (metrics d)
  then F32.max (ColorPatternRunResult.score r0) (score (metrics d))
  else ColorPatternRunResult.score r0.
Proof. unfold Find_collect. destruct (accepted (metrics d)); reflexivity. Qed.

(** The running maximum kept in [result.score]. *)
Lemma Find_collect_fold_score (l : list ColorPatternDetection)
    (r0 : ColorPatternRunResult.t) :
  Forall (fun d => is_nan (score (metrics d)) = false) l ->
  is_nan (ColorPatternRunResult.score r0) = false ->
  let r := fold_left Find_collect l r0 in
  F32.le (ColorPatternRunResult.score r0) (ColorPatternRunResult.score r) = true /\
  (forall d, In d l -> accepted (metrics d) = true ->
     F32.le (score (metrics d)) (ColorPatternRunResult.score r) = true) /\
  (ColorPatternRunResult.score r = ColorPatternRunResult.score r0 \/
   exists d, In d l /\ accepted (metrics d) = true /\
     ColorPatternRunResult.score r = score (metrics d)).
Proof.
  revert r0. induction l as [|d l IH]; intros r0 Hl Hr0; simpl.
  - split; [apply SFleb_refl; assumption|]. split; [intros d []|left; reflexivity].
  - inversion Hl as [|? ? Hd Hl']; subst.
    pose proof (Find_collect_score r0 d) as Hs1.
    set (r1 := Find_collect r0 d) in *.
    destruct (accepted (metrics d)) eqn:Hacc.
    + assert (Hmax : is_nan (ColorPatternRunResult.score r1) = false /\
                     F32.le (ColorPatternRunResult.score r0)
                            (ColorPatternRunResult.score r1) = true /\
                     F32.le (score (metrics d)) (ColorPatternRunResult.score r1) = true).
      { rewrite Hs1. unfold F32.max, F32.lt, F32.le.
        destruct (SFltb (ColorPatternRunResult.score r0) (score (metrics d))) eqn:E.
        - split; [assumption|]. split; [apply SFltb_true_SFleb; assumption|].
          apply SFleb_refl; assumption.
        - split; [assumption|]. split; [apply SFleb_refl; assumption|].
          apply SFltb_false_SFleb; assumption. }
      destruct Hmax as (Hn1 & Hle0 & Hled).
      destruct (IH r1 Hl' Hn1) as (H1 & H2 & H3).
      split; [eapply SFleb_trans; eassumption|]. split.
      * intros d' [<-|Hin] Ha; [eapply SFleb_trans; eassumption|auto].
      * destruct H3 as [H3|(d' & Hin & Ha & H3)].
        -- rewrite H3, Hs1. unfold F32.max.
           destruct (F32.lt _ _); [right; exists d|left; reflexivity].
           split; [left; reflexivity|]. split; [assumption|reflexivity].
        -- right. exists d'. split; [right; assumption|]. split; assumption.
    + rewrite <- Hs1 in Hr0.
      destruct (IH r1 Hl' Hr0) as (H1 & H2 & H3). rewrite Hs1 in H1, H3.
      split; [assumption|]. split.
      * intros d' [<-|Hin] Ha; [congruence|auto].
      * destruct H3 as [H3|(d' & Hin & Ha & H3)]; [left; assumption|].
        right. exists d'. split; [right; assumption|]. split; assumption.
Qed.

(** The result of a call that returns. *)
Lemma Find_Returns (sceneBgr : Scene) (r : ColorPatternRunResult.t) :
  Find config_ sceneBgr = Returns r ->
  let dets := std_sort Find_comp
    (Find_detections config_ (Find_centerMask config_ sceneBgr)
       (Find_supportMask config_ sceneBgr) (Find_excludeMask config_ sceneBgr)
       (Find_contours config_ sceneBgr)) in
  let r0 :=
    {| ColorPatternRunResult.detections := dets;
       ColorPatternRunResult.acceptedCentersPx := [];
       ColorPatternRunResult.acceptedBoxesPx := [];
       ColorPatternRunResult.rawCandidateCount :=
         to_int (Z.of_nat (List.length (Find_contours config_ sceneBgr)));
       ColorPatternRunResult.acceptedCount := 0;
       ColorPatternRunResult.acceptedRatio := F32.zero;
       ColorPatternRunResult.sceneMaskCoverage :=
         detail.SafeDiv (F32.of_int (cv_countNonZero (Find_centerMask config_ sceneBgr)))
           (F32.of_int (to_int (rows (Find_centerMask config_ sceneBgr)
                                * cols (Find_centerMask config_ sceneBgr))));
       ColorPatternRunResult.score := F32.zero |} in
  Scene_empty sceneBgr = false /\
  detections r = dets /\
  rawCandidateCount r = to_int (Z.of_nat (List.length (Find_contours config_ sceneBgr))) /\
  acceptedCount r = acceptedCount (fold_left Find_collect dets r0) /\
  ColorPatternRunResult.score r = ColorPatternRunResult.score (fold_left Find_collect dets r0) /\
  acceptedRatio r =
    detail.SafeDiv (F32.of_int (acceptedCount r))
      (F32.of_int (Z.max 1 (rawCandidateCount r))).
Proof.
  unfold Find. destruct (Scene_empty sceneBgr); [discriminate|].
  intros [= <-]. cbv zeta. simpl ColorPatternRunResult.detections at 1.
  match goal with |- context [fold_left Find_collect ?l ?r0] =>
    destruct (Find_collect_fold_fields l r0) as (Hd & Hraw & _) end.
  simpl in Hd, Hraw. simpl. rewrite Hd, Hraw. repeat split; reflexivity.
Qed.

(** [Find] returns on every image that is not empty, and throws on the
    empty ones. *)
Lemma Find_total (sceneBgr : Scene) :
  if Scene_empty sceneBgr
  then Find config_ sceneBgr
       = Throws (invalid_argument "Find received empty scene image.")
  else exists r, Find config_ sceneBgr = Returns r.
Proof.
  unfold Find. destruct (Scene_empty sceneBgr); [reflexivity|].
  eexists. reflexivity.
Qed.

(** Every detection of the result was pushed by the loop body for one of the
    contours. *)
Lemma Find_detection_origin (sceneBgr : Scene) (r : ColorPatternRunResult.t)
    (det : ColorPatternDetection) :
  Find config_ sceneBgr = Returns r -> In det (detections r) ->
  exists c, In c (Find_contours config_ sceneBgr) /\
    Find_candidate config_ (Find_centerMask config_ sceneBgr)
      (Find_supportMask config_ sceneBgr) (Find_excludeMask config_ sceneBgr) c = Some det.
Proof.
  intros Hf Hin. destruct (Find_Returns _ _ Hf) as (_ & Hd & _).
  rewrite Hd in Hin.
  apply (Permutation_in _ (Permutation_sym (std_sort_perm Find_comp _))) in Hin.
  apply Find_detections_In. exact Hin.
Qed.

End Finder.

Lemma SFleb_strict (x y : spec_float) :
  SFleb x y = true -> SFleb y x = false -> SFltb x y = true.
Proof.
  unfold SFleb, SFltb. destruct (SFcompare x y) as [c|] eqn:Hc; [|discriminate].
  rewrite (SFcompare_antisym _ _ _ Hc). destruct c; simpl; congruence.
Qed.

Lemma SFeqb_SFleb (x y : spec_float) : SFeqb x y = true -> SFleb x y = true.
Proof. unfold SFeqb, SFleb. destruct (SFcompare x y) as [[| |]|]; congruence. Qed.

(* ================================================================== *)
(** * Properties of the finder *)

Section Properties.
Context {ext : Externals}.
Variable config_ : ColorPatternConfig.

(** Under the documented behaviour of the measuring primitives every ratio
    and the score of a candidate lie in the unit interval. *)
Lemma candidate_metrics_in_unit (cm sm em : Mat Z) (c : Contour)
    (det : ColorPatternDetection) :
  measures_finite ext ->
  Find_candidate config_ cm sm em c = Some det ->
  F32.in_unit (circularity (metrics det)) = true /\
  F32.in_unit (centerFillRatio (metrics det)) = true /\
  F32.in_unit (ringSupportRatio (metrics det)) = true /\
  F32.in_unit (score (metrics det)) = true.
Proof.
  intros Hm Hc.
  destruct (Find_candidate_Some config_ cm sm em c det Hc)
    as (_ & _ & Harea & _ & Hcirc & Hfill & Hring & _ & Hscore & _).
  assert (H1 : F32.in_unit (circularity (metrics det)) = true).
  { rewrite Hcirc. apply Clamp01_in_unit.
    eapply has_sign_not_nan, ComputeCircularity_nonneg, Hm. }
  assert (H2 : F32.in_unit (centerFillRatio (metrics det)) = true).
  { rewrite Hfill. apply Clamp01_in_unit, SafeDiv_fill_not_nan.
    - rewrite Harea. apply (Hm c).
    - apply max_one_ge_one. }
  assert (H3 : F32.in_unit (ringSupportRatio (metrics det)) = true).
  { rewrite Hring. destruct (enabled (context config_)); [|reflexivity].
    unfold ring_ringSupportRatio.
    apply Clamp01_in_unit, SafeDiv_of_int_not_nan; apply to_int_range. }
  repeat split; try assumption.
  rewrite Hscore. cbv zeta.
  destruct (score_in_unit (circularity (metrics det)) (centerFillRatio (metrics det))
              (ringSupportRatio (metrics det))) as [Hs1 Hs2];
    try (apply in_unit_nonneg; assumption).
  destruct (enabled (context config_)); assumption.
Qed.

Lemma detections_scores_in_unit (sceneBgr : Scene) (r : ColorPatternRunResult.t) :
  measures_finite ext -> Find config_ sceneBgr = Returns r ->
  Forall (fun d => F32.in_unit (score (metrics d)) = true) (detections r).
Proof.
  intros Hm Hf. apply Forall_forall. intros det Hin.
  destruct (Find_detection_origin config_ _ _ _ Hf Hin) as (c & _ & Hc).
  eapply candidate_metrics_in_unit; eassumption.
Qed.

(** C1. For every detection produced by [Find], the [accepted] flag is the
    conjunction of the four pass flags [passesArea], [passesCircularity],
    [passesCenterFill] and [passesContext]. *)
Theorem C1_accepted_is_conjunction (sceneBgr : Scene) (r : ColorPatternRunResult.t)
    (det : ColorPatternDetection) :
  Find config_ sceneBgr = Returns r ->
  In det (detections r) ->
  accepted (metrics det) =
    passesArea (metrics det) && passesCircularity (metrics det)
    && passesCenterFill (metrics det) && passesContext (metrics det).
Proof.
  intros Hf Hin.
  destruct (Find_detection_origin config_ _ _ _ Hf Hin) as (c & _ & Hc).
  apply (Find_candidate_Some config_ _ _ _ c det Hc).
Qed.

(** C9. With the context ring disabled every candidate has
    [ringSupportRatio] exactly 1 and [passesContext] true, whatever the frame
    and the support and exclusion colours are. *)
Theorem C9_context_disabled (sceneBgr : Scene) (r : ColorPatternRunResult.t)
    (det : ColorPatternDetection) :
  enabled (context config_) = false ->
  Find config_ sceneBgr = Returns r ->
  In det (detections r) ->
  ringSupportRatio (metrics det) = F32.one /\ passesContext (metrics det) = true.
Proof.
  intros Hoff Hf Hin.
  destruct (Find_detection_origin config_ _ _ _ Hf Hin) as (c & _ & Hc).
  destruct (Find_candidate_Some config_ _ _ _ c det Hc)
    as (_ & _ & _ & _ & _ & _ & Hring & Hctx & _).
  rewrite Hoff in Hring, Hctx. split; assumption.
Qed.

(** C7. For every candidate, [circularity] and [centerFillRatio] lie in
    [0, 1]; [ComputeCircularity] is 0 as soon as the area or the perimeter is
    not positive, and the divisor [std::max(1.0F, pi * radius * radius)] of the
    fill ratio is at least 1 for every radius (NaN and infinities included), so
    no division by zero occurs.  The area and the perimeter are the numbers
    that [cv::contourArea] and [cv::arcLength] return. *)
Theorem C7_metrics_in_unit_interval (sceneBgr : Scene) (r : ColorPatternRunResult.t)
    (det : ColorPatternDetection) :
  measures_finite ext ->
  Find config_ sceneBgr = Returns r ->
  In det (detections r) ->
  F32.in_unit (circularity (metrics det)) = true /\
  F32.in_unit (centerFillRatio (metrics det)) = true /\
  (forall c : Contour,
     F32.le (F32.of_double (contourArea c)) F32.zero = true \/
     F32.le (F32.of_double (arcLength c)) F32.zero = true ->
     detail.ComputeCircularity c = F32.zero) /\
  (forall radius : spec_float,
     let circleArea :=
       F32.max F32.one (F32.mul (F32.mul F32.CV_PI_F radius) radius) in
     F32.le F32.one circleArea = true /\ F32.le circleArea F32.zero = false).
Proof.
  intros Hm Hf Hin.
  destruct (Find_detection_origin config_ _ _ _ Hf Hin) as (c & _ & Hc).
  destruct (candidate_metrics_in_unit _ _ _ c det Hm Hc) as (H1 & H2 & _).
  split; [assumption|]. split; [assumption|]. split.
  - apply ComputeCircularity_degenerate.
  - intros radius circleArea. pose proof (max_one_ge_one
      (F32.mul (F32.mul F32.CV_PI_F radius) radius)) as Hge.
    fold circleArea in Hge. split; [assumption|].
    destruct (ge_one_cases _ Hge) as [-> | (m & e & ->)]; reflexivity.
Qed.

(** C3. The score of every candidate is
    [Clamp01(0.60 * (0.55 * circularity + 0.45 * centerFillRatio)
             + 0.40 * ringSupportRatio)]
    with the context ring enabled and
    [Clamp01(0.55 * circularity + 0.45 * centerFillRatio)] with it disabled;
    the overall score of the result is an upper bound of the scores of the
    accepted detections that one of them attains, and it is 0 when no
    detection is accepted. *)
Theorem C3_scores (sceneBgr : Scene) (r : ColorPatternRunResult.t) :
  measures_finite ext ->
  Find config_ sceneBgr = Returns r ->
  (forall det, In det (detections r) ->
     let m := metrics det in
     let shapeScore := F32.add (F32.mul (circularity m) F32.c0_55)
                               (F32.mul (centerFillRatio m) F32.c0_45) in
     score m =
       if enabled (context config_)
       then detail.Clamp01 (F32.add (F32.mul shapeScore F32.c0_60)
                                    (F32.mul (ringSupportRatio m) F32.c0_40))
       else detail.Clamp01 shapeScore) /\
  (forall det, In det (detections r) -> accepted (metrics det) = true ->
     F32.le (score (metrics det)) (ColorPatternRunResult.score r) = true) /\
  ((exists det, In det (detections r) /\ accepted (metrics det) = true /\
      F32.eq (ColorPatternRunResult.score r) (score (metrics det)) = true) \/
   ((forall det, In det (detections r) -> accepted (metrics det) = false) /\
    ColorPatternRunResult.score r = F32.zero)).
Proof.
  intros Hm Hf. split.
  - intros det Hin.
    destruct (Find_detection_origin config_ _ _ _ Hf Hin) as (c & _ & Hc).
    apply (Find_candidate_Some config_ _ _ _ c det Hc).
  - pose proof (detections_scores_in_unit _ _ Hm Hf) as Hunit.
    destruct (Find_Returns config_ _ _ Hf) as (_ & Hd & _ & _ & Hs & _).
    rewrite <- Hd in Hs.
    match type of Hs with _ = ColorPatternRunResult.score (fold_left _ _ ?r0) =>
      destruct (Find_collect_fold_score (detections r) r0) as (_ & H2 & H3) end.
    { eapply Forall_impl; [|exact Hunit]. intros d. apply in_unit_not_nan. }
    { reflexivity. }
    rewrite <- Hs in H2, H3. split; [exact H2|].
    destruct H3 as [H3|(d & Hin & Ha & H3)].
    + simpl in H3.
      destruct (existsb (fun d => accepted (metrics d)) (detections r)) eqn:Hex.
      * apply existsb_exists in Hex. destruct Hex as (d & Hin & Ha).
        left. exists d. split; [assumption|]. split; [assumption|].
        apply SFleb_antisym_eqb.
        -- rewrite H3. apply in_unit_nonneg.
           rewrite Forall_forall in Hunit. apply Hunit, Hin.
        -- apply H2; assumption.
      * right. split; [|assumption]. intros d Hin.
        destruct (accepted (metrics d)) eqn:Ha; [|reflexivity].
        rewrite <- Hex. symmetry. apply existsb_exists. eauto.
    + left. exists d. split; [assumption|]. split; [assumption|].
      rewrite H3. apply SFleb_antisym_eqb; apply SFleb_refl, in_unit_not_nan;
        rewrite Forall_forall in Hunit; apply Hunit, Hin.
Qed.

(** C4. In the detections of a result every accepted detection comes before
    every rejected one, and among detections of the same kind the scores do
    not increase. *)
Theorem C4_detections_sorted (sceneBgr : Scene) (r : ColorPatternRunResult.t)
    (l1 l2 l3 : list ColorPatternDetection) (a b : ColorPatternDetection) :
  measures_finite ext ->
  Find config_ sceneBgr = Returns r ->
  detections r = l1 ++ a :: l2 ++ b :: l3 ->
  (accepted (metrics b) = true -> accepted (metrics a) = true) /\
  (accepted (metrics a) = accepted (metrics b) ->
   F32.ge (score (metrics a)) (score (metrics b)) = true).
Proof.
  intros Hm Hf Hsplit.
  pose proof (detections_scores_in_unit _ _ Hm Hf) as Hunit.
  assert (Hnan : Forall (fun d => is_nan (score (metrics d)) = false) (detections r)).
  { eapply Forall_impl; [|exact Hunit]. intros d. apply in_unit_not_nan. }
  destruct (Find_Returns config_ _ _ Hf) as (_ & Hd & _).
  assert (Hsorted : StronglySorted (fun x y => Find_comp y x = false) (detections r)).
  { rewrite Hd.
    apply (std_sort_ordered Find_comp (fun d => is_nan (score (metrics d)) = false)).
    - intros x y _ _. apply Find_comp_asym.
    - apply Find_comp_negtrans.
    - apply (Permutation_Forall (Permutation_sym (std_sort_perm Find_comp _))).
      rewrite <- Hd. exact Hnan. }
  rewrite Hsplit in Hsorted, Hnan. apply ordered_middle in Hsorted.
  rewrite Forall_forall in Hnan.
  assert (Ha : is_nan (score (metrics a)) = false).
  { apply Hnan. apply in_or_app. right. left. reflexivity. }
  assert (Hb : is_nan (score (metrics b)) = false).
  { apply Hnan. apply in_or_app. right. right. apply in_or_app. right. left. reflexivity. }
  unfold Find_comp, F32.gt in Hsorted. unfold F32.ge.
  destruct (accepted (metrics a)), (accepted (metrics b)); simpl in Hsorted;
    try discriminate; split; try reflexivity; try discriminate; intros _;
    apply SFltb_false_SFleb; assumption.
Qed.

(** C8. [acceptedRatio] is [acceptedCount] divided by
    [max(1, rawCandidateCount)]: the divisor is a positive number, so the
    guard of [SafeDiv] is not taken and the quotient is not NaN; with no
    contour at all the counts and the ratio are 0. *)
Theorem C8_accepted_ratio (sceneBgr : Scene) (r : ColorPatternRunResult.t) :
  Find config_ sceneBgr = Returns r ->
  acceptedRatio r =
    F32.div (F32.of_int (acceptedCount r))
            (F32.of_int (Z.max 1 (rawCandidateCount r))) /\
  F32.gt (F32.of_int (Z.max 1 (rawCandidateCount r))) F32.zero = true /\
  is_finite (F32.of_int (Z.max 1 (rawCandidateCount r))) = true /\
  is_nan (acceptedRatio r) = false /\
  (Find_contours config_ sceneBgr = [] ->
   rawCandidateCount r = 0 /\ acceptedCount r = 0 /\ acceptedRatio r = F32.zero).
Proof.
  intros Hf.
  destruct (Find_Returns config_ _ _ Hf) as (_ & Hd & Hraw & Hcount & _ & Hratio).
  assert (Hrange : INT_MIN <= rawCandidateCount r <= INT_MAX).
  { rewrite Hraw. apply to_int_range. }
  assert (Hden : INT_MIN <= Z.max 1 (rawCandidateCount r) <= INT_MAX).
  { unfold INT_MIN, INT_MAX in *. lia. }
  assert (Hacc : INT_MIN <= acceptedCount r <= INT_MAX).
  { rewrite Hcount.
    match goal with |- context [fold_left Find_collect ?l ?r0] =>
      apply (Find_collect_fold_fields l r0) end.
    simpl. unfold INT_MIN, INT_MAX. lia. }
  split; [rewrite Hratio; apply SafeDiv_of_int_pos; [assumption|lia]|].
  split.
  { unfold F32.gt. apply SFleb_strict.
    - apply has_sign_false_nonneg.
      pose proof (of_int_cases _ Hden) as Hc.
      destruct (Z.max 1 (rawCandidateCount r)) eqn:E; try lia.
      destruct Hc as (m & e & ->). reflexivity.
    - apply (eq_trans (of_int_le_zero _ Hden)). apply Z.leb_gt. lia. }
  split; [apply of_int_finite; assumption|].
  split; [rewrite Hratio; apply SafeDiv_of_int_not_nan; assumption|].
  intros Hnil. rewrite Hratio, Hcount, Hraw.
  unfold Find_detections. rewrite Hnil. simpl. repeat split; reflexivity.
Qed.

(** C10. [rawCandidateCount] is the number of contours found in the cleaned
    centre mask, those of area zero included; the detections are the contours
    of positive area, so every detection has [areaPx > 0], there are at most
    [rawCandidateCount] detections, and fewer exactly when some contour has
    area zero. *)
Theorem C10_raw_count_and_detections (sceneBgr : Scene) (r : ColorPatternRunResult.t) :
  area_nonneg ext ->
  Z.of_nat (List.length (Find_contours config_ sceneBgr)) <= INT_MAX ->
  Find config_ sceneBgr = Returns r ->
  rawCandidateCount r = Z.of_nat (List.length (Find_contours config_ sceneBgr)) /\
  (forall det, In det (detections r) ->
     In (contour det) (Find_contours config_ sceneBgr) /\
     areaPx (metrics det) = F32.of_double (contourArea (contour det)) /\
     F32.gt (areaPx (metrics det)) F32.zero = true) /\
  Z.of_nat (List.length (detections r)) <= rawCandidateCount r /\
  (Z.of_nat (List.length (detections r)) <> rawCandidateCount r <->
   exists c, In c (Find_contours config_ sceneBgr) /\
     F32.eq (F32.of_double (contourArea c)) F32.zero = true).
Proof.
  intros Hnn Hlen Hf.
  destruct (Find_Returns config_ _ _ Hf) as (_ & Hd & Hraw & _).
  assert (Hraw' : rawCandidateCount r
                  = Z.of_nat (List.length (Find_contours config_ sceneBgr))).
  { rewrite Hraw. apply to_int_id. unfold INT_MIN. lia. }
  assert (Hlen' : List.length (detections r)
                  = List.length (Find_detections config_ (Find_centerMask config_ sceneBgr)
                      (Find_supportMask config_ sceneBgr) (Find_excludeMask config_ sceneBgr)
                      (Find_contours config_ sceneBgr))).
  { rewrite Hd. symmetry. apply Permutation_length, std_sort_perm. }
  destruct (Find_detections_length config_ (Find_centerMask config_ sceneBgr)
              (Find_supportMask config_ sceneBgr) (Find_excludeMask config_ sceneBgr)
              (Find_contours config_ sceneBgr)) as [Hle Hiff].
  split; [assumption|]. split.
  - intros det Hin.
    destruct (Find_detection_origin config_ _ _ _ Hf Hin) as (c & Hc & Hcand).
    destruct (Find_candidate_Some config_ _ _ _ c det Hcand)
      as (Hcont & _ & Harea & Hpos & _).
    rewrite Hcont. split; [assumption|]. split; [assumption|].
    unfold F32.gt. apply SFleb_strict; [|exact Hpos].
    rewrite Harea. apply Hnn.
  - rewrite Hraw', Hlen'. split; [lia|].
    split.
    + intros Hne. destruct Hiff as [H1 _].
      destruct H1 as (c & Hc & Hz); [lia|]. exists c. split; [assumption|].
      apply SFleb_antisym_eqb; [exact Hz|apply Hnn].
    + intros (c & Hc & Hz). destruct Hiff as [_ H2].
      assert (Hne : List.length (Find_detections config_ (Find_centerMask config_ sceneBgr)
                      (Find_supportMask config_ sceneBgr) (Find_excludeMask config_ sceneBgr)
                      (Find_contours config_ sceneBgr))
                    <> List.length (Find_contours config_ sceneBgr)).
      { apply H2. exists c. split; [assumption|]. apply SFeqb_SFleb, Hz. }
      lia.
Qed.

End Properties.

(* ================================================================== *)
(** * The mask builder *)

Lemma ClampHue_range (h : Z) : 0 <= ClampHue h <= 179.
Proof.
  unfold ClampHue. rewrite Z.gtb_ltb.
  destruct (Z.ltb_spec h 0); [lia|]. destruct (Z.ltb_spec 179 h); lia.
Qed.

(** Every range of a constructed set has its two hues in [0, 179]. *)
Lemma HueRangeSet_of_clamped (ranges : list HueRange) :
  Forall (fun r => 0 <= minHue r <= 179 /\ 0 <= maxHue r <= 179)
    (ranges_ (HueRangeSet_of ranges)).
Proof.
  unfold HueRangeSet_of.
  assert (H : forall l acc,
    Forall (fun r => 0 <= minHue r <= 179 /\ 0 <= maxHue r <= 179) (ranges_ acc) ->
    Forall (fun r => 0 <= minHue r <= 179 /\ 0 <= maxHue r <= 179)
      (ranges_ (fold_left Add l acc))).
  { induction l as [|r l IH]; intros acc Hacc; simpl; [assumption|].
    apply IH. unfold Add. simpl. apply Forall_app. split; [assumption|].
    constructor; [|constructor]. simpl. split; apply ClampHue_range. }
  apply H. constructor.
Qed.

Lemma effective_range_bounds (lo hi : Z) :
  0 <= fst (effective_range lo hi) <= snd (effective_range lo hi) /\
  snd (effective_range lo hi) <= 255.
Proof.
  unfold effective_range, std_clamp. rewrite Z.gtb_ltb.
  repeat match goal with
         | |- context [?a <? ?b] => destruct (Z.ltb_spec a b)
         end; simpl; lia.
Qed.

Lemma BuildMask_part_px (hsv : Mat Vec3b) (sLo sHi vLo vHi : Z) (r : HueRange) (y x : Z) :
  px (BuildMask_part hsv sLo sHi vLo vHi r) y x =
  match px hsv y x with
  | (h, s, v) =>
      if hue_in_range r h && (sLo <=? s) && (s <=? sHi) && (vLo <=? v) && (v <=? vHi)
      then 255 else 0
  end.
Proof.
  unfold BuildMask_part, hue_in_range.
  destruct (minHue r <=? maxHue r); simpl; destruct (px hsv y x) as [[h s] v].
  - destruct (minHue r <=? h), (h <=? maxHue r), (sLo <=? s), (s <=? sHi),
      (vLo <=? v), (v <=? vHi); reflexivity.
  - destruct (0 <=? h), (h <=? maxHue r), (minHue r <=? h), (h <=? 179),
      (sLo <=? s), (s <=? sHi), (vLo <=? v), (v <=? vHi); reflexivity.
Qed.

Lemma BuildMask_fold_px (hsv : Mat Vec3b) (sLo sHi vLo vHi : Z) (ranges : list HueRange)
    (acc : Mat Z) (y x : Z) :
  let mask := fold_left
    (fun accumulated r =>
       cv_bitwise_or accumulated (BuildMask_part hsv sLo sHi vLo vHi r)) ranges acc in
  rows mask = rows acc /\ cols mask = cols acc /\
  (px acc y x = 0 \/ px acc y x = 255 ->
   px mask y x =
   match px hsv y x with
   | (h, s, v) =>
       if (negb (px acc y x =? 0) || existsb (fun r => hue_in_range r h) ranges)
          && ((sLo <=? s) && (s <=? sHi) && (vLo <=? v) && (v <=? vHi)
              || negb (px acc y x =? 0))
       then 255 else 0
   end).
Proof.
  revert acc. induction ranges as [|r l IH]; intros acc; simpl.
  - repeat split. destruct (px hsv y x) as [[h s] v].
    intros [-> | ->]; simpl; [reflexivity|]. rewrite orb_true_r. reflexivity.
  - destruct (IH (cv_bitwise_or acc (BuildMask_part hsv sLo sHi vLo vHi r)))
      as (Hr & Hc & Hpx).
    split; [exact Hr|]. split; [exact Hc|]. intros Hacc.
    simpl in Hpx. rewrite BuildMask_part_px in Hpx.
    destruct (px hsv y x) as [[h s] v].
    destruct (hue_in_range r h), (sLo <=? s), (s <=? sHi), (vLo <=? v), (v <=? vHi);
      simpl in *; destruct Hacc as [Ha | Ha]; rewrite Ha in *; simpl in *;
      rewrite Hpx by auto;
      destruct (existsb (fun r0 => hue_in_range r0 h) l); reflexivity.
Qed.

(** The value of every pixel of the mask of a non-empty image. *)
Lemma BuildMask_px (self : HueRangeSet) (hsv : Mat Vec3b)
    (satMin satMax valMin valMax y x : Z) :
  Mat_empty hsv = false ->
  let mask := BuildMask self hsv satMin satMax valMin valMax in
  rows mask = rows hsv /\ cols mask = cols hsv /\
  px mask y x =
  match px hsv y x with
  | (h, s, v) =>
      if existsb (fun r => hue_in_range r h) (ranges_ self)
         && (fst (effective_range satMin satMax) <=? s)
         && (s <=? snd (effective_range satMin satMax))
         && (fst (effective_range valMin valMax) <=? v)
         && (v <=? snd (effective_range valMin valMax))
      then 255 else 0
  end.
Proof.
  intros Hne. unfold BuildMask. rewrite Hne.
  unfold Empty. destruct (ranges_ self) as [|r0 l] eqn:Hranges.
  - simpl. destruct (px hsv y x) as [[h s] v]. auto.
  - rewrite <- Hranges. clear Hranges.
    unfold effective_range.
    set (s1 := std_clamp satMin 0 255). set (s2 := std_clamp satMax 0 255).
    set (v1 := std_clamp valMin 0 255). set (v2 := std_clamp valMax 0 255).
    destruct (s1 >? s2), (v1 >? v2); simpl fst; simpl snd;
      match goal with |- context [fold_left ?f (ranges_ self) ?acc] =>
        match f with context [BuildMask_part hsv ?a ?b ?c ?d] =>
          destruct (BuildMask_fold_px hsv a b c d (ranges_ self) acc y x)
            as (Hr & Hc & Hpx)
        end
      end;
      (split; [exact Hr|]; split; [exact Hc|]);
      rewrite Hpx by (left; reflexivity); simpl;
      destruct (px hsv y x) as [[h s] v]; rewrite orb_false_r;
      rewrite !andb_assoc; reflexivity.
Qed.

(** A mask holds only 0 and 255, and an empty mask holds 0. *)
Lemma BuildMask_binary (self : HueRangeSet) (hsv : Mat Vec3b)
    (satMin satMax valMin valMax y x : Z) :
  let mask := BuildMask self hsv satMin satMax valMin valMax in
  (px mask y x = 0 \/ px mask y x = 255) /\
  (Mat_empty mask = true -> px mask y x = 0).
Proof.
  destruct (Mat_empty hsv) eqn:Hne.
  - unfold BuildMask. rewrite Hne. simpl. auto.
  - destruct (BuildMask_px self hsv satMin satMax valMin valMax y x Hne) as (Hr & Hc & Hpx).
    cbv zeta. split.
    + rewrite Hpx. destruct (px hsv y x) as [[h s] v].
      match goal with |- context [if ?b then _ else _] => destruct b end; auto.
    + unfold Mat_empty in *. rewrite Hr, Hc, Hne. discriminate.
Qed.

(** C5. For every pixel of an HSV frame, [BuildMask] marks it foreground
    (255) exactly when its hue lies in one of the hue ranges of the set, a
    range with [minHue > maxHue] standing for [0, maxHue] and [minHue, 179]
    together, and its saturation and value lie between the bounds, which are
    the given ones clamped to [0, 255] and swapped when reversed; every other
    pixel is background (0), so an empty set of ranges gives a mask that is
    background everywhere.  The mask has the dimensions of the frame. *)
Theorem C5_BuildMask_membership (self : HueRangeSet) (hsv : Mat Vec3b)
    (satMin satMax valMin valMax y x : Z) :
  0 <= y < rows hsv -> 0 <= x < cols hsv ->
  let mask := BuildMask self hsv satMin satMax valMin valMax in
  let sat := effective_range satMin satMax in
  let val := effective_range valMin valMax in
  rows mask = rows hsv /\ cols mask = cols hsv /\
  px mask y x =
    match px hsv y x with
    | (h, s, v) =>
        if existsb (fun r => hue_in_range r h) (ranges_ self)
           && (fst sat <=? s) && (s <=? snd sat) && (fst val <=? v) && (v <=? snd val)
        then 255 else 0
    end /\
  (Empty self = true -> px mask y x = 0) /\
  sat = (let lo := std_clamp satMin 0 255 in
         let hi := std_clamp satMax 0 255 in
         if lo >? hi then (hi, lo) else (lo, hi)) /\
  val = (let lo := std_clamp valMin 0 255 in
         let hi := std_clamp valMax 0 255 in
         if lo >? hi then (hi, lo) else (lo, hi)) /\
  0 <= fst sat <= snd sat /\ snd sat <= 255 /\
  0 <= fst val <= snd val /\ snd val <= 255.
Proof.
  intros Hy Hx mask sat val.
  assert (Hne : Mat_empty hsv = false).
  { unfold Mat_empty. apply orb_false_intro; apply Z.leb_gt; lia. }
  destruct (BuildMask_px self hsv satMin satMax valMin valMax y x Hne) as (Hr & Hc & Hpx).
  split; [exact Hr|]. split; [exact Hc|]. split; [exact Hpx|]. split.
  - intros He. subst mask. rewrite Hpx. unfold Empty in He.
    destruct (ranges_ self); [|discriminate]. simpl.
    destruct (px hsv y x) as [[h s] v]. reflexivity.
  - split; [reflexivity|]. split; [reflexivity|].
    pose proof (effective_range_bounds satMin satMax).
    pose proof (effective_range_bounds valMin valMax). subst sat val. tauto.
Qed.

(* ================================================================== *)
(** * The context ring *)

Lemma lxor_land_ldiff (a b : Z) : Z.lxor a (Z.land a b) = Z.ldiff a b.
Proof.
  apply Z.bits_inj'. intros n Hn.
  rewrite Z.lxor_spec, Z.land_spec, Z.ldiff_spec.
  destruct (Z.testbit a n), (Z.testbit b n); reflexivity.
Qed.

Section Ring.
Context {ext : Externals}.
Variable config_ : ColorPatternConfig.

Lemma lround_int_range (v : spec_float) : INT_MIN <= lround_int v <= INT_MAX.
Proof.
  unfold lround_int. destruct (round_half_away v) as [z|]; [|apply to_int_range].
  destruct ((INT_MIN <=? z) && (z <=? INT_MAX)) eqn:E; [|apply to_int_range].
  apply andb_prop in E. destruct E as [E1 E2].
  apply Z.leb_le in E1. apply Z.leb_le in E2. lia.
Qed.

Lemma ring_inner_range (radius : spec_float) : 1 <= ring_inner config_ radius <= INT_MAX.
Proof.
  unfold ring_inner. pose proof (lround_int_range
    (F32.mul radius (F32.div (F32.of_int (innerRadiusPercent (context config_))) F32.c100))).
  unfold INT_MAX in *. lia.
Qed.

Lemma ApplyMorphology_size (mask : Mat Z) (cfg : MorphologyConfig) :
  rows (detail.ApplyMorphology mask cfg) = rows mask /\
  cols (detail.ApplyMorphology mask cfg) = cols mask.
Proof.
  unfold detail.ApplyMorphology.
  destruct (Mat_empty mask), (openIterations cfg >? 0), (closeIterations cfg >? 0),
    (dilateIterations cfg >? 0); simpl; auto.
Qed.

Lemma Find_hsv_size (sceneBgr : Scene) :
  Scene_empty sceneBgr = false -> Mat_empty (Find_hsv sceneBgr) = false.
Proof. destruct sceneBgr; simpl; intros H; exact H. Qed.

(** The three masks of [Find] have the dimensions of the converted frame. *)
Lemma Find_masks_size (sceneBgr : Scene) :
  Scene_empty sceneBgr = false ->
  rows (Find_centerMask config_ sceneBgr) = rows (Find_hsv sceneBgr) /\
  cols (Find_centerMask config_ sceneBgr) = cols (Find_hsv sceneBgr) /\
  (enabled (context config_) = true ->
   rows (Find_supportMask config_ sceneBgr) = rows (Find_hsv sceneBgr) /\
   cols (Find_supportMask config_ sceneBgr) = cols (Find_hsv sceneBgr)).
Proof.
  intros Hne. apply Find_hsv_size in Hne.
  unfold Find_centerMask, Find_supportMask, detail.BuildMask.
  destruct (ApplyMorphology_size
    (BuildMask (hues (centerColor config_)) (Find_hsv sceneBgr)
       (minValue (satRange (centerColor config_))) (maxValue (satRange (centerColor config_)))
       (minValue (valRange (centerColor config_))) (maxValue (valRange (centerColor config_))))
    (centerMorph config_)) as [-> ->].
  split; [apply (BuildMask_px _ _ _ _ _ _ 0 0 Hne)|].
  split; [apply (BuildMask_px _ _ _ _ _ _ 0 0 Hne)|].
  intros ->. split; apply (BuildMask_px _ _ _ _ _ _ 0 0 Hne).
Qed.

Lemma Find_supportMask_binary (sceneBgr : Scene) (y x : Z) :
  px (Find_supportMask config_ sceneBgr) y x = 0 \/
  px (Find_supportMask config_ sceneBgr) y x = 255.
Proof.
  unfold Find_supportMask. destruct (enabled (context config_)); [|left; reflexivity].
  apply BuildMask_binary.
Qed.

Lemma Find_excludeMask_binary (sceneBgr : Scene) (y x : Z) :
  (px (Find_excludeMask config_ sceneBgr) y x = 0 \/
   px (Find_excludeMask config_ sceneBgr) y x = 255) /\
  (Mat_empty (Find_excludeMask config_ sceneBgr) = true ->
   px (Find_excludeMask config_ sceneBgr) y x = 0).
Proof.
  unfold Find_excludeMask.
  destruct (enabled (context config_) && negb (Empty (excludeHues (context config_)))).
  - apply BuildMask_binary.
  - simpl. auto.
Qed.

Lemma ring_ringMask_px (cm : Mat Z) (center : Point) (radius : spec_float) (y x : Z) :
  px (ring_ringMask config_ cm center radius) y x =
  if circle_covers center (ring_inner config_ radius) x y then 0
  else if circle_covers center (ring_outer config_ radius) x y then 255 else 0.
Proof. reflexivity. Qed.

Lemma ring_ringMask_binary (cm : Mat Z) (center : Point) (radius : spec_float) (y x : Z) :
  px (ring_ringMask config_ cm center radius) y x = 0 \/
  px (ring_ringMask config_ cm center radius) y x = 255.
Proof.
  rewrite ring_ringMask_px.
  destruct (circle_covers center _ x y); [auto|].
  destruct (circle_covers center _ x y); auto.
Qed.

(** The valid ring is the ring without the pixels of the exclusion mask. *)
Lemma ring_validRingMask_px (cm em : Mat Z) (center : Point) (radius : spec_float)
    (y x : Z) :
  px em y x = 0 \/ px em y x = 255 ->
  (Mat_empty em = true -> px em y x = 0) ->
  px (ring_validRingMask config_ cm em center radius) y x =
    (if negb (px (ring_ringMask config_ cm center radius) y x =? 0) && (px em y x =? 0)
     then 255 else 0) /\
  (Mat_empty em = false ->
   px (ring_validRingMask config_ cm em center radius) y x =
     Z.lxor (px (ring_ringMask config_ cm center radius) y x)
            (Z.land (px (ring_ringMask config_ cm center radius) y x) (px em y x))).
Proof.
  intros Hbin Hempty. unfold ring_validRingMask.
  pose proof (ring_ringMask_binary cm center radius y x) as Hrm.
  set (ring := ring_ringMask config_ cm center radius) in *.
  destruct (Mat_empty em) eqn:He; cbn [negb].
  - change (px (Mat_map (fun v : Z => v) ring) y x) with (px ring y x).
    rewrite (Hempty eq_refl). split; [|discriminate].
    destruct Hrm as [-> | ->]; reflexivity.
  - change (px (cv_bitwise_xor (Mat_map (fun v : Z => v) ring) (cv_bitwise_and ring em)) y x)
      with (Z.lxor (px ring y x) (Z.land (px ring y x) (px em y x))).
    split; [|reflexivity].
    destruct Hrm as [-> | ->], Hbin as [-> | ->]; reflexivity.
Qed.

(** The percentage is divided by 100 first and every operation rounds to
    [float]: for a radius of 30 and 105 percent the product is the float just
    below 31.5, so the inner radius is 31 (the exact product 31.5 would round
    to 32). *)
Lemma ring_inner_rounds_in_float :
  F32.mul (S754_finite false 15728640 (-19)) (F32.div (F32.of_int 105) F32.c100)
    = S754_finite false 16515071 (-19) /\
  lround_int (F32.mul (S754_finite false 15728640 (-19))
                (F32.div (F32.of_int 105) F32.c100)) = 31.
Proof. split; reflexivity. Qed.

(** C2. With the context ring enabled, for every candidate: the annulus is
    the disc of radius
    [outer = max(inner + 1, lround(radius * (outerPercent / 100)))] without the
    disc of radius [inner = max(1, lround(radius * (innerPercent / 100)))], the
    products being taken in [float]; the valid annulus is the annulus without
    the pixels of the exclusion mask (the exclusive-or with the excluded part
    of the ring is this difference); [ringSupportRatio] is [Clamp01] of the
    number of support pixels in the valid annulus over the number of its
    pixels, and 0 when it has none; [passesContext] is
    [ringSupportRatio >= minSupportRatio]. *)
Theorem C2_context_ring (sceneBgr : Scene) (r : ColorPatternRunResult.t)
    (det : ColorPatternDetection) :
  enabled (context config_) = true ->
  Find config_ sceneBgr = Returns r ->
  In det (detections r) ->
  let cm := Find_centerMask config_ sceneBgr in
  let sm := Find_supportMask config_ sceneBgr in
  let em := Find_excludeMask config_ sceneBgr in
  let center := centerPx det in
  let radius := radiusPx det in
  let inner := ring_inner config_ radius in
  let outer := ring_outer config_ radius in
  let ringMask := ring_ringMask config_ cm center radius in
  let validRingMask := ring_validRingMask config_ cm em center radius in
  let supportInRing := ring_supportInRing config_ cm sm em center radius in
  inner = Z.max 1 (lround_int (F32.mul radius
            (F32.div (F32.of_int (innerRadiusPercent (context config_))) F32.c100))) /\
  outer = Z.max (to_int (inner + 1)) (lround_int (F32.mul radius
            (F32.div (F32.of_int (outerRadiusPercent (context config_))) F32.c100))) /\
  1 <= inner /\ (inner < INT_MAX -> inner + 1 <= outer) /\
  (forall y x,
     px ringMask y x =
       (if circle_covers center inner x y then 0
        else if circle_covers center outer x y then 255 else 0) /\
     px validRingMask y x =
       (if negb (px ringMask y x =? 0) && (px em y x =? 0) then 255 else 0) /\
     (Mat_empty em = false ->
      px validRingMask y x = Z.lxor (px ringMask y x) (Z.land (px ringMask y x) (px em y x)) /\
      px validRingMask y x = Z.ldiff (px ringMask y x) (px em y x)) /\
     px supportInRing y x =
       (if negb (px sm y x =? 0) && negb (px validRingMask y x =? 0) then 255 else 0)) /\
  rows supportInRing = rows validRingMask /\ cols supportInRing = cols validRingMask /\
  ringSupportRatio (metrics det) =
    detail.Clamp01 (detail.SafeDiv (F32.of_int (cv_countNonZero supportInRing))
                                   (F32.of_int (cv_countNonZero validRingMask))) /\
  (0 < cv_countNonZero validRingMask ->
   ringSupportRatio (metrics det) =
     detail.Clamp01 (F32.div (F32.of_int (cv_countNonZero supportInRing))
                             (F32.of_int (cv_countNonZero validRingMask)))) /\
  (Mat_nonzero_count validRingMask = 0 -> ringSupportRatio (metrics det) = F32.zero) /\
  passesContext (metrics det) =
    F32.ge (ringSupportRatio (metrics det)) (minSupportRatio (context config_)).
Proof.
  intros Hon Hf Hin cm sm em center radius inner outer ringMask validRingMask supportInRing.
  destruct (Find_detection_origin config_ _ _ _ Hf Hin) as (c & _ & Hc).
  destruct (Find_candidate_Some config_ _ _ _ c det Hc)
    as (_ & _ & _ & _ & _ & _ & Hring & Hctx & _).
  rewrite Hon in Hring, Hctx.
  destruct (Find_Returns config_ _ _ Hf) as (Hne & _).
  pose proof (ring_inner_range radius) as Hinner. fold inner in Hinner.
  assert (Hvalid : forall y x,
    px validRingMask y x =
      (if negb (px ringMask y x =? 0) && (px em y x =? 0) then 255 else 0) /\
    (Mat_empty em = false ->
      px validRingMask y x = Z.lxor (px ringMask y x) (Z.land (px ringMask y x) (px em y x)))).
  { intros y x. destruct (Find_excludeMask_binary sceneBgr y x) as [Hbin Hempty].
    apply ring_validRingMask_px; assumption. }
  split; [reflexivity|]. split; [reflexivity|]. split; [lia|]. split.
  { intros Hlt. unfold outer, ring_outer. fold inner.
    rewrite to_int_id by (unfold INT_MIN, INT_MAX in *; lia). lia. }
  split.
  { intros y x. destruct (Hvalid y x) as [Hv1 Hv2].
    split; [apply ring_ringMask_px|]. split; [exact Hv1|]. split.
    - intros He. split; [exact (Hv2 He)|].
      rewrite (Hv2 He). apply lxor_land_ldiff.
    - unfold supportInRing, ring_supportInRing. fold validRingMask. simpl.
      rewrite Hv1. fold sm.
      destruct (Find_supportMask_binary sceneBgr y x) as [Hs | Hs]; fold sm in Hs;
        rewrite Hs; destruct (negb (px ringMask y x =? 0) && (px em y x =? 0));
        reflexivity. }
  assert (Hsize : rows supportInRing = rows validRingMask /\
                  cols supportInRing = cols validRingMask).
  { destruct (Find_masks_size sceneBgr Hne) as (Hr1 & Hc1 & Hs).
    destruct (Hs Hon) as [Hr2 Hc2].
    unfold supportInRing, ring_supportInRing, validRingMask, ring_validRingMask.
    fold sm cm. simpl rows at 1. simpl cols at 1. fold sm.
    unfold sm, cm. rewrite Hr2, Hc2, <- Hr1, <- Hc1.
    destruct (negb (Mat_empty em)); simpl; auto. }
  split; [apply Hsize|]. split; [apply Hsize|].
  assert (Hratio : ringSupportRatio (metrics det) =
    detail.Clamp01 (detail.SafeDiv (F32.of_int (cv_countNonZero supportInRing))
                                   (F32.of_int (cv_countNonZero validRingMask)))).
  { rewrite Hring. reflexivity. }
  split; [exact Hratio|]. split.
  { intros Hpos. rewrite Hratio. f_equal.
    apply SafeDiv_of_int_pos; [apply to_int_range|assumption]. }
  split; [|exact Hctx].
  intros Hzero. rewrite Hratio. unfold cv_countNonZero at 2. rewrite Hzero.
  reflexivity.
Qed.

End Ring.

(* ================================================================== *)
(** * The configuration validator *)

Lemma in_unit_spec (x : spec_float) :
  is_nan x = false ->
  F32.in_unit x = negb (F32.lt x F32.zero || F32.gt x F32.one).
Proof.
  intros Hx. unfold F32.in_unit, F32.lt, F32.gt, F32.le.
  destruct (SFltb x F32.zero) eqn:H0.
  - apply SFltb_true_SFleb in H0. destruct H0 as [_ ->]. reflexivity.
  - rewrite (SFltb_false_SFleb x F32.zero Hx eq_refl H0).
    destruct (SFltb F32.one x) eqn:H1.
    + apply SFltb_true_SFleb in H1. destruct H1 as [_ ->]. reflexivity.
    + rewrite (SFltb_false_SFleb F32.one x eq_refl Hx H1). reflexivity.
Qed.

Lemma validateRange_spec (errorOut : option string) (range : ChannelRange) (name : string) :
  if range_rule range
  then validateRange errorOut range name = (true, errorOut)
  else fst (validateRange errorOut range name) = false.
Proof.
  unfold validateRange, range_rule. rewrite !Z.gtb_ltb.
  repeat match goal with
         | |- context [?a <? ?b] => destruct (Z.ltb_spec a b)
         | |- context [?a <=? ?b] => destruct (Z.leb_spec a b)
         end; simpl; try reflexivity; lia.
Qed.

Lemma unless_false_spec (errorOut : option string) (range : ChannelRange) (name : string)
    (rest : option string -> bool * option string) :
  fst (unless_false (validateRange errorOut range name) rest) =
  range_rule range && fst (rest errorOut).
Proof.
  unfold unless_false. pose proof (validateRange_spec errorOut range name) as H.
  destruct (range_rule range); [rewrite H; reflexivity|rewrite H; reflexivity].
Qed.

Lemma fst_setError (errorOut : option string) (msg : string) :
  fst (setError errorOut msg) = false.
Proof. reflexivity. Qed.

(** On configurations whose thresholds are numbers the validator decides
    exactly the rules of the specification. *)
Lemma ValidateConfig_rules (cfg : ColorPatternConfig) (errorOut : option string) :
  thresholds_not_nan cfg = true ->
  fst (ValidateConfig cfg errorOut) = config_rules cfg.
Proof.
  unfold thresholds_not_nan, ValidateConfig, config_rules. intros Hn.
  apply andb_prop in Hn. destruct Hn as [Hn Hs].
  apply andb_prop in Hn. destruct Hn as [Hc Hf].
  apply negb_true_iff in Hc, Hf.
  rewrite (in_unit_spec _ Hc), (in_unit_spec _ Hf).
  destruct (Empty (hues (centerColor cfg))); [reflexivity|].
  rewrite !unless_false_spec.
  destruct (range_rule (satRange (centerColor cfg))); [|reflexivity].
  destruct (range_rule (valRange (centerColor cfg))); [|reflexivity].
  rewrite (Z.ltb_antisym 1 (minArea (shape cfg))).
  destruct (1 <=? minArea (shape cfg)); [|reflexivity].
  rewrite (Z.ltb_antisym (minArea (shape cfg)) (maxArea (shape cfg))).
  destruct (minArea (shape cfg) <=? maxArea (shape cfg)); [|reflexivity].
  destruct (F32.lt (minCircularity (shape cfg)) F32.zero
            || F32.gt (minCircularity (shape cfg)) F32.one); [reflexivity|].
  destruct (F32.lt (minFillRatio (shape cfg)) F32.zero
            || F32.gt (minFillRatio (shape cfg)) F32.one); [reflexivity|].
  destruct (enabled (context cfg)); [|reflexivity].
  simpl in Hs. apply negb_true_iff in Hs.
  unfold ValidateConfig_context, context_rules. rewrite (in_unit_spec _ Hs).
  rewrite (Z.ltb_antisym 1 (innerRadiusPercent (context cfg))).
  destruct (1 <=? innerRadiusPercent (context cfg)); [|reflexivity].
  rewrite (Z.leb_antisym (innerRadiusPercent (context cfg))
             (outerRadiusPercent (context cfg))).
  destruct (innerRadiusPercent (context cfg) <? outerRadiusPercent (context cfg));
    [|reflexivity].
  destruct (F32.lt (minSupportRatio (context cfg)) F32.zero
            || F32.gt (minSupportRatio (context cfg)) F32.one); [reflexivity|].
  cbv beta iota delta [negb orb andb]. rewrite !unless_false_spec. simpl.
  rewrite andb_true_r, !andb_assoc. reflexivity.
Qed.

(** When the rules before it hold, [maxArea < minArea] is reported by the
    message about [shape.maxArea]. *)
Lemma ValidateConfig_maxArea (cfg : ColorPatternConfig) (old : string) :
  Empty (hues (centerColor cfg)) = false ->
  range_rule (satRange (centerColor cfg)) = true ->
  range_rule (valRange (centerColor cfg)) = true ->
  1 <= minArea (shape cfg) ->
  maxArea (shape cfg) < minArea (shape cfg) ->
  ValidateConfig cfg (Some old)
  = (false, Some "shape.maxArea must be >= shape.minArea."%string).
Proof.
  intros He Hs Hv Hmin Hmax. unfold ValidateConfig. rewrite He.
  pose proof (validateRange_spec (Some old) (satRange (centerColor cfg))
                "centerColor.satRange") as H1. rewrite Hs in H1. rewrite H1.
  pose proof (validateRange_spec (Some old) (valRange (centerColor cfg))
                "centerColor.valRange") as H2. rewrite Hv in H2.
  unfold unless_false. simpl. rewrite H2. simpl.
  destruct (Z.ltb_spec (minArea (shape cfg)) 1); [lia|].
  destruct (Z.ltb_spec (maxArea (shape cfg)) (minArea (shape cfg))); [reflexivity|lia].
Qed.

(** When the rules before it hold, [outerRadiusPercent <= innerRadiusPercent]
    with the context ring enabled is reported by the message about the ring
    radius percents. *)
Lemma ValidateConfig_radius (cfg : ColorPatternConfig) (old : string) :
  config_rules
    {| centerColor := centerColor cfg; centerMorph := centerMorph cfg; shape := shape cfg;
       context := {| enabled := false;
                     innerRadiusPercent := innerRadiusPercent (context cfg);
                     outerRadiusPercent := outerRadiusPercent (context cfg);
                     supportColor := supportColor (context cfg);
                     excludeHues := excludeHues (context cfg);
                     excludeSatRange := excludeSatRange (context cfg);
                     excludeValRange := excludeValRange (context cfg);
                     minSupportRatio := minSupportRatio (context cfg) |} |} = true ->
  enabled (context cfg) = true ->
  outerRadiusPercent (context cfg) <= innerRadiusPercent (context cfg) ->
  ValidateConfig cfg (Some old)
  = (false, Some "context ring radius percents must satisfy: 1 <= inner < outer."%string).
Proof.
  unfold config_rules. simpl. rewrite andb_true_r. intros Hr Hon Hle.
  repeat (apply andb_prop in Hr; let H := fresh "H" in destruct Hr as [Hr H]).
  apply negb_true_iff in Hr.
  unfold ValidateConfig. rewrite Hr.
  pose proof (validateRange_spec (Some old) (satRange (centerColor cfg))
                "centerColor.satRange") as V1. rewrite H4 in V1. rewrite V1.
  pose proof (validateRange_spec (Some old) (valRange (centerColor cfg))
                "centerColor.valRange") as V2. rewrite H3 in V2.
  unfold unless_false. simpl. rewrite V2. simpl.
  apply Z.leb_le in H2, H1.
  destruct (Z.ltb_spec (minArea (shape cfg)) 1); [lia|].
  destruct (Z.ltb_spec (maxArea (shape cfg)) (minArea (shape cfg))); [lia|].
  assert (Hc : F32.lt (minCircularity (shape cfg)) F32.zero
               || F32.gt (minCircularity (shape cfg)) F32.one = false).
  { apply negb_true_iff. rewrite <- in_unit_spec; [assumption|].
    apply in_unit_not_nan. assumption. }
  assert (Hf : F32.lt (minFillRatio (shape cfg)) F32.zero
               || F32.gt (minFillRatio (shape cfg)) F32.one = false).
  { apply negb_true_iff. rewrite <- in_unit_spec; [assumption|].
    apply in_unit_not_nan. assumption. }
  rewrite Hc, Hf, Hon. unfold ValidateConfig_context.
  destruct (Z.leb_spec (outerRadiusPercent (context cfg))
              (innerRadiusPercent (context cfg))); [|lia].
  rewrite orb_true_r. reflexivity.
Qed.

(** C6. [ValidateConfig] returns [true] for a configuration whose
    [minCircularity] is NaN and whose other fields are valid, although NaN is
    not in [0, 1]: the rule on [shape.minCircularity] that its own message
    states is not enforced for NaN. *)
Theorem C6_nan_threshold_passes_validation :
  ValidateConfig Example.nan_config (Some ""%string) = (true, Some ""%string) /\
  F32.in_unit (minCircularity (shape Example.nan_config)) = false /\
  config_rules Example.nan_config = false.
Proof. repeat split; reflexivity. Qed.

(* ================================================================== *)
(** * The properties on the example instance *)

Lemma C1_accepted_is_conjunction_witness :
  @Find Example.ext (Example.config true) Example.green
    = Returns (Example.run true Example.green) /\
  In (Example.found true Example.green 1) (detections (Example.run true Example.green)) /\
  accepted (metrics (Example.found true Example.green 1)) =
    passesArea (metrics (Example.found true Example.green 1))
    && passesCircularity (metrics (Example.found true Example.green 1))
    && passesCenterFill (metrics (Example.found true Example.green 1))
    && passesContext (metrics (Example.found true Example.green 1)).
Proof.
  assert (Hf : @Find Example.ext (Example.config true) Example.green
               = Returns (Example.run true Example.green)) by example_returns.
  assert (Hin : In (Example.found true Example.green 1)
                   (detections (Example.run true Example.green))) by example_in.
  split; [exact Hf|]. split; [exact Hin|].
  exact (@C1_accepted_is_conjunction Example.ext (Example.config true) Example.green
           (Example.run true Example.green) (Example.found true Example.green 1) Hf Hin).
Defined.

Lemma C2_context_ring_witness :
  enabled (context (Example.config true)) = true /\
  @Find Example.ext (Example.config true) Example.green
    = Returns (Example.run true Example.green) /\
  In (Example.found true Example.green 0) (detections (Example.run true Example.green)) /\
  @ring_inner Example.ext (Example.config true)
    (radiusPx (Example.found true Example.green 0)) = 2 /\
  @ring_outer Example.ext (Example.config true)
    (radiusPx (Example.found true Example.green 0)) = 3 /\
  ringSupportRatio (metrics (Example.found true Example.green 0)) = F32.one /\
  passesContext (metrics (Example.found true Example.green 0)) = true.
Proof.
  assert (Hon : enabled (context (Example.config true)) = true) by reflexivity.
  assert (Hf : @Find Example.ext (Example.config true) Example.green
               = Returns (Example.run true Example.green)) by example_returns.
  assert (Hin : In (Example.found true Example.green 0)
                   (detections (Example.run true Example.green))) by example_in.
  split; [exact Hon|]. split; [exact Hf|]. split; [exact Hin|].
  destruct (@C2_context_ring Example.ext (Example.config true) Example.green
              (Example.run true Example.green) (Example.found true Example.green 0)
              Hon Hf Hin) as (Hi & Ho & _ & _ & _ & _ & _ & Hr & _ & _ & Hp).
  split; [rewrite Hi; vm_compute; reflexivity|].
  split; [rewrite Ho; vm_compute; reflexivity|].
  split; [rewrite Hr; vm_compute; reflexivity|].
  rewrite Hp. vm_compute. reflexivity.
Defined.

Lemma C3_scores_witness :
  measures_finite Example.ext /\
  @Find Example.ext (Example.config true) Example.green
    = Returns (Example.run true Example.green) /\
  In (Example.found true Example.green 0) (detections (Example.run true Example.green)) /\
  accepted (metrics (Example.found true Example.green 0)) = true /\
  score (metrics (Example.found true Example.green 0))
    = detail.Clamp01
        (F32.add
           (F32.mul
              (F32.add
                 (F32.mul (circularity (metrics (Example.found true Example.green 0)))
                    F32.c0_55)
                 (F32.mul (centerFillRatio (metrics (Example.found true Example.green 0)))
                    F32.c0_45))
              F32.c0_60)
           (F32.mul (ringSupportRatio (metrics (Example.found true Example.green 0)))
              F32.c0_40)) /\
  F32.le (score (metrics (Example.found true Example.green 0)))
         (ColorPatternRunResult.score (Example.run true Example.green)) = true.
Proof.
  assert (Hm : measures_finite Example.ext) by example_measures.
  assert (Hf : @Find Example.ext (Example.config true) Example.green
               = Returns (Example.run true Example.green)) by example_returns.
  assert (Hin : In (Example.found true Example.green 0)
                   (detections (Example.run true Example.green))) by example_in.
  assert (Hacc : accepted (metrics (Example.found true Example.green 0)) = true)
    by reflexivity.
  split; [exact Hm|]. split; [exact Hf|]. split; [exact Hin|]. split; [exact Hacc|].
  destruct (@C3_scores Example.ext (Example.config true) Example.green
              (Example.run true Example.green) Hm Hf) as (Hs & Hle & _).
  split; [exact (Hs _ Hin)|]. exact (Hle _ Hin Hacc).
Defined.

Lemma C4_detections_sorted_witness :
  measures_finite Example.ext /\
  @Find Example.ext (Example.config true) Example.green
    = Returns (Example.run true Example.green) /\
  detections (Example.run true Example.green)
    = [] ++ Example.found true Example.green 0 :: []
         ++ Example.found true Example.green 1 :: [] /\
  (accepted (metrics (Example.found true Example.green 1)) = true ->
   accepted (metrics (Example.found true Example.green 0)) = true) /\
  (accepted (metrics (Example.found true Example.green 0))
   = accepted (metrics (Example.found true Example.green 1)) ->
   F32.ge (score (metrics (Example.found true Example.green 0)))
          (score (metrics (Example.found true Example.green 1))) = true).
Proof.
  assert (Hm : measures_finite Example.ext) by example_measures.
  assert (Hf : @Find Example.ext (Example.config true) Example.green
               = Returns (Example.run true Example.green)) by example_returns.
  assert (Hsplit : detections (Example.run true Example.green)
                   = [] ++ Example.found true Example.green 0 :: []
                        ++ Example.found true Example.green 1 :: [])
    by example_returns.
  split; [exact Hm|]. split; [exact Hf|]. split; [exact Hsplit|].
  exact (@C4_detections_sorted Example.ext (Example.config true) Example.green
           (Example.run true Example.green) [] [] []
           (Example.found true Example.green 0) (Example.found true Example.green 1)
           Hm Hf Hsplit).
Defined.

Lemma C5_BuildMask_membership_witness :
  0 <= 1 < rows (detail.EnsureColor Example.green) /\
  0 <= 2 < cols (detail.EnsureColor Example.green) /\
  px (BuildMask (hues Example.center) (detail.EnsureColor Example.green) 300 100 100 255)
     1 2 = 255 /\
  effective_range 300 100 = (100, 255).
Proof.
  assert (Hy : 0 <= 1 < rows (detail.EnsureColor Example.green)) by (simpl; lia).
  assert (Hx : 0 <= 2 < cols (detail.EnsureColor Example.green)) by (simpl; lia).
  split; [exact Hy|]. split; [exact Hx|].
  destruct (C5_BuildMask_membership (hues Example.center)
              (detail.EnsureColor Example.green) 300 100 100 255 1 2 Hy Hx)
    as (_ & _ & Hpx & _ & Hsat & _).
  split; [exact Hpx|exact Hsat].
Defined.

Lemma C7_metrics_in_unit_interval_witness :
  measures_finite Example.ext /\
  @Find Example.ext (Example.config true) Example.green
    = Returns (Example.run true Example.green) /\
  In (Example.found true Example.green 1) (detections (Example.run true Example.green)) /\
  F32.in_unit (circularity (metrics (Example.found true Example.green 1))) = true /\
  F32.in_unit (centerFillRatio (metrics (Example.found true Example.green 1))) = true.
Proof.
  assert (Hm : measures_finite Example.ext) by example_measures.
  assert (Hf : @Find Example.ext (Example.config true) Example.green
               = Returns (Example.run true Example.green)) by example_returns.
  assert (Hin : In (Example.found true Example.green 1)
                   (detections (Example.run true Example.green))) by example_in.
  split; [exact Hm|]. split; [exact Hf|]. split; [exact Hin|].
  destruct (@C7_metrics_in_unit_interval Example.ext (Example.config true) Example.green
              (Example.run true Example.green) (Example.found true Example.green 1)
              Hm Hf Hin) as (H1 & H2 & _).
  split; [exact H1|exact H2].
Defined.

Lemma C8_accepted_ratio_witness :
  @Find Example.ext (Example.config true) Example.green
    = Returns (Example.run true Example.green) /\
  acceptedRatio (Example.run true Example.green)
    = F32.div (F32.of_int (acceptedCount (Example.run true Example.green)))
        (F32.of_int (Z.max 1 (rawCandidateCount (Example.run true Example.green)))) /\
  is_nan (acceptedRatio (Example.run true Example.green)) = false.
Proof.
  assert (Hf : @Find Example.ext (Example.config true) Example.green
               = Returns (Example.run true Example.green)) by example_returns.
  split; [exact Hf|].
  destruct (@C8_accepted_ratio Example.ext (Example.config true) Example.green
              (Example.run true Example.green) Hf) as (H1 & _ & _ & H2 & _).
  split; [exact H1|exact H2].
Defined.

Lemma C9_context_disabled_witness :
  enabled (context (Example.config false)) = false /\
  @Find Example.ext (Example.config false) Example.green
    = Returns (Example.run false Example.green) /\
  In (Example.found false Example.green 0) (detections (Example.run false Example.green)) /\
  ringSupportRatio (metrics (Example.found false Example.green 0)) = F32.one /\
  passesContext (metrics (Example.found false Example.green 0)) = true.
Proof.
  assert (Hoff : enabled (context (Example.config false)) = false) by reflexivity.
  assert (Hf : @Find Example.ext (Example.config false) Example.green
               = Returns (Example.run false Example.green)) by example_returns.
  assert (Hin : In (Example.found false Example.green 0)
                   (detections (Example.run false Example.green))) by example_in.
  split; [exact Hoff|]. split; [exact Hf|]. split; [exact Hin|].
  exact (@C9_context_disabled Example.ext (Example.config false) Example.green
           (Example.run false Example.green) (Example.found false Example.green 0)
           Hoff Hf Hin).
Defined.

Lemma C10_raw_count_and_detections_witness :
  area_nonneg Example.ext /\
  Z.of_nat (List.length (@Find_contours Example.ext (Example.config true) Example.green))
    <= INT_MAX /\
  @Find Example.ext (Example.config true) Example.green
    = Returns (Example.run true Example.green) /\
  rawCandidateCount (Example.run true Example.green)
    = Z.of_nat (List.length (@Find_contours Example.ext (Example.config true) Example.green)) /\
  Z.of_nat (List.length (detections (Example.run true Example.green)))
    <= rawCandidateCount (Example.run true Example.green) /\
  (Z.of_nat (List.length (detections (Example.run true Example.green)))
     <> rawCandidateCount (Example.run true Example.green) <->
   exists c, In c (@Find_contours Example.ext (Example.config true) Example.green) /\
     F32.eq (F32.of_double (@contourArea Example.ext c)) F32.zero = true).
Proof.
  assert (Hnn : area_nonneg Example.ext) by example_measures.
  assert (Hlen : Z.of_nat (List.length
                   (@Find_contours Example.ext (Example.config true) Example.green))
                 <= INT_MAX) by (vm_compute; discriminate).
  assert (Hf : @Find Example.ext (Example.config true) Example.green
               = Returns (Example.run true Example.green)) by example_returns.
  split; [exact Hnn|]. split; [exact Hlen|]. split; [exact Hf|].
  destruct (@C10_raw_count_and_detections Example.ext (Example.config true) Example.green
              (Example.run true Example.green) Hnn Hlen Hf) as (H1 & _ & H3 & H4).
  split; [exact H1|]. split; [exact H3|exact H4].
Defined.

(** C2, as worded.  The radius of the claim, [round(radius * percent / 100)],
    is not the radius the code uses: for a candidate whose enclosing circle
    has radius 30 and an inner percentage of 105 the code cuts the disc of
    radius 31, where the expression of the claim gives 32, in exact
    arithmetic and in [float] alike. *)
Lemma C2_ring_radius_counterexample :
  enabled (context RingExample.config) = true /\
  @Find RingExample.ext RingExample.config Example.green
    = Returns RingExample.result /\
  In RingExample.candidate (detections RingExample.result) /\
  radiusPx RingExample.candidate = RingExample.radius30 /\
  @ring_inner RingExample.ext RingExample.config (radiusPx RingExample.candidate) = 31 /\
  claimed_radius_exact (radiusPx RingExample.candidate)
    (innerRadiusPercent (context RingExample.config)) = Some 32 /\
  @claimed_radius_float RingExample.ext (radiusPx RingExample.candidate)
    (innerRadiusPercent (context RingExample.config)) = 32 /\
  @ring_inner RingExample.ext RingExample.config (radiusPx RingExample.candidate)
    <> Z.max 1 32.
Proof.
  split; [reflexivity|]. split; [example_returns|]. split; [example_in|].
  repeat (split; [vm_compute; reflexivity|]).
  vm_compute. discriminate.
Qed.

(* ================================================================== *)
(** * Further properties of [ChromaCore.h] *)

(** ** [HueRangeSet] *)

Lemma fold_Add_ranges (l : list HueRange) (s : HueRangeSet) :
  ranges_ (fold_left Add l s) =
  ranges_ s ++
  map (fun r => {| minHue := ClampHue (minHue r); maxHue := ClampHue (maxHue r) |}) l.
Proof.
  revert s. induction l as [|r l IH]; intros s; simpl.
  - now rewrite app_nil_r.
  - rewrite IH. simpl. rewrite <- app_assoc. reflexivity.
Qed.

(** X1. A [HueRangeSet] built from a list holds the ranges of the list in
    their order, each bound clamped to 0..179 on its own, and [Add] appends
    one more range clamped the same way.  The two bounds are never
    exchanged: a range with [minHue <= maxHue] stays one, and a range given
    with [minHue > maxHue] stays a wrap-around range exactly when
    [0 < minHue] and [maxHue < 179]; otherwise the clamping makes it the
    single-hue range 0..0 or 179..179. *)
Theorem HueRangeSet_keeps_order_and_clamps (l : list HueRange) (self : HueRangeSet)
    (r : HueRange) :
  let clamp := fun r : HueRange =>
    {| minHue := ClampHue (minHue r); maxHue := ClampHue (maxHue r) |} in
  Ranges (HueRangeSet_of l) = map clamp l /\
  Ranges (Add self r) = Ranges self ++ [clamp r] /\
  Empty (Add self r) = false /\
  (minHue r <= maxHue r -> minHue (clamp r) <= maxHue (clamp r)) /\
  (maxHue r < minHue r ->
   (maxHue (clamp r) < minHue (clamp r) <-> 0 < minHue r /\ maxHue r < 179) /\
   (minHue r <= 0 -> clamp r = {| minHue := 0; maxHue := 0 |}) /\
   (179 <= maxHue r -> clamp r = {| minHue := 179; maxHue := 179 |})).
Proof.
  intros clamp. split; [|split; [|split; [|split]]].
  - unfold Ranges, HueRangeSet_of. rewrite fold_Add_ranges. reflexivity.
  - reflexivity.
  - unfold Empty, Add. simpl. destruct (ranges_ self); reflexivity.
  - intros H. unfold clamp, ClampHue. simpl.
    destruct (Z.ltb_spec (minHue r) 0); destruct (Z.gtb_spec (minHue r) 179);
      destruct (Z.ltb_spec (maxHue r) 0); destruct (Z.gtb_spec (maxHue r) 179); lia.
  - intros H. unfold clamp, ClampHue. simpl.
    destruct (Z.ltb_spec (minHue r) 0); destruct (Z.gtb_spec (minHue r) 179);
      destruct (Z.ltb_spec (maxHue r) 0); destruct (Z.gtb_spec (maxHue r) 179);
      (split; [lia|]); split; intros H'; try lia; try reflexivity;
      f_equal; lia.
Qed.

(** X2. The mask of a set to which a range was added is the bitwise OR of the
    mask of the set and of the mask of the added range alone, so adding a
    range never clears a pixel. *)
Theorem BuildMask_Add_is_union (self : HueRangeSet) (r : HueRange) (hsv : Mat Vec3b)
    (satMin satMax valMin valMax y x : Z) :
  px (BuildMask (Add self r) hsv satMin satMax valMin valMax) y x =
  Z.lor (px (BuildMask self hsv satMin satMax valMin valMax) y x)
        (px (BuildMask (Add (Clear self) r) hsv satMin satMax valMin valMax) y x).
Proof.
  destruct (Mat_empty hsv) eqn:E.
  - unfold BuildMask. rewrite E. reflexivity.
  - destruct (BuildMask_px (Add self r) hsv satMin satMax valMin valMax y x E)
      as (_ & _ & ->).
    destruct (BuildMask_px self hsv satMin satMax valMin valMax y x E) as (_ & _ & ->).
    destruct (BuildMask_px (Add (Clear self) r) hsv satMin satMax valMin valMax y x E)
      as (_ & _ & ->).
    destruct (px hsv y x) as [[h s] v].
    change (ranges_ (Add self r)) with
      (ranges_ self ++ ranges_ (Add (Clear self) r)).
    rewrite existsb_app.
    destruct (existsb (fun r0 => hue_in_range r0 h) (ranges_ self));
      destruct (existsb (fun r0 => hue_in_range r0 h) (ranges_ (Add (Clear self) r)));
      destruct (fst (effective_range satMin satMax) <=? s);
      destruct (s <=? snd (effective_range satMin satMax));
      destruct (fst (effective_range valMin valMax) <=? v);
      destruct (v <=? snd (effective_range valMin valMax)); reflexivity.
Qed.

(** X3. A mask has the size of the frame it was built from (and is the empty
    matrix for an empty frame), and each of its pixels is 0 or 255. *)
Theorem BuildMask_size_and_values (self : HueRangeSet) (hsv : Mat Vec3b)
    (satMin satMax valMin valMax : Z) :
  let mask := BuildMask self hsv satMin satMax valMin valMax in
  (if Mat_empty hsv then rows mask = 0 /\ cols mask = 0
   else rows mask = rows hsv /\ cols mask = cols hsv) /\
  forall y x, px mask y x = 0 \/ px mask y x = 255.
Proof.
  intros mask. split.
  - destruct (Mat_empty hsv) eqn:E.
    + unfold mask, BuildMask. rewrite E. split; reflexivity.
    + destruct (BuildMask_px self hsv satMin satMax valMin valMax 0 0 E) as (Hr & Hc & _).
      split; assumption.
  - intros y x. apply (BuildMask_binary self hsv satMin satMax valMin valMax y x).
Qed.

(** ** [detail::Clamp01] and [detail::SafeDiv] *)

(** X4. [Clamp01] is idempotent, and the values it returns unchanged are
    exactly those of the interval [0,1] and NaN: a NaN is not replaced by a
    number. *)
Theorem Clamp01_fixed_points (v : spec_float) :
  detail.Clamp01 (detail.Clamp01 v) = detail.Clamp01 v /\
  (detail.Clamp01 v = v <-> F32.in_unit v = true \/ is_nan v = true).
Proof.
  assert (Hfix : forall w, F32.in_unit w = true -> detail.Clamp01 w = w).
  { intros w Hw. unfold F32.in_unit in Hw. apply andb_prop in Hw. destruct Hw as [H0 H1].
    unfold detail.Clamp01, F32.lt, F32.gt.
    rewrite (SFleb_SFltb_false _ _ H0), (SFleb_SFltb_false _ _ H1). reflexivity. }
  split.
  - destruct (is_nan v) eqn:En.
    + destruct v; try discriminate. reflexivity.
    + apply Hfix, Clamp01_in_unit, En.
  - split.
    + intros Heq. destruct (is_nan v) eqn:En; [right; reflexivity|left].
      rewrite <- Heq. apply Clamp01_in_unit, En.
    + intros [Hu|Hn].
      * apply Hfix, Hu.
      * destruct v; try discriminate. reflexivity.
Qed.

(** X5. For a numerator that is zero or positive, [SafeDiv] gives a number
    that is zero or positive, whatever the divisor is, unless the divisor is
    NaN or both are infinite: it is 0 for a divisor that is zero or
    negative, where the division would give an infinity, a NaN or a negative
    number. *)
Theorem SafeDiv_nonneg (num den : spec_float) :
  F32.le F32.zero num = true -> is_nan den = false ->
  is_inf num && is_inf den = false ->
  F32.le F32.zero (detail.SafeDiv num den) = true /\
  (F32.le den F32.zero = true -> detail.SafeDiv num den = F32.zero).
Proof.
  intros Hnum Hden Hinf. unfold detail.SafeDiv.
  destruct (F32.le den F32.zero) eqn:E; [split; reflexivity|].
  split; [|discriminate].
  destruct num as [sn|[|]| |[|] mn en]; try discriminate;
    destruct den as [sd|[|]| |[|] md ed]; try discriminate; try reflexivity.
  apply has_sign_false_nonneg.
  apply (SFdiv_sign F32.prec F32.emax
           (S754_finite false mn en) (S754_finite false md ed)); reflexivity.
Qed.

(** ** [detail::ApplyMorphology] *)

Section Morphology.
Context {ext : Externals}.

(** X6. [ApplyMorphology] keeps the size of the mask, and returns the mask
    itself when the mask is empty or when no iteration count is
    positive. *)
Theorem ApplyMorphology_without_iterations (mask : Mat Z) (cfg : MorphologyConfig) :
  (rows (detail.ApplyMorphology mask cfg) = rows mask /\
   cols (detail.ApplyMorphology mask cfg) = cols mask) /\
  (Mat_empty mask = true \/
   (openIterations cfg <= 0 /\ closeIterations cfg <= 0 /\ dilateIterations cfg <= 0) ->
   detail.ApplyMorphology mask cfg = mask).
Proof.
  split; [apply ApplyMorphology_size|].
  unfold detail.ApplyMorphology. intros [H|(Ho & Hc & Hd)].
  - rewrite H. reflexivity.
  - destruct (Mat_empty mask); [reflexivity|].
    destruct (Z.gtb_spec (openIterations cfg) 0); [lia|].
    destruct (Z.gtb_spec (closeIterations cfg) 0); [lia|].
    destruct (Z.gtb_spec (dilateIterations cfg) 0); [lia|].
    reflexivity.
Qed.

End Morphology.

(** ** [ColorPatternFinder::ValidateConfig] *)

Lemma range_rule_true (r : ChannelRange) :
  range_rule r = true <-> 0 <= minValue r <= maxValue r /\ maxValue r <= 255.
Proof.
  unfold range_rule. rewrite !andb_true_iff, !Z.leb_le. lia.
Qed.

(** What [validateRange] does with the string behind [errorOut]. *)
Lemma validateRange_errorOut (errorOut : option string) (range : ChannelRange)
    (name : string) :
  name <> ""%string ->
  fst (validateRange errorOut range name) = fst (validateRange None range name) /\
  snd (validateRange None range name) = None /\
  (fst (validateRange errorOut range name) = true ->
   snd (validateRange errorOut range name) = errorOut) /\
  (fst (validateRange errorOut range name) = false ->
   forall old, errorOut = Some old ->
   exists msg, snd (validateRange errorOut range name) = Some msg /\ msg <> ""%string).
Proof.
  intros Hname. unfold validateRange, setError.
  destruct ((minValue range <? 0) || (minValue range >? 255)
            || (maxValue range <? 0) || (maxValue range >? 255)).
  - simpl. repeat split; try discriminate. intros _ old ->. eexists. split; [reflexivity|].
    destruct name; [congruence|discriminate].
  - destruct (minValue range >? maxValue range).
    + simpl. repeat split; try discriminate. intros _ old ->. eexists. split; [reflexivity|].
      destruct name; [congruence|discriminate].
    + simpl. repeat split; discriminate.
Qed.


Lemma discipline_setError (msg : string) :
  msg <> ""%string -> errorOut_discipline (fun e => setError e msg).
Proof.
  intros Hm. unfold errorOut_discipline, setError. simpl.
  repeat split; try discriminate. intros old _. exists msg. split; [reflexivity|exact Hm].
Qed.

Lemma discipline_accept : errorOut_discipline (fun e => (true, e)).
Proof. unfold errorOut_discipline. simpl. repeat split; try discriminate. Qed.

Lemma discipline_if (b : bool) (f g : option string -> bool * option string) :
  errorOut_discipline f -> errorOut_discipline g ->
  errorOut_discipline (fun e => if b then f e else g e).
Proof. destruct b; intros Hf Hg; assumption. Qed.

Lemma discipline_validateRange (range : ChannelRange) (name : string)
    (rest : option string -> bool * option string) :
  name <> ""%string -> errorOut_discipline rest ->
  errorOut_discipline (fun e => unless_false (validateRange e range name) rest).
Proof.
  intros Hname (R1 & R2 & R3 & R4). unfold errorOut_discipline, unless_false.
  pose proof (validateRange_spec None range name) as SN.
  assert (S : forall e, if range_rule range
                        then validateRange e range name = (true, e)
                        else fst (validateRange e range name) = false)
    by (intros e; apply validateRange_spec).
  destruct (range_rule range) eqn:E.
  - repeat split.
    + intros e. rewrite (S e), SN. simpl. apply R1.
    + rewrite SN. simpl. exact R2.
    + intros e. rewrite (S e). simpl. apply R3.
    + intros old. rewrite (S (Some old)). simpl. apply R4.
  - repeat split.
    + intros e. rewrite (S e), SN. reflexivity.
    + rewrite SN. simpl.
      destruct (validateRange_errorOut None range name Hname) as (_ & H & _). exact H.
    + intros e. rewrite (S e). discriminate.
    + intros old. rewrite (S (Some old)). simpl. intros _.
      destruct (validateRange_errorOut (Some old) range name Hname) as (_ & _ & _ & H).
      apply (H (S (Some old)) old eq_refl).
Qed.

Lemma ValidateConfig_discipline (cfg : ColorPatternConfig) :
  errorOut_discipline (ValidateConfig cfg).
Proof.
  unfold ValidateConfig.
  apply discipline_if; [apply discipline_setError; discriminate|].
  apply discipline_validateRange; [discriminate|].
  apply discipline_validateRange; [discriminate|].
  apply discipline_if; [apply discipline_setError; discriminate|].
  apply discipline_if; [apply discipline_setError; discriminate|].
  apply discipline_if; [apply discipline_setError; discriminate|].
  apply discipline_if; [apply discipline_setError; discriminate|].
  apply discipline_if; [|apply discipline_accept].
  unfold ValidateConfig_context.
  apply discipline_if; [apply discipline_setError; discriminate|].
  apply discipline_if; [apply discipline_setError; discriminate|].
  apply discipline_validateRange; [discriminate|].
  apply discipline_validateRange; [discriminate|].
  apply discipline_validateRange; [discriminate|].
  apply discipline_validateRange; [discriminate|].
  apply discipline_accept.
Qed.

(** X7. What [ValidateConfig] does with [errorOut]: the verdict is the same
    with and without a string to report into, nothing is written through a
    null pointer, an accepted configuration leaves the string as it was, and
    a rejected one replaces it by a message that is not empty. *)
Theorem ValidateConfig_errorOut (cfg : ColorPatternConfig) :
  (forall e, fst (ValidateConfig cfg e) = fst (ValidateConfig cfg None)) /\
  snd (ValidateConfig cfg None) = None /\
  (forall e, fst (ValidateConfig cfg e) = true -> snd (ValidateConfig cfg e) = e) /\
  (forall old, fst (ValidateConfig cfg (Some old)) = false ->
     exists msg, snd (ValidateConfig cfg (Some old)) = Some msg /\ msg <> ""%string).
Proof. exact (ValidateConfig_discipline cfg). Qed.

Lemma unless_false_true (errorOut : option string) (range : ChannelRange) (name : string)
    (rest : option string -> bool * option string) :
  fst (unless_false (validateRange errorOut range name) rest) = true ->
  range_rule range = true /\ fst (rest errorOut) = true.
Proof. rewrite unless_false_spec. apply andb_prop. Qed.

(** What an accepted configuration satisfies. *)
Lemma ValidateConfig_true (cfg : ColorPatternConfig) (errorOut : option string) :
  fst (ValidateConfig cfg errorOut) = true ->
  Empty (hues (centerColor cfg)) = false /\
  range_rule (satRange (centerColor cfg)) = true /\
  range_rule (valRange (centerColor cfg)) = true /\
  1 <= minArea (shape cfg) <= maxArea (shape cfg) /\
  F32.lt (minCircularity (shape cfg)) F32.zero = false /\
  F32.gt (minCircularity (shape cfg)) F32.one = false /\
  F32.lt (minFillRatio (shape cfg)) F32.zero = false /\
  F32.gt (minFillRatio (shape cfg)) F32.one = false /\
  (enabled (context cfg) = true ->
   1 <= innerRadiusPercent (context cfg) < outerRadiusPercent (context cfg) /\
   F32.lt (minSupportRatio (context cfg)) F32.zero = false /\
   F32.gt (minSupportRatio (context cfg)) F32.one = false /\
   range_rule (satRange (supportColor (context cfg))) = true /\
   range_rule (valRange (supportColor (context cfg))) = true /\
   range_rule (excludeSatRange (context cfg)) = true /\
   range_rule (excludeValRange (context cfg)) = true).
Proof.
  unfold ValidateConfig.
  destruct (Empty (hues (centerColor cfg))); [discriminate|].
  intros H. apply unless_false_true in H. destruct H as [Hs H].
  apply unless_false_true in H. destruct H as [Hv H].
  destruct (Z.ltb_spec (minArea (shape cfg)) 1); [discriminate|].
  destruct (Z.ltb_spec (maxArea (shape cfg)) (minArea (shape cfg))); [discriminate|].
  destruct (F32.lt (minCircularity (shape cfg)) F32.zero); [discriminate|].
  destruct (F32.gt (minCircularity (shape cfg)) F32.one); [discriminate|].
  destruct (F32.lt (minFillRatio (shape cfg)) F32.zero); [discriminate|].
  destruct (F32.gt (minFillRatio (shape cfg)) F32.one); [discriminate|].
  simpl in H.
  repeat (split; [first [reflexivity | assumption | lia]|]).
  intros He. rewrite He in H. unfold ValidateConfig_context in H.
  destruct (Z.ltb_spec (innerRadiusPercent (context cfg)) 1); [discriminate|].
  destruct (Z.leb_spec (outerRadiusPercent (context cfg)) (innerRadiusPercent (context cfg)));
    [discriminate|].
  destruct (F32.lt (minSupportRatio (context cfg)) F32.zero); [discriminate|].
  destruct (F32.gt (minSupportRatio (context cfg)) F32.one); [discriminate|].
  simpl in H.
  apply unless_false_true in H. destruct H as [Hq1 H].
  apply unless_false_true in H. destruct H as [Hq2 H].
  apply unless_false_true in H. destruct H as [Hq3 H].
  apply unless_false_true in H. destruct H as [Hq4 _].
  repeat (split; [first [reflexivity | assumption | lia]|]). assumption.
Qed.

(** X8. A configuration that [ValidateConfig] accepts has a centre hue set
    that is not empty, centre channel ranges with 0 <= min <= max <= 255,
    1 <= minArea <= maxArea, and no threshold below 0 or above 1; when the
    context ring is enabled the same holds of its ranges and threshold, and
    1 <= innerRadiusPercent < outerRadiusPercent. *)
Theorem ValidateConfig_accepted (cfg : ColorPatternConfig) (errorOut : option string) :
  fst (ValidateConfig cfg errorOut) = true ->
  ranges_ (hues (centerColor cfg)) <> [] /\
  (0 <= minValue (satRange (centerColor cfg)) <= maxValue (satRange (centerColor cfg)) /\
   maxValue (satRange (centerColor cfg)) <= 255) /\
  (0 <= minValue (valRange (centerColor cfg)) <= maxValue (valRange (centerColor cfg)) /\
   maxValue (valRange (centerColor cfg)) <= 255) /\
  1 <= minArea (shape cfg) <= maxArea (shape cfg) /\
  F32.lt (minCircularity (shape cfg)) F32.zero = false /\
  F32.gt (minCircularity (shape cfg)) F32.one = false /\
  F32.lt (minFillRatio (shape cfg)) F32.zero = false /\
  F32.gt (minFillRatio (shape cfg)) F32.one = false /\
  (enabled (context cfg) = true ->
   1 <= innerRadiusPercent (context cfg) < outerRadiusPercent (context cfg) /\
   F32.lt (minSupportRatio (context cfg)) F32.zero = false /\
   F32.gt (minSupportRatio (context cfg)) F32.one = false /\
   (forall r, In r [satRange (supportColor (context cfg));
                    valRange (supportColor (context cfg));
                    excludeSatRange (context cfg); excludeValRange (context cfg)] ->
      0 <= minValue r <= maxValue r /\ maxValue r <= 255)).
Proof.
  intros H. apply ValidateConfig_true in H.
  destruct H as (He & Hs & Hv & Ha & Hc1 & Hc2 & Hf1 & Hf2 & Hctx).
  split.
  { unfold Empty in He. destruct (ranges_ (hues (centerColor cfg))); [discriminate|].
    discriminate. }
  apply range_rule_true in Hs, Hv.
  repeat (split; [assumption|]).
  intros Hen. destruct (Hctx Hen) as (Hr & Hm1 & Hm2 & H1 & H2 & H3 & H4).
  repeat (split; [assumption|]).
  intros r [<-|[<-|[<-|[<-|[]]]]]; apply range_rule_true; assumption.
Qed.

(** ** [ColorPatternFinder::Find] *)

Lemma to_int_add_l (a b : Z) : to_int (to_int a + b) = to_int (a + b).
Proof.
  unfold to_int. f_equal.
  replace ((a + 2 ^ 31) mod 2 ^ 32 - 2 ^ 31 + b + 2 ^ 31)
    with ((a + 2 ^ 31) mod 2 ^ 32 + b) by lia.
  rewrite Zplus_mod_idemp_l. f_equal. lia.
Qed.

Lemma to_int_idem (a : Z) : to_int (to_int a) = to_int a.
Proof. apply to_int_id, to_int_range. Qed.

Lemma SFleb_nan_l (x : spec_float) : SFleb S754_nan x = false.
Proof. reflexivity. Qed.

Lemma filter_rejected_nil {A} (f : A -> bool) (l : list A) :
  (forall a, In a l -> f a = false) -> filter f l = [].
Proof.
  induction l as [|a l IH]; simpl; intros H; [reflexivity|].
  rewrite (H a) by (left; reflexivity). apply IH. intros b Hb. apply H. right. exact Hb.
Qed.

Section FinderOutputs.
Context {ext : Externals}.
Variable config_ : ColorPatternConfig.

(** The flags of a detection in terms of the thresholds, and the position
    that is reported for it. *)
Lemma Find_candidate_thresholds (cm sm em : Mat Z) (c : Contour)
    (det : ColorPatternDetection) :
  Find_candidate config_ cm sm em c = Some det ->
  let m := metrics det in
  accepted m =
    F32.ge (areaPx m) (F32.of_int (minArea (shape config_)))
    && F32.le (areaPx m) (F32.of_int (maxArea (shape config_)))
    && F32.ge (circularity m) (minCircularity (shape config_))
    && F32.ge (centerFillRatio m) (minFillRatio (shape config_))
    && (if enabled (context config_)
        then F32.ge (ringSupportRatio m) (minSupportRatio (context config_))
        else true) /\
  boxPx det = boundingRect c /\
  centerPx det = (lround_int (fst (fst (minEnclosingCircle c))),
                  lround_int (snd (fst (minEnclosingCircle c)))).
Proof.
  unfold Find_candidate.
  destruct (F32.le (F32.of_double (contourArea c)) F32.zero) eqn:Ha; [discriminate|].
  destruct (minEnclosingCircle c) as [centerFloat radius].
  intros [= <-]. simpl. repeat split; reflexivity.
Qed.

(** The loop that collects the accepted detections. *)
Lemma Find_collect_fold_accepted (l : list ColorPatternDetection)
    (r0 : ColorPatternRunResult.t) :
  let r := fold_left Find_collect l r0 in
  let acc := filter (fun d => accepted (metrics d)) l in
  acceptedCentersPx r = acceptedCentersPx r0 ++ map centerPx acc /\
  acceptedBoxesPx r = acceptedBoxesPx r0 ++ map boxPx acc /\
  (to_int (acceptedCount r0) = acceptedCount r0 ->
   acceptedCount r = to_int (acceptedCount r0 + Z.of_nat (List.length acc))) /\
  (acc = [] -> r = r0).
Proof.
  revert r0. induction l as [|d l IH]; intros r0; simpl.
  - rewrite !app_nil_r. repeat split; trivial. intros H. rewrite Z.add_0_r. symmetry. exact H.
  - specialize (IH (Find_collect r0 d)). cbv zeta in IH.
    destruct IH as (Hc & Hb & Hn & He).
    unfold Find_collect in *. destruct (accepted (metrics d)) eqn:Ed.
    + simpl in *. rewrite Hc, Hb, <- !app_assoc. simpl.
      repeat split; trivial; [|discriminate].
      intros _. rewrite Hn by apply to_int_idem.
      rewrite to_int_add_l. f_equal. lia.
    + repeat split; trivial.
Qed.

(** X9. The lists of accepted centres and boxes are the centres and boxes of
    the accepted detections, in the order of the detection list (so the two
    lists are parallel and the best accepted detection comes first), and
    [acceptedCount] is their number. *)
Theorem Find_accepted_outputs (sceneBgr : Scene) (r : ColorPatternRunResult.t) :
  Find config_ sceneBgr = Returns r ->
  acceptedCentersPx r =
    map centerPx (filter (fun d => accepted (metrics d)) (detections r)) /\
  acceptedBoxesPx r =
    map boxPx (filter (fun d => accepted (metrics d)) (detections r)) /\
  acceptedCount r =
    to_int (Z.of_nat (List.length (filter (fun d => accepted (metrics d)) (detections r)))).
Proof.
  unfold Find. destruct (Scene_empty sceneBgr); [discriminate|].
  intros [= <-]. cbv zeta. simpl ColorPatternRunResult.detections at 1.
  match goal with |- context [fold_left Find_collect ?l ?r0] =>
    destruct (Find_collect_fold_fields l r0) as (Hd & _);
    destruct (Find_collect_fold_accepted l r0) as (Hc & Hb & Hn & _) end.
  simpl in Hd, Hc, Hb, Hn. simpl. rewrite Hd, Hc, Hb, Hn by reflexivity.
  repeat split; reflexivity.
Qed.

(** X10. A detection of the result is accepted exactly when its area lies
    between [minArea] and [maxArea], its circularity and its centre fill
    ratio reach their thresholds and, with the context ring enabled, its ring
    support ratio reaches [minSupportRatio]. *)
Theorem Find_accepted_iff_thresholds (sceneBgr : Scene) (r : ColorPatternRunResult.t)
    (det : ColorPatternDetection) :
  Find config_ sceneBgr = Returns r -> In det (detections r) ->
  let m := metrics det in
  accepted m =
    F32.ge (areaPx m) (F32.of_int (minArea (shape config_)))
    && F32.le (areaPx m) (F32.of_int (maxArea (shape config_)))
    && F32.ge (circularity m) (minCircularity (shape config_))
    && F32.ge (centerFillRatio m) (minFillRatio (shape config_))
    && (if enabled (context config_)
        then F32.ge (ringSupportRatio m) (minSupportRatio (context config_))
        else true).
Proof.
  intros Hf Hin. destruct (Find_detection_origin config_ _ _ _ Hf Hin) as (c & _ & Hc).
  apply Find_candidate_thresholds in Hc. apply Hc.
Qed.

(** X11. When a threshold that takes part in the decision is NaN, [Find]
    accepts nothing: every detection is rejected, the lists of accepted
    centres and boxes are empty, and the accepted count and the overall score
    are 0. *)
Theorem Find_nan_threshold_accepts_nothing (sceneBgr : Scene)
    (r : ColorPatternRunResult.t) :
  is_nan (minCircularity (shape config_)) = true \/
  is_nan (minFillRatio (shape config_)) = true \/
  (enabled (context config_) = true /\
   is_nan (minSupportRatio (context config_)) = true) ->
  Find config_ sceneBgr = Returns r ->
  (forall det, In det (detections r) -> accepted (metrics det) = false) /\
  acceptedCentersPx r = [] /\ acceptedBoxesPx r = [] /\
  acceptedCount r = 0 /\ ColorPatternRunResult.score r = F32.zero.
Proof.
  intros Hnan Hf.
  assert (Hrej : forall det, In det (detections r) -> accepted (metrics det) = false).
  { intros det Hin.
    destruct (Find_detection_origin config_ _ _ _ Hf Hin) as (c & _ & Hc).
    apply Find_candidate_thresholds in Hc. destruct Hc as (-> & _).
    unfold F32.ge. destruct Hnan as [Hn|[Hn|[He Hn]]].
    - destruct (minCircularity (shape config_)); try discriminate.
      rewrite SFleb_nan_l, andb_false_r. reflexivity.
    - destruct (minFillRatio (shape config_)); try discriminate.
      rewrite SFleb_nan_l, andb_false_r. reflexivity.
    - rewrite He. destruct (minSupportRatio (context config_)); try discriminate.
      rewrite SFleb_nan_l, andb_false_r. reflexivity. }
  split; [exact Hrej|]. revert Hrej.
  unfold Find in Hf. destruct (Scene_empty sceneBgr); [discriminate|].
  injection Hf as <-. cbv zeta. simpl ColorPatternRunResult.detections at 1.
  match goal with |- context [fold_left Find_collect ?l ?r0] =>
    destruct (Find_collect_fold_fields l r0) as (Hd & _);
    destruct (Find_collect_fold_accepted l r0) as (_ & _ & _ & He) end.
  simpl in Hd. simpl ColorPatternRunResult.detections. rewrite Hd. intros Hrej.
  simpl in He. simpl. rewrite He; [repeat split; reflexivity|].
  apply filter_rejected_nil. exact Hrej.
Qed.

Lemma Find_detections_contours (cm sm em : Mat Z) (contours : list Contour) :
  map contour (Find_detections config_ cm sm em contours) =
  filter (fun c => negb (F32.le (F32.of_double (contourArea c)) F32.zero)) contours.
Proof.
  unfold Find_detections. rewrite Find_detections_fold. simpl.
  induction contours as [|c l IH]; simpl; [reflexivity|].
  destruct (Find_candidate config_ cm sm em c) as [d|] eqn:Hc.
  - destruct (Find_candidate_Some config_ _ _ _ _ _ Hc) as (Hcd & _ & Ha & Hz & _).
    rewrite Ha in Hz. rewrite Hz. simpl. rewrite IH, Hcd. reflexivity.
  - apply (Find_candidate_None config_ cm sm em) in Hc. rewrite Hc. simpl. exact IH.
Qed.

(** X12. The detections of the result are the contours of the centre mask
    whose measured area is positive, each of them exactly once: their
    contours are a rearrangement of those contours. *)
Theorem Find_detections_are_the_contours (sceneBgr : Scene)
    (r : ColorPatternRunResult.t) :
  Find config_ sceneBgr = Returns r ->
  Permutation (map contour (detections r))
    (filter (fun c => negb (F32.le (F32.of_double (contourArea c)) F32.zero))
       (Find_contours config_ sceneBgr)).
Proof.
  intros Hf. destruct (Find_Returns _ _ _ Hf) as (_ & -> & _).
  rewrite <- (Find_detections_contours (Find_centerMask config_ sceneBgr)
               (Find_supportMask config_ sceneBgr) (Find_excludeMask config_ sceneBgr)).
  apply Permutation_map, Permutation_sym.
  apply std_sort_perm.
Qed.

End FinderOutputs.

Lemma flat_map_ext_all {A B} (f g : A -> list B) (l : list A) :
  (forall a, f a = g a) -> flat_map f l = flat_map g l.
Proof. intros H. induction l as [|a l IH]; simpl; [reflexivity|]. rewrite H, IH. reflexivity. Qed.

Section DisabledContext.
Context {ext : Externals}.

(** X13. With the context ring disabled, the result of [Find] does not
    depend on the rest of the context configuration: two configurations
    that agree on the centre colour, the morphology and the shape filter
    give the same outcome on every image. *)
Theorem Find_ignores_disabled_context (c1 c2 : ColorPatternConfig) (sceneBgr : Scene) :
  centerColor c1 = centerColor c2 -> centerMorph c1 = centerMorph c2 ->
  shape c1 = shape c2 ->
  enabled (context c1) = false -> enabled (context c2) = false ->
  Find c1 sceneBgr = Find c2 sceneBgr.
Proof.
  intros Hc Hm Hs H1 H2. unfold Find.
  destruct (Scene_empty sceneBgr); [reflexivity|].
  assert (Hcm : Find_centerMask c1 sceneBgr = Find_centerMask c2 sceneBgr)
    by (unfold Find_centerMask; rewrite Hc, Hm; reflexivity).
  assert (Hsm : Find_supportMask c1 sceneBgr = Find_supportMask c2 sceneBgr)
    by (unfold Find_supportMask; rewrite H1, H2; reflexivity).
  assert (Hem : Find_excludeMask c1 sceneBgr = Find_excludeMask c2 sceneBgr)
    by (unfold Find_excludeMask; rewrite H1, H2; reflexivity).
  assert (Hco : Find_contours c1 sceneBgr = Find_contours c2 sceneBgr)
    by (unfold Find_contours; rewrite Hcm; reflexivity).
  assert (Hd : forall cm sm em l,
             Find_detections c1 cm sm em l = Find_detections c2 cm sm em l).
  { intros cm sm em l. unfold Find_detections. rewrite !Find_detections_fold.
    f_equal. apply flat_map_ext_all. intros c.
    unfold Find_candidate. rewrite Hs, H1, H2. reflexivity. }
  cbv zeta. rewrite Hcm, Hsm, Hem, Hco, Hd. reflexivity.
Qed.

End DisabledContext.

Import api.

(* ================================================================== *)
(** * Properties of the C interface, [ChromaCore.cpp] *)

(** ** [WriteErrorMessage] *)

Lemma substring_0_length (n : nat) (s : string) :
  String.length (substring 0 n s) = Nat.min n (String.length s).
Proof.
  revert s. induction n as [|n IH]; intros [|c s]; simpl; try reflexivity.
  rewrite IH. reflexivity.
Qed.

Lemma substring_0_prefix (n : nat) (s : string) : prefix (substring 0 n s) s = true.
Proof.
  revert s. induction n as [|n IH]; intros [|c s]; simpl; try reflexivity.
  destruct (Ascii.ascii_dec c c); [apply IH|congruence].
Qed.

Lemma substring_0_all (n : nat) (s : string) :
  (String.length s <= n)%nat -> substring 0 n s = s.
Proof.
  revert s. induction n as [|n IH]; intros [|c s]; simpl; intros H; try reflexivity.
  - lia.
  - rewrite IH by lia. reflexivity.
Qed.

(** X14. [WriteErrorMessage] leaves a null or zero-sized buffer alone;
    otherwise the buffer holds the longest beginning of the message that fits
    with its terminator in [outErrorChars] characters, which is the whole
    message when that fits. *)
Theorem WriteErrorMessage_fits_buffer (outError : option string) (outErrorChars : Z)
    (message : string) :
  match outError with
  | None => WriteErrorMessage outError outErrorChars message = None
  | Some old =>
      if outErrorChars <=? 0
      then WriteErrorMessage outError outErrorChars message = Some old
      else exists s,
        WriteErrorMessage outError outErrorChars message = Some s /\
        prefix s message = true /\
        Z.of_nat (String.length s)
        = Z.min (outErrorChars - 1) (Z.of_nat (String.length message)) /\
        (Z.of_nat (String.length message) < outErrorChars -> s = message)
  end.
Proof.
  unfold WriteErrorMessage. destruct outError as [old|]; [|reflexivity].
  destruct (Z.leb_spec outErrorChars 0); [reflexivity|].
  eexists. split; [reflexivity|]. split; [apply substring_0_prefix|]. split.
  - rewrite substring_0_length. lia.
  - intros Hlt. apply substring_0_all. lia.
Qed.

(** ** [ConvertApiConfigToPattern] and [ConvertPatternToApiConfig] *)

Lemma ClampHue_id (h : Z) : 0 <= h <= 179 -> ClampHue h = h.
Proof.
  intros H. unfold ClampHue.
  destruct (Z.ltb_spec h 0); [lia|]. destruct (Z.gtb_spec h 179); [lia|]. reflexivity.
Qed.

Lemma ValidateChannelRange_spec (range : ChromaChannelRange.t) (name errorOut : string) :
  if range_rule (ToChannelRange range)
  then ValidateChannelRange range name errorOut = (true, errorOut)
  else exists msg, ValidateChannelRange range name errorOut = (false, (name ++ msg)%string)
                   /\ msg <> ""%string.
Proof.
  unfold ValidateChannelRange, range_rule, ToChannelRange. simpl.
  destruct (Z.ltb_spec (ChromaChannelRange.minValue range) 0);
    destruct (Z.gtb_spec (ChromaChannelRange.minValue range) 255);
    destruct (Z.ltb_spec (ChromaChannelRange.maxValue range) 0);
    destruct (Z.gtb_spec (ChromaChannelRange.maxValue range) 255);
    destruct (Z.gtb_spec (ChromaChannelRange.minValue range)
                (ChromaChannelRange.maxValue range));
    destruct (Z.leb_spec 0 (ChromaChannelRange.minValue range));
    destruct (Z.leb_spec (ChromaChannelRange.minValue range) 255);
    destruct (Z.leb_spec 0 (ChromaChannelRange.maxValue range));
    destruct (Z.leb_spec (ChromaChannelRange.maxValue range) 255);
    destruct (Z.leb_spec (ChromaChannelRange.minValue range)
                (ChromaChannelRange.maxValue range));
    simpl; try lia; try reflexivity;
    (eexists; split; [reflexivity|discriminate]).
Qed.

Lemma add_hue_ranges_spec (hs : list ChromaHueRange.t) (name : string)
    (hues : HueRangeSet) (errorOut : string) :
  if forallb hue_range_ok hs
  then add_hue_ranges hs name hues errorOut
       = (true, {| ranges_ := ranges_ hues ++ map to_HueRange hs |}, errorOut)
  else exists hues',
       add_hue_ranges hs name hues errorOut
       = (false, hues', (name ++ " must be in [0,179].")%string).
Proof.
  revert hues. induction hs as [|h hs IH]; intros hues; simpl.
  - rewrite app_nil_r. destruct hues. reflexivity.
  - destruct (forallb hue_range_ok hs) eqn:Ef.
    + unfold ValidateHueRange, hue_range_ok.
      destruct (Z.ltb_spec (ChromaHueRange.minHue h) 0);
        destruct (Z.gtb_spec (ChromaHueRange.minHue h) 179);
        destruct (Z.ltb_spec (ChromaHueRange.maxHue h) 0);
        destruct (Z.gtb_spec (ChromaHueRange.maxHue h) 179);
        destruct (Z.leb_spec 0 (ChromaHueRange.minHue h));
        destruct (Z.leb_spec (ChromaHueRange.minHue h) 179);
        destruct (Z.leb_spec 0 (ChromaHueRange.maxHue h));
        destruct (Z.leb_spec (ChromaHueRange.maxHue h) 179);
        simpl; try lia; try (eexists; reflexivity).
      rewrite IH. unfold Add. simpl. rewrite !ClampHue_id by lia.
      rewrite <- app_assoc. reflexivity.
    + rewrite andb_false_r. unfold ValidateHueRange.
      destruct ((ChromaHueRange.minHue h <? 0) || (ChromaHueRange.minHue h >? 179)
                || (ChromaHueRange.maxHue h <? 0) || (ChromaHueRange.maxHue h >? 179));
        [eexists; reflexivity|apply IH].
Qed.

(** The two ways out of [ConvertApiConfigToPattern]. *)
Lemma ConvertApiConfigToPattern_cases (i : ChromaConfigV1.t) (outCfg : PatternConfig)
    (errorOut : string) :
  (api_config_ok i = true /\
   ConvertApiConfigToPattern i outCfg errorOut
   = (CHROMA_STATUS_OK, imported_config i, errorOut)) \/
  (api_config_ok i = false /\
   exists status msg,
     ConvertApiConfigToPattern i outCfg errorOut = (status, outCfg, msg) /\
     msg <> ""%string /\
     ((status = CHROMA_STATUS_INVALID_ARGUMENT /\
       ChromaConfigV1.structSize i < sizeof_ChromaConfigV1) \/
      (status = CHROMA_STATUS_CONFIG_ERROR /\
       sizeof_ChromaConfigV1 <= ChromaConfigV1.structSize i))).
Proof.
  unfold ConvertApiConfigToPattern.
  destruct (Z.ltb_spec (ChromaConfigV1.structSize i) sizeof_ChromaConfigV1) as [Hs|Hs].
  { right. split.
    - apply Z.leb_gt in Hs. conj_false.
    - eexists _, _. split; [reflexivity|]. split; [discriminate|]. left. split; [reflexivity|lia]. }
  assert (Es : (sizeof_ChromaConfigV1 <=? ChromaConfigV1.structSize i) = true)
    by (apply Z.leb_le; exact Hs).
  destruct (Z.ltb_spec (ChromaConfigV1.centerHueRangeCount i) 1) as [Hc1|Hc1].
  { apply Z.leb_gt in Hc1. simpl. rejected. }
  destruct (Z.gtb_spec (ChromaConfigV1.centerHueRangeCount i) CHROMA_MAX_HUE_RANGES)
    as [Hc2|Hc2].
  { assert (E : (ChromaConfigV1.centerHueRangeCount i <=? CHROMA_MAX_HUE_RANGES) = false)
      by (apply Z.leb_gt; lia).
    simpl. rejected. }
  destruct (Z.ltb_spec (ChromaConfigV1.contextExcludeHueRangeCount i) 0) as [He1|He1].
  { apply Z.leb_gt in He1. simpl. rejected. }
  destruct (Z.gtb_spec (ChromaConfigV1.contextExcludeHueRangeCount i) CHROMA_MAX_HUE_RANGES)
    as [He2|He2].
  { assert (E : (ChromaConfigV1.contextExcludeHueRangeCount i <=? CHROMA_MAX_HUE_RANGES) = false)
      by (apply Z.leb_gt; lia).
    simpl. rejected. }
  cbv beta iota delta [orb].
  pose proof (ValidateChannelRange_spec (ChromaConfigV1.centerSatRange i)
                "centerSatRange" errorOut) as V1.
  destruct (range_rule (ToChannelRange (ChromaConfigV1.centerSatRange i))) eqn:R1;
    [rewrite V1|destruct V1 as (m1 & -> & Hm1); simpl; rejected].
  pose proof (ValidateChannelRange_spec (ChromaConfigV1.centerValRange i)
                "centerValRange" errorOut) as V2.
  destruct (range_rule (ToChannelRange (ChromaConfigV1.centerValRange i))) eqn:R2;
    [rewrite V2|destruct V2 as (m2 & -> & Hm2); simpl; rejected].
  pose proof (ValidateChannelRange_spec (ChromaConfigV1.contextSupportSatRange i)
                "contextSupportSatRange" errorOut) as V3.
  destruct (range_rule (ToChannelRange (ChromaConfigV1.contextSupportSatRange i))) eqn:R3;
    [rewrite V3|destruct V3 as (m3 & -> & Hm3); simpl; rejected].
  pose proof (ValidateChannelRange_spec (ChromaConfigV1.contextSupportValRange i)
                "contextSupportValRange" errorOut) as V4.
  destruct (range_rule (ToChannelRange (ChromaConfigV1.contextSupportValRange i))) eqn:R4;
    [rewrite V4|destruct V4 as (m4 & -> & Hm4); simpl; rejected].
  cbv beta iota delta [negb].
  pose proof (add_hue_ranges_spec
                (first_elements (ChromaConfigV1.centerHueRanges i)
                   (ChromaConfigV1.centerHueRangeCount i))
                "centerHueRanges[i]" (Clear HueRangeSet_default) errorOut) as A1.
  destruct (forallb hue_range_ok
              (first_elements (ChromaConfigV1.centerHueRanges i)
                 (ChromaConfigV1.centerHueRangeCount i))) eqn:F1;
    [rewrite A1|destruct A1 as (h1 & ->); simpl; rejected].
  pose proof (add_hue_ranges_spec
                (first_elements (ChromaConfigV1.contextExcludeHueRanges i)
                   (ChromaConfigV1.contextExcludeHueRangeCount i))
                "contextExcludeHueRanges[i]" (Clear HueRangeSet_default) errorOut) as A2.
  destruct (forallb hue_range_ok
              (first_elements (ChromaConfigV1.contextExcludeHueRanges i)
                 (ChromaConfigV1.contextExcludeHueRangeCount i))) eqn:F2;
    [rewrite A2|destruct A2 as (h2 & ->); simpl; rejected].
  cbv beta iota delta [negb]. simpl ranges_. simpl app.
  fold (imported_config i).
  destruct (ValidateConfig_discipline (pattern (imported_config i))) as (D1 & _ & _ & D4).
  specialize (D1 (Some ""%string)). specialize (D4 ""%string).
  destruct (ValidateConfig (pattern (imported_config i)) (Some ""%string))
    as [[|] ve] eqn:EV; cbn [fst snd] in D1, D4.
  - left. split; [|reflexivity].
    unfold api_config_ok. rewrite Es, R1, R2, R3, R4, F1, F2, <- D1.
    replace (1 <=? ChromaConfigV1.centerHueRangeCount i) with true
      by (symmetry; apply Z.leb_le; lia).
    replace (ChromaConfigV1.centerHueRangeCount i <=? CHROMA_MAX_HUE_RANGES) with true
      by (symmetry; apply Z.leb_le; lia).
    replace (0 <=? ChromaConfigV1.contextExcludeHueRangeCount i) with true
      by (symmetry; apply Z.leb_le; lia).
    replace (ChromaConfigV1.contextExcludeHueRangeCount i <=? CHROMA_MAX_HUE_RANGES) with true
      by (symmetry; apply Z.leb_le; lia).
    reflexivity.
  - destruct (D4 eq_refl) as (msg & -> & Hmsg).
    right. split.
    + symmetry in D1. conj_false.
    + eexists _, _. split; [reflexivity|]. split; [exact Hmsg|]. right. split; [reflexivity|lia].
Qed.

(** X15. [ConvertApiConfigToPattern] returns OK, INVALID_ARGUMENT or
    CONFIG_ERROR, and INVALID_ARGUMENT exactly when [structSize] is too
    small.  When it fails, [outCfg] is left as it was and [errorOut] holds a
    message that is not empty; when it succeeds, [errorOut] is left as it was
    and the configuration stored in [outCfg] passes [ValidateConfig]. *)
Theorem ConvertApiConfigToPattern_outcome (i : ChromaConfigV1.t) (outCfg : PatternConfig)
    (errorOut : string) :
  let status := fst (fst (ConvertApiConfigToPattern i outCfg errorOut)) in
  let cfg := snd (fst (ConvertApiConfigToPattern i outCfg errorOut)) in
  let err := snd (ConvertApiConfigToPattern i outCfg errorOut) in
  (status = CHROMA_STATUS_OK \/ status = CHROMA_STATUS_INVALID_ARGUMENT \/
   status = CHROMA_STATUS_CONFIG_ERROR) /\
  (status = CHROMA_STATUS_INVALID_ARGUMENT <->
   ChromaConfigV1.structSize i < sizeof_ChromaConfigV1) /\
  (status = CHROMA_STATUS_OK ->
   err = errorOut /\ fst (ValidateConfig (pattern cfg) None) = true) /\
  (status <> CHROMA_STATUS_OK -> cfg = outCfg /\ err <> ""%string).
Proof.
  destruct (ConvertApiConfigToPattern_cases i outCfg errorOut)
    as [[Hok ->]|[Hko (status & msg & -> & Hmsg & [[-> Hs]|[-> Hs]])]];
    cbn [fst snd].
  - split; [left; reflexivity|]. split.
    + split; [discriminate|]. intros Hs. unfold api_config_ok in Hok.
      apply Z.leb_gt in Hs. rewrite Hs in Hok.
      rewrite ?andb_false_l in Hok. discriminate.
    + split; [|intros H; contradiction H; reflexivity].
      intros _. split; [reflexivity|].
      unfold api_config_ok in Hok. apply andb_prop in Hok. apply Hok.
  - split; [right; left; reflexivity|]. split; [tauto|].
    split; [discriminate|]. intros _. split; [reflexivity|exact Hmsg].
  - split; [right; right; reflexivity|]. split.
    + split; [discriminate|]. intros H. lia.
    + split; [discriminate|]. intros _. split; [reflexivity|exact Hmsg].
Qed.

Lemma forallb_hue_range_ok (hs : list ChromaHueRange.t) :
  forallb hue_range_ok hs = true ->
  Forall (fun r => 0 <= minHue r <= 179 /\ 0 <= maxHue r <= 179) (map to_HueRange hs).
Proof.
  induction hs as [|h hs IH]; simpl; intros H; constructor.
  - apply andb_prop in H. destruct H as [H _]. unfold hue_range_ok in H.
    rewrite !andb_true_iff, !Z.leb_le in H. simpl. lia.
  - apply IH. apply andb_prop in H. apply H.
Qed.

(** X16. On success [ConvertApiConfigToPattern] stores the counted ranges of
    the two arrays as they are, in their order; each of their hues lies in
    0..179 and each channel range of the input satisfies 0 <= min <= max <=
    255.  The support hues are the full range 0..179 whatever the input, and
    the exclude saturation and value ranges are the support ranges. *)
Theorem ConvertApiConfigToPattern_success (i : ChromaConfigV1.t) (outCfg cfg : PatternConfig)
    (errorOut err : string) :
  ConvertApiConfigToPattern i outCfg errorOut = (CHROMA_STATUS_OK, cfg, err) ->
  let center := first_elements (ChromaConfigV1.centerHueRanges i)
                  (ChromaConfigV1.centerHueRangeCount i) in
  let exclude := first_elements (ChromaConfigV1.contextExcludeHueRanges i)
                   (ChromaConfigV1.contextExcludeHueRangeCount i) in
  1 <= ChromaConfigV1.centerHueRangeCount i <= CHROMA_MAX_HUE_RANGES /\
  0 <= ChromaConfigV1.contextExcludeHueRangeCount i <= CHROMA_MAX_HUE_RANGES /\
  Ranges (hues (centerColor (pattern cfg))) = map to_HueRange center /\
  Ranges (excludeHues (context (pattern cfg))) = map to_HueRange exclude /\
  Forall (fun r => 0 <= minHue r <= 179 /\ 0 <= maxHue r <= 179)
    (Ranges (hues (centerColor (pattern cfg))) ++
     Ranges (excludeHues (context (pattern cfg)))) /\
  Forall (fun r => 0 <= minValue r <= maxValue r /\ maxValue r <= 255)
    [satRange (centerColor (pattern cfg)); valRange (centerColor (pattern cfg));
     satRange (supportColor (context (pattern cfg)));
     valRange (supportColor (context (pattern cfg)))] /\
  Ranges (hues (supportColor (context (pattern cfg)))) = [ {| minHue := 0; maxHue := 179 |} ] /\
  excludeSatRange (context (pattern cfg)) = satRange (supportColor (context (pattern cfg))) /\
  excludeValRange (context (pattern cfg)) = valRange (supportColor (context (pattern cfg))).
Proof.
  intros H.
  destruct (ConvertApiConfigToPattern_cases i outCfg errorOut)
    as [[Hok E]|[_ (status & msg & E & _ & [[-> _]|[-> _]])]];
    rewrite E in H; try discriminate.
  injection H as <- _. unfold api_config_ok in Hok.
  rewrite !andb_true_iff, !Z.leb_le in Hok.
  destruct Hok as (((((((((((_ & Hc1) & Hc2) & He1) & He2) & R1) & R2) & R3) & R4)
                      & F1) & F2) & _).
  cbv zeta. repeat (split; [first [assumption | reflexivity | split; assumption]|]).
  split; [|split].
  - apply Forall_app. split; apply forallb_hue_range_ok; assumption.
  - apply range_rule_true in R1, R2, R3, R4. simpl in R1, R2, R3, R4.
    repeat (apply Forall_cons; [simpl; lia|]). apply Forall_nil.
  - repeat split; reflexivity.
Qed.

(** *** Export and import *)

Lemma list_set_length {A} (l : list A) (i : nat) (v : A) :
  List.length (list_set l i v) = List.length l.
Proof.
  revert i. induction l as [|a l IH]; intros [|i]; simpl; try reflexivity.
  rewrite IH. reflexivity.
Qed.

Lemma list_set_nth {A} (l : list A) (i j : nat) (v d : A) :
  nth j (list_set l i v) d =
  if Nat.eqb j i && Nat.ltb i (List.length l) then v else nth j l d.
Proof.
  revert i j. induction l as [|a l IH]; intros i j.
  - simpl. rewrite andb_false_r. destruct i; reflexivity.
  - destruct i as [|i], j as [|j]; simpl; try reflexivity.
    rewrite IH. reflexivity.
Qed.

Lemma fold_list_set {A} (f : nat -> A) (d : A) (k : nat) :
  forall (s : nat) (a : list A) (j : nat),
  List.length (fold_left (fun a i => list_set a i (f i)) (seq s k) a) = List.length a /\
  nth j (fold_left (fun a i => list_set a i (f i)) (seq s k) a) d =
  if Nat.leb s j && Nat.ltb j (s + k) && Nat.ltb j (List.length a) then f j else nth j a d.
Proof.
  induction k as [|k IH]; intros s a j; simpl.
  - split; [reflexivity|].
    destruct (Nat.leb_spec s j); destruct (Nat.ltb_spec j (s + 0)); simpl; try reflexivity.
    lia.
  - destruct (IH (S s) (list_set a s (f s)) j) as [Hl Hn].
    rewrite Hl, Hn, !list_set_length, list_set_nth. split; [reflexivity|].
    destruct (Nat.leb_spec (S s) j); destruct (Nat.leb_spec s j);
      destruct (Nat.ltb_spec j (S s + k)); destruct (Nat.ltb_spec j (s + S k));
      destruct (Nat.ltb_spec j (List.length a)); destruct (Nat.eqb_spec j s);
      destruct (Nat.ltb_spec s (List.length a)); simpl; try reflexivity; try lia.
    + subst j. reflexivity.
Qed.

Lemma map_nth_seq {A} (l : list A) (d : A) :
  map (fun j => nth j l d) (seq 0 (List.length l)) = l.
Proof.
  induction l as [|a l IH]; simpl; [reflexivity|].
  rewrite <- seq_shift, map_map. simpl. rewrite IH. reflexivity.
Qed.

Lemma to_of_HueRange (rs : list HueRange) : map to_HueRange (map of_HueRange rs) = rs.
Proof.
  induction rs as [|[a b] rs IH]; simpl; [reflexivity|]. rewrite IH. reflexivity.
Qed.

Lemma of_to_HueRange (hs : list ChromaHueRange.t) :
  map of_HueRange (map to_HueRange hs) = hs.
Proof.
  induction hs as [|[a b] hs IH]; simpl; [reflexivity|]. rewrite IH. reflexivity.
Qed.

Lemma first_elements_length (a : list ChromaHueRange.t) (count : Z) :
  List.length (first_elements a count) = Z.to_nat count.
Proof. unfold first_elements. rewrite length_map, length_seq. reflexivity. Qed.

(** The array that [ConvertPatternToApiConfig] fills. *)
Lemma fill_hue_array_spec (ranges : list HueRange) (count : Z) :
  List.length (fill_hue_array ranges count) = 8%nat /\
  forall j,
    array_at (fill_hue_array ranges count) j =
    if Nat.ltb j (Z.to_nat count) && Nat.ltb j 8
    then of_HueRange (nth j ranges {| minHue := 0; maxHue := 0 |})
    else zero_hue_range.
Proof.
  unfold array_at.
  pose (f := fun i : nat =>
    {| ChromaHueRange.minHue := minHue (nth i ranges {| minHue := 0; maxHue := 0 |});
       ChromaHueRange.maxHue := maxHue (nth i ranges {| minHue := 0; maxHue := 0 |}) |}).
  change (fill_hue_array ranges count)
    with (fold_left (fun a i => list_set a i (f i)) (seq 0 (Z.to_nat count))
            (repeat zero_hue_range (Z.to_nat CHROMA_MAX_HUE_RANGES))).
  split.
  - destruct (fold_list_set f zero_hue_range (Z.to_nat count) 0
                (repeat zero_hue_range (Z.to_nat CHROMA_MAX_HUE_RANGES)) 0%nat) as [Hl _].
    rewrite Hl. reflexivity.
  - intros j.
    destruct (fold_list_set f zero_hue_range (Z.to_nat count) 0
                (repeat zero_hue_range (Z.to_nat CHROMA_MAX_HUE_RANGES)) j) as [_ Hn].
    rewrite Hn, repeat_length. simpl Nat.leb. simpl Nat.add.
    change (Z.to_nat CHROMA_MAX_HUE_RANGES) with 8%nat.
    cbv beta iota delta [andb].
    destruct (Nat.ltb j (Z.to_nat count) && Nat.ltb j 8) eqn:E.
    + apply andb_prop in E as [-> ->]. reflexivity.
    + destruct (Nat.ltb j (Z.to_nat count)); [|apply nth_repeat].
      simpl in E. rewrite E. apply nth_repeat.
Qed.

Lemma first_elements_fill (ranges : list HueRange) :
  (List.length ranges <= 8)%nat ->
  first_elements (fill_hue_array ranges (Z.of_nat (List.length ranges)))
    (Z.of_nat (List.length ranges))
  = map of_HueRange ranges.
Proof.
  intros Hl. unfold first_elements. rewrite Nat2Z.id.
  transitivity (map of_HueRange
                  (map (fun j => nth j ranges {| minHue := 0; maxHue := 0 |})
                     (seq 0 (List.length ranges))));
    [|rewrite map_nth_seq; reflexivity].
  rewrite map_map. apply map_ext_in. intros j Hj. apply in_seq in Hj.
  destruct (fill_hue_array_spec ranges (Z.of_nat (List.length ranges))) as [_ ->].
  rewrite Nat2Z.id.
  destruct (Nat.ltb_spec j (List.length ranges)); [|lia].
  destruct (Nat.ltb_spec j 8); [|lia]. reflexivity.
Qed.

(** Exporting an imported configuration and importing it again. *)
Lemma import_export_import (i : ChromaConfigV1.t) :
  api_config_ok i = true ->
  api_config_ok (ConvertPatternToApiConfig (imported_config i)) = true /\
  imported_config (ConvertPatternToApiConfig (imported_config i)) = imported_config i.
Proof.
  intros Hok. pose proof Hok as Hok'. unfold api_config_ok in Hok'.
  rewrite !andb_true_iff, !Z.leb_le in Hok'.
  destruct Hok' as (((((((((((_ & Hc1) & Hc2) & He1) & He2) & R1) & R2) & R3) & R4)
                      & F1) & F2) & HV).
  unfold CHROMA_MAX_HUE_RANGES in Hc2, He2.
  set (cs := first_elements (ChromaConfigV1.centerHueRanges i)
               (ChromaConfigV1.centerHueRangeCount i)) in *.
  set (es := first_elements (ChromaConfigV1.contextExcludeHueRanges i)
               (ChromaConfigV1.contextExcludeHueRangeCount i)) in *.
  assert (Lc : Z.min (Z.of_nat (List.length (map to_HueRange cs))) CHROMA_MAX_HUE_RANGES
               = Z.of_nat (List.length (map to_HueRange cs))).
  { rewrite length_map. unfold cs. rewrite first_elements_length.
    unfold CHROMA_MAX_HUE_RANGES. lia. }
  assert (Le : Z.min (Z.of_nat (List.length (map to_HueRange es))) CHROMA_MAX_HUE_RANGES
               = Z.of_nat (List.length (map to_HueRange es))).
  { rewrite length_map. unfold es. rewrite first_elements_length.
    unfold CHROMA_MAX_HUE_RANGES. lia. }
  assert (Fc : first_elements
                 (ChromaConfigV1.centerHueRanges
                    (ConvertPatternToApiConfig (imported_config i)))
                 (ChromaConfigV1.centerHueRangeCount
                    (ConvertPatternToApiConfig (imported_config i))) = cs).
  { cbn [ConvertPatternToApiConfig ChromaConfigV1.centerHueRanges
         ChromaConfigV1.centerHueRangeCount imported_config pattern_of_api pattern
         centerColor hues Ranges ranges_].
    fold cs. rewrite Lc, first_elements_fill, of_to_HueRange; [reflexivity|].
    rewrite length_map. unfold cs. rewrite first_elements_length. lia. }
  assert (Fe : first_elements
                 (ChromaConfigV1.contextExcludeHueRanges
                    (ConvertPatternToApiConfig (imported_config i)))
                 (ChromaConfigV1.contextExcludeHueRangeCount
                    (ConvertPatternToApiConfig (imported_config i))) = es).
  { cbn [ConvertPatternToApiConfig ChromaConfigV1.contextExcludeHueRanges
         ChromaConfigV1.contextExcludeHueRangeCount imported_config pattern_of_api pattern
         context excludeHues Ranges ranges_].
    fold es. rewrite Le, first_elements_fill, of_to_HueRange; [reflexivity|].
    rewrite length_map. unfold es. rewrite first_elements_length. lia. }
  assert (Himp : imported_config (ConvertPatternToApiConfig (imported_config i))
                 = imported_config i).
  { unfold imported_config at 1. rewrite Fc, Fe.
    unfold imported_config, pattern_of_api. fold cs es. simpl.
    destruct (ChromaConfigV1.requireContextRing i =? 0);
      destruct (ChromaConfigV1.drawRejectedCandidates i =? 0); reflexivity. }
  split; [|exact Himp].
  unfold api_config_ok. rewrite Fc, Fe, Himp, F1, F2, HV.
  cbn [ConvertPatternToApiConfig ChromaConfigV1.structSize
       ChromaConfigV1.centerHueRangeCount ChromaConfigV1.contextExcludeHueRangeCount
       imported_config pattern_of_api pattern centerColor context hues excludeHues
       Ranges ranges_].
  fold cs es. rewrite Lc, Le, !length_map. unfold cs, es.
  rewrite !first_elements_length, !Z2Nat.id by lia.
  replace (1 <=? ChromaConfigV1.centerHueRangeCount i) with true
    by (symmetry; apply Z.leb_le; lia).
  replace (ChromaConfigV1.centerHueRangeCount i <=? CHROMA_MAX_HUE_RANGES) with true
    by (symmetry; apply Z.leb_le; unfold CHROMA_MAX_HUE_RANGES; lia).
  replace (0 <=? ChromaConfigV1.contextExcludeHueRangeCount i) with true
    by (symmetry; apply Z.leb_le; lia).
  replace (ChromaConfigV1.contextExcludeHueRangeCount i <=? CHROMA_MAX_HUE_RANGES) with true
    by (symmetry; apply Z.leb_le; unfold CHROMA_MAX_HUE_RANGES; lia).
  change (ToChannelRange (ChromaConfigV1.centerSatRange
            (ConvertPatternToApiConfig (imported_config i))))
    with (ToChannelRange (ChromaConfigV1.centerSatRange i)).
  change (ToChannelRange (ChromaConfigV1.centerValRange
            (ConvertPatternToApiConfig (imported_config i))))
    with (ToChannelRange (ChromaConfigV1.centerValRange i)).
  change (ToChannelRange (ChromaConfigV1.contextSupportSatRange
            (ConvertPatternToApiConfig (imported_config i))))
    with (ToChannelRange (ChromaConfigV1.contextSupportSatRange i)).
  change (ToChannelRange (ChromaConfigV1.contextSupportValRange
            (ConvertPatternToApiConfig (imported_config i))))
    with (ToChannelRange (ChromaConfigV1.contextSupportValRange i)).
  rewrite R1, R2, R3, R4. reflexivity.
Qed.

(** X17. A configuration that [ConvertApiConfigToPattern] produced survives
    the way out and back: [ConvertPatternToApiConfig] of it is accepted
    again, and converts to the same configuration. *)
Theorem export_then_import (i : ChromaConfigV1.t) (outCfg cfg outCfg' : PatternConfig)
    (errorOut err errorOut' : string) :
  ConvertApiConfigToPattern i outCfg errorOut = (CHROMA_STATUS_OK, cfg, err) ->
  ConvertApiConfigToPattern (ConvertPatternToApiConfig cfg) outCfg' errorOut'
  = (CHROMA_STATUS_OK, cfg, errorOut').
Proof.
  intros H.
  destruct (ConvertApiConfigToPattern_cases i outCfg errorOut)
    as [[Hok E]|[_ (status & msg & E & _ & [[-> _]|[-> _]])]];
    rewrite E in H; try discriminate.
  injection H as <- _.
  destruct (import_export_import i Hok) as [Hok2 Himp].
  destruct (ConvertApiConfigToPattern_cases
              (ConvertPatternToApiConfig (imported_config i)) outCfg' errorOut')
    as [[_ E2]|[Hko _]]; [|congruence].
  rewrite E2, Himp. reflexivity.
Qed.

(** X18. [ConvertPatternToApiConfig] announces the size of the structure,
    reports at most [CHROMA_MAX_HUE_RANGES] ranges for each hue set, fills
    the counted elements of each array with the first ranges of the set in
    their order, and leaves the other elements zero: the ranges beyond the
    eighth are dropped. *)
Theorem ConvertPatternToApiConfig_arrays (cfg : PatternConfig) :
  let out := ConvertPatternToApiConfig cfg in
  let center := Ranges (hues (centerColor (pattern cfg))) in
  let exclude := Ranges (excludeHues (context (pattern cfg))) in
  ChromaConfigV1.structSize out = sizeof_ChromaConfigV1 /\
  ChromaConfigV1.centerHueRangeCount out = Z.min (Z.of_nat (List.length center)) 8 /\
  ChromaConfigV1.contextExcludeHueRangeCount out = Z.min (Z.of_nat (List.length exclude)) 8 /\
  List.length (ChromaConfigV1.centerHueRanges out) = 8%nat /\
  List.length (ChromaConfigV1.contextExcludeHueRanges out) = 8%nat /\
  first_elements (ChromaConfigV1.centerHueRanges out)
    (ChromaConfigV1.centerHueRangeCount out) = map of_HueRange (firstn 8 center) /\
  first_elements (ChromaConfigV1.contextExcludeHueRanges out)
    (ChromaConfigV1.contextExcludeHueRangeCount out) = map of_HueRange (firstn 8 exclude) /\
  (forall j, (Z.to_nat (ChromaConfigV1.centerHueRangeCount out) <= j)%nat ->
     array_at (ChromaConfigV1.centerHueRanges out) j = zero_hue_range) /\
  (forall j, (Z.to_nat (ChromaConfigV1.contextExcludeHueRangeCount out) <= j)%nat ->
     array_at (ChromaConfigV1.contextExcludeHueRanges out) j = zero_hue_range).
Proof.
  assert (Hfirst : forall rs : list HueRange,
    first_elements (fill_hue_array rs (Z.min (Z.of_nat (List.length rs)) 8))
      (Z.min (Z.of_nat (List.length rs)) 8) = map of_HueRange (firstn 8 rs)).
  { intros rs. unfold first_elements.
    assert (Hn : Z.to_nat (Z.min (Z.of_nat (List.length rs)) 8)
                 = List.length (firstn 8 rs)) by (rewrite length_firstn; lia).
    rewrite Hn.
    transitivity (map of_HueRange
                    (map (fun j => nth j (firstn 8 rs) {| minHue := 0; maxHue := 0 |})
                       (seq 0 (List.length (firstn 8 rs)))));
      [|rewrite map_nth_seq; reflexivity].
    rewrite map_map. apply map_ext_in. intros j Hj. apply in_seq in Hj.
    destruct (fill_hue_array_spec rs (Z.min (Z.of_nat (List.length rs)) 8)) as [_ ->].
    rewrite Hn. rewrite length_firstn in Hj.
    destruct (Nat.ltb_spec j (List.length (firstn 8 rs)));
      [|rewrite length_firstn in *; lia].
    destruct (Nat.ltb_spec j 8); [|lia]. cbn [andb].
    rewrite nth_firstn. destruct (Nat.ltb_spec j 8); [reflexivity|lia]. }
  assert (Hzero : forall (rs : list HueRange) j,
    (Z.to_nat (Z.min (Z.of_nat (List.length rs)) 8) <= j)%nat ->
    array_at (fill_hue_array rs (Z.min (Z.of_nat (List.length rs)) 8)) j = zero_hue_range).
  { intros rs j Hj.
    destruct (fill_hue_array_spec rs (Z.min (Z.of_nat (List.length rs)) 8)) as [_ ->].
    destruct (Nat.ltb_spec j (Z.to_nat (Z.min (Z.of_nat (List.length rs)) 8))); [lia|].
    reflexivity. }
  cbv zeta. cbn [ConvertPatternToApiConfig ChromaConfigV1.structSize
       ChromaConfigV1.centerHueRangeCount ChromaConfigV1.contextExcludeHueRangeCount
       ChromaConfigV1.centerHueRanges ChromaConfigV1.contextExcludeHueRanges].
  change CHROMA_MAX_HUE_RANGES with 8.
  repeat split; try reflexivity;
    try apply (proj1 (fill_hue_array_spec _ _)); try apply Hfirst; try apply Hzero.
Qed.

(** ** The runtime configuration *)

Lemma default_exports :
  api_config_ok (ConvertPatternToApiConfig BuildDefaultPatternConfig) = true /\
  imported_config (ConvertPatternToApiConfig BuildDefaultPatternConfig)
  = BuildDefaultPatternConfig.
Proof. split; vm_compute; reflexivity. Qed.

(** The two ways out of [ChromaRuntime_SetActiveConfig]. *)
Lemma SetActiveConfig_cases (g : PatternConfig) (config : option ChromaConfigV1.t)
    (outError : option string) (outErrorChars : Z) :
  (exists c, config = Some c /\ api_config_ok c = true /\
     ChromaRuntime_SetActiveConfig g config outError outErrorChars
     = (CHROMA_STATUS_OK, imported_config c,
        WriteErrorMessage outError outErrorChars "")) \/
  (exists status err,
     ChromaRuntime_SetActiveConfig g config outError outErrorChars = (status, g, err) /\
     ((status = CHROMA_STATUS_INVALID_ARGUMENT /\ config = None) \/
      exists c, config = Some c /\ api_config_ok c = false /\
        (status = CHROMA_STATUS_INVALID_ARGUMENT \/ status = CHROMA_STATUS_CONFIG_ERROR))).
Proof.
  unfold ChromaRuntime_SetActiveConfig, BuildConfigFromPointer.
  destruct config as [c|].
  - destruct (ConvertApiConfigToPattern_cases c ColorPatternConfig_default ""%string)
      as [[Hok ->]|[Hko (status & msg & -> & _ & [[-> _]|[-> _]])]]; simpl.
    + left. exists c. repeat split; trivial.
    + right. eexists _, _. split; [reflexivity|]. right. exists c. auto.
    + right. eexists _, _. split; [reflexivity|]. right. exists c. auto.
  - right. simpl. eexists _, _. split; [reflexivity|]. left. auto.
Qed.

(** A configuration that can be active is exported to a structure that is
    accepted and converts back to it. *)
Lemma active_config_exports (g : PatternConfig) :
  active_config g ->
  api_config_ok (ConvertPatternToApiConfig g) = true /\
  imported_config (ConvertPatternToApiConfig g) = g.
Proof.
  induction 1 as [|g config outError outErrorChars _ IH|g outError outErrorChars _ IH].
  - exact default_exports.
  - destruct (SetActiveConfig_cases g config outError outErrorChars)
      as [(c & _ & Hok & ->)|(status & err & -> & _)]; cbn [fst snd].
    + apply import_export_import, Hok.
    + exact IH.
  - exact default_exports.
Qed.

(** X19. Whatever calls were made before, the active configuration passes
    [ValidateConfig], and handing the structure written by
    [ChromaRuntime_GetActiveConfig] back to [ChromaRuntime_SetActiveConfig]
    succeeds and leaves the active configuration as it is. *)
Theorem active_config_invariant (g : PatternConfig) (slot : ChromaConfigV1.t)
    (outError outError' : option string) (outErrorChars outErrorChars' : Z) :
  active_config g ->
  fst (ValidateConfig (pattern g) None) = true /\
  ChromaRuntime_SetActiveConfig g
    (snd (fst (ChromaRuntime_GetActiveConfig g (Some slot) outError outErrorChars)))
    outError' outErrorChars'
  = (CHROMA_STATUS_OK, g, WriteErrorMessage outError' outErrorChars' "").
Proof.
  intros Ha. destruct (active_config_exports g Ha) as [Hok Himp]. split.
  - unfold api_config_ok in Hok. apply andb_prop in Hok. destruct Hok as [_ Hv].
    rewrite Himp in Hv. exact Hv.
  - cbn [ChromaRuntime_GetActiveConfig fst snd].
    destruct (SetActiveConfig_cases g (Some (ConvertPatternToApiConfig g))
                outError' outErrorChars')
      as [(c & [= <-] & _ & ->)|(status & err & _ & [[_ [=]]|(c & [= <-] & Hko & _)])].
    + rewrite Himp. reflexivity.
    + congruence.
Qed.

(** X20. [ChromaRuntime_SetActiveConfig] replaces the active configuration
    only when it returns OK, and then by a configuration that passes
    [ValidateConfig]; a null pointer gives INVALID_ARGUMENT, and after any
    failure the active configuration is what it was. *)
Theorem SetActiveConfig_all_or_nothing (g : PatternConfig)
    (config : option ChromaConfigV1.t) (outError : option string) (outErrorChars : Z) :
  let status := fst (fst (ChromaRuntime_SetActiveConfig g config outError outErrorChars)) in
  let g' := snd (fst (ChromaRuntime_SetActiveConfig g config outError outErrorChars)) in
  (status = CHROMA_STATUS_OK \/ status = CHROMA_STATUS_INVALID_ARGUMENT \/
   status = CHROMA_STATUS_CONFIG_ERROR) /\
  (config = None -> status = CHROMA_STATUS_INVALID_ARGUMENT) /\
  (status <> CHROMA_STATUS_OK -> g' = g) /\
  (status = CHROMA_STATUS_OK ->
   exists c, config = Some c /\ g' = imported_config c /\
     fst (ValidateConfig (pattern g') None) = true).
Proof.
  destruct (SetActiveConfig_cases g config outError outErrorChars)
    as [(c & -> & Hok & ->)|(status & err & -> & [[-> ->]|(c & -> & Hko & [->| ->])])];
    cbn [fst snd].
  - split; [left; reflexivity|]. split; [discriminate|].
    split; [intros H; contradiction H; reflexivity|].
    intros _. exists c. repeat split.
    unfold api_config_ok in Hok. apply andb_prop in Hok. apply Hok.
  - split; [right; left; reflexivity|]. repeat split; trivial; discriminate.
  - split; [right; left; reflexivity|]. repeat split; trivial; discriminate.
  - split; [right; right; reflexivity|]. repeat split; trivial; discriminate.
Qed.

(** ** Locating *)

Lemma fold_copy {A} (src buffer : list A) (d : A) (k : nat) :
  (k <= List.length src)%nat -> (k <= List.length buffer)%nat ->
  fold_left (fun b i => list_set b i (nth i src d)) (seq 0 k) buffer
  = firstn k src ++ skipn k buffer.
Proof.
  intros Hs Hb.
  destruct (fold_list_set (fun i => nth i src d) d k 0 buffer 0%nat) as [Hl _].
  apply (nth_ext _ _ d d).
  - rewrite Hl, length_app, length_firstn, length_skipn. lia.
  - intros j Hj. rewrite Hl in Hj.
    destruct (fold_list_set (fun i => nth i src d) d k 0 buffer j) as [_ ->].
    simpl Nat.leb. simpl Nat.add. cbn [andb].
    destruct (Nat.ltb_spec j (List.length buffer)); [|lia].
    destruct (Nat.ltb_spec j k); cbn [andb].
    + rewrite app_nth1 by (rewrite length_firstn; lia).
      rewrite nth_firstn. destruct (Nat.ltb_spec j k); [reflexivity|lia].
    + rewrite app_nth2 by (rewrite length_firstn; lia).
      rewrite length_firstn, nth_skipn. f_equal. lia.
Qed.

(** X21. Given a buffer of at least [outCapacity] > 0 points,
    [WriteLocateOutputs] reports the number of centres in [outTotalFound],
    copies the first min(total, capacity) centres to the beginning of the
    buffer in their order, leaves the rest of the buffer as it was, and
    reports the number copied in [outWritten]; it returns BUFFER_TOO_SMALL
    and writes its message exactly when some centre did not fit. *)
Theorem WriteLocateOutputs_copies_prefix (centers buffer : list ChromaPoint.t)
    (o : LocateOut) (outCapacity outErrorChars : Z) :
  outPoints o = Some buffer ->
  0 < outCapacity <= Z.of_nat (List.length buffer) ->
  Z.of_nat (List.length centers) <= INT_MAX ->
  let total := Z.of_nat (List.length centers) in
  let n := Z.to_nat (Z.min total outCapacity) in
  WriteLocateOutputs centers o outCapacity outErrorChars =
  (if outCapacity <? total then CHROMA_STATUS_BUFFER_TOO_SMALL else CHROMA_STATUS_OK,
   {| outPoints := Some (firstn n centers ++ skipn n buffer);
      outTotalFound := store (outTotalFound o) total;
      outWritten := store (outWritten o) (Z.min total outCapacity);
      outError :=
        if outCapacity <? total
        then WriteErrorMessage (outError o) outErrorChars "Output buffer too small."
        else outError o |}).
Proof.
  intros Hp Hcap Htot total n. unfold WriteLocateOutputs.
  rewrite to_int_id by (unfold INT_MIN, INT_MAX in *; lia). fold total.
  rewrite Hp. destruct (Z.leb_spec outCapacity 0); [lia|].
  rewrite fold_copy by (unfold n, total; lia). fold n.
  assert (E : (Z.min total outCapacity <? total) = (outCapacity <? total)).
  { destruct (Z.ltb_spec outCapacity total); [apply Z.ltb_lt|apply Z.ltb_ge]; lia. }
  rewrite E. destruct (outCapacity <? total); reflexivity.
Qed.

(** X22. Without a buffer, or with a capacity that is not positive,
    [WriteLocateOutputs] only counts: it reports the number of centres in
    [outTotalFound] and 0 in [outWritten], touches neither the buffer nor
    the error text, and returns OK however many centres there are. *)
Theorem WriteLocateOutputs_count_only (centers : list ChromaPoint.t) (o : LocateOut)
    (outCapacity outErrorChars : Z) :
  outPoints o = None \/ outCapacity <= 0 ->
  Z.of_nat (List.length centers) <= INT_MAX ->
  WriteLocateOutputs centers o outCapacity outErrorChars =
  (CHROMA_STATUS_OK,
   {| outPoints := outPoints o;
      outTotalFound := store (outTotalFound o) (Z.of_nat (List.length centers));
      outWritten := store (outWritten o) 0;
      outError := outError o |}).
Proof.
  intros H Htot. unfold WriteLocateOutputs.
  rewrite to_int_id by (unfold INT_MIN, INT_MAX in *; lia).
  destruct (outPoints o) as [buffer|]; [|reflexivity].
  destruct H as [H|H]; [discriminate|].
  destruct (Z.leb_spec outCapacity 0); [reflexivity|lia].
Qed.

(** What [LocateBitmap_scene] reads. *)
Lemma LocateBitmap_scene_px (mem : Z -> Z) (width height strideBytes y x : Z) :
  let scene := LocateBitmap_scene mem width height strideBytes in
  let row := if strideBytes >? 0 then y * strideBytes
             else - strideBytes * (2 * (height - 1) - y) in
  rows scene = height /\ cols scene = width /\
  px scene y x =
    (mem (row + 4 * x), mem (row + 4 * x + 1), mem (row + 4 * x + 2), mem (row + 4 * x + 3)).
Proof.
  unfold LocateBitmap_scene.
  destruct (Z.gtb_spec strideBytes 0) as [Hp|Hn].
  - destruct (Z.ltb_spec strideBytes 0); [lia|].
    cbn [Mat_view rows cols px]. repeat split.
  - destruct (Z.ltb_spec strideBytes 0) as [Hlt|Hge];
      cbn [cv_flip_rows Mat_view rows cols px]; repeat split.
    + replace (- strideBytes * (height - 1) + (height - 1 - y) * - strideBytes + 4 * x)
        with (- strideBytes * (2 * (height - 1) - y) + 4 * x) by lia.
      reflexivity.
    + assert (strideBytes = 0) by lia. subst strideBytes.
      replace (0 * (height - 1) + (height - 1 - y) * 0 + 4 * x)
        with (- 0 * (2 * (height - 1) - y) + 4 * x) by lia.
      reflexivity.
Qed.

(** X23. With a positive stride of at least [width * 4] bytes, the pixel in
    row [y] and column [x] of the scene is made of the four bytes at offset
    [y * strideBytes + 4 * x] of [bgraPixels], and for every pixel of the
    image these bytes lie among the first [strideBytes * height] bytes: the
    scene does not depend on the memory outside them. *)
Theorem LocateBitmap_scene_positive_stride (mem mem' : Z -> Z)
    (width height strideBytes y x : Z) :
  0 < width -> width * 4 <= strideBytes ->
  0 <= y < height -> 0 <= x < width ->
  let scene := LocateBitmap_scene mem width height strideBytes in
  let o := y * strideBytes + 4 * x in
  px scene y x = (mem o, mem (o + 1), mem (o + 2), mem (o + 3)) /\
  0 <= o /\ o + 3 < strideBytes * height /\
  ((forall k, 0 <= k < strideBytes * height -> mem' k = mem k) ->
   px (LocateBitmap_scene mem' width height strideBytes) y x = px scene y x).
Proof.
  intros Hw Hs Hy Hx scene o.
  destruct (LocateBitmap_scene_px mem width height strideBytes y x) as (_ & _ & Hpx).
  destruct (LocateBitmap_scene_px mem' width height strideBytes y x) as (_ & _ & Hpx').
  destruct (Z.gtb_spec strideBytes 0); [|lia].
  assert (Hlo : 0 <= o) by (unfold o; nia).
  assert (Hhi : o + 3 < strideBytes * height) by (unfold o; nia).
  split; [exact Hpx|]. split; [exact Hlo|]. split; [exact Hhi|].
  intros Hm. fold scene in Hpx. rewrite Hpx, Hpx'. fold o.
  rewrite !Hm by lia. reflexivity.
Qed.

(** X24. With a negative stride, the pixel in row [y] and column [x] of the
    scene is made of the four bytes at offset
    [|strideBytes| * (2 * (height - 1) - y) + 4 * x] of [bgraPixels]: the rows
    of the scene are read in descending order of address, the last one from
    offset [|strideBytes| * (height - 1)] and every row before it from
    offset [|strideBytes| * height] or above. *)
Theorem LocateBitmap_scene_negative_stride (mem : Z -> Z)
    (width height strideBytes y x : Z) :
  strideBytes < 0 -> 0 <= y < height -> 0 <= x < width ->
  let scene := LocateBitmap_scene mem width height strideBytes in
  let o := Z.abs strideBytes * (2 * (height - 1) - y) + 4 * x in
  px scene y x = (mem o, mem (o + 1), mem (o + 2), mem (o + 3)) /\
  Z.abs strideBytes * (height - 1) <= o /\
  (y < height - 1 -> Z.abs strideBytes * height <= o).
Proof.
  intros Hs Hy Hx scene o.
  destruct (LocateBitmap_scene_px mem width height strideBytes y x) as (_ & _ & Hpx).
  destruct (Z.gtb_spec strideBytes 0); [lia|].
  fold scene in Hpx. rewrite Hpx. unfold o.
  replace (Z.abs strideBytes) with (- strideBytes) by lia.
  split; [reflexivity|]. split; nia.
Qed.

Section Locate.
Context {ext : Externals}.
Variable SIZE_MAX : Z.

(** X25. [LocateBitmapImpl] returns INVALID_ARGUMENT when the pixel pointer
    is null, a dimension is not positive, the stride is zero or shorter than
    a row of [width] pixels, the capacity is negative, or the capacity is
    positive without a buffer.  It then reports 0 in [outTotalFound] and
    [outWritten], leaves the buffer as it was, and writes a message that is
    not empty. *)
Theorem LocateBitmapImpl_rejects (bgraPixels : option (Z -> Z))
    (width height strideBytes : Z) (cfg : ColorPatternConfig) (o : LocateOut)
    (outCapacity outErrorChars : Z) :
  bgraPixels = None \/ width <= 0 \/ height <= 0 \/ strideBytes = 0 \/
  Z.abs strideBytes < width * 4 \/ outCapacity < 0 \/
  (0 < outCapacity /\ outPoints o = None) ->
  exists message,
    message <> ""%string /\
    LocateBitmapImpl SIZE_MAX bgraPixels width height strideBytes cfg o
      outCapacity outErrorChars =
    (CHROMA_STATUS_INVALID_ARGUMENT,
     {| outPoints := outPoints o;
        outTotalFound := store (outTotalFound o) 0;
        outWritten := store (outWritten o) 0;
        outError := WriteErrorMessage (outError o) outErrorChars message |}).
Proof.
  intros H. unfold LocateBitmapImpl, set_outError. cbn [outPoints outTotalFound outWritten outError].
  destruct bgraPixels as [mem|];
    [|eexists; split; [|reflexivity]; discriminate].
  destruct (Z.leb_spec width 0);
    [eexists; split; [|reflexivity]; discriminate|].
  destruct (Z.leb_spec height 0);
    [eexists; split; [|reflexivity]; discriminate|].
  cbn [orb].
  destruct (Z.eqb_spec strideBytes 0);
    [eexists; split; [|reflexivity]; discriminate|].
  destruct (Z.ltb_spec (if strideBytes <? 0 then - strideBytes else strideBytes) (width * 4));
    [eexists; split; [|reflexivity]; discriminate|].
  destruct ((height >? 1)
            && ((if strideBytes <? 0 then - strideBytes else strideBytes) * (height - 1)
                >? SIZE_MAX));
    [eexists; split; [|reflexivity]; discriminate|].
  unfold ValidateOutputArgs.
  destruct (Z.ltb_spec outCapacity 0);
    [eexists; split; [|reflexivity]; discriminate|].
  destruct (Z.gtb_spec outCapacity 0); destruct (outPoints o) as [buffer|] eqn:Ep;
    cbn [andb negb Z.eqb CHROMA_STATUS_INVALID_ARGUMENT CHROMA_STATUS_OK];
    try (eexists; split; [|reflexivity]; discriminate);
    exfalso; destruct (Z.ltb_spec strideBytes 0);
    destruct H as [H|[H|[H|[H|[H|[H|[Hq1 Hq2]]]]]]]; try discriminate; lia.
Qed.

(** X26. On arguments that pass these checks, [LocateBitmapImpl] runs [Find]
    with the given configuration on the image over the caller's pixels,
    which returns, clears the error text, and hands the accepted centres of
    the result, in their order, to [WriteLocateOutputs]. *)
Theorem LocateBitmapImpl_locates (mem : Z -> Z) (width height strideBytes : Z)
    (cfg : ColorPatternConfig) (o : LocateOut) (outCapacity outErrorChars : Z) :
  0 < width -> 0 < height -> strideBytes <> 0 -> width * 4 <= Z.abs strideBytes ->
  (1 < height -> Z.abs strideBytes * (height - 1) <= SIZE_MAX) ->
  0 <= outCapacity -> (0 < outCapacity -> outPoints o <> None) ->
  exists r,
    Find cfg (Scene_bgra (LocateBitmap_scene mem width height strideBytes)) = Returns r /\
    LocateBitmapImpl SIZE_MAX (Some mem) width height strideBytes cfg o
      outCapacity outErrorChars =
    WriteLocateOutputs
      (map (fun p : Point => {| ChromaPoint.x := fst p; ChromaPoint.y := snd p |})
         (acceptedCentersPx r))
      {| outPoints := outPoints o;
         outTotalFound := store (outTotalFound o) 0;
         outWritten := store (outWritten o) 0;
         outError := WriteErrorMessage (outError o) outErrorChars "" |}
      outCapacity outErrorChars.
Proof.
  intros Hw Hh Hs Hmin Hmax Hcap Hbuf.
  assert (Hne : Scene_empty (Scene_bgra (LocateBitmap_scene mem width height strideBytes))
                = false).
  { destruct (LocateBitmap_scene_px mem width height strideBytes 0 0) as (Hr & Hc & _).
    unfold Scene_empty, Mat_empty. rewrite Hr, Hc.
    destruct (Z.leb_spec height 0); [lia|]. destruct (Z.leb_spec width 0); [lia|].
    reflexivity. }
  pose proof (Find_total cfg (Scene_bgra (LocateBitmap_scene mem width height strideBytes)))
    as Ht.
  rewrite Hne in Ht. destruct Ht as (r & Hr). exists r. split; [exact Hr|].
  unfold LocateBitmapImpl, set_outError.
  cbn [outPoints outTotalFound outWritten outError].
  destruct (Z.leb_spec width 0); [lia|]. destruct (Z.leb_spec height 0); [lia|].
  cbn [orb]. destruct (Z.eqb_spec strideBytes 0); [lia|].
  destruct (Z.ltb_spec (if strideBytes <? 0 then - strideBytes else strideBytes) (width * 4))
    as [Hlt|_]; [destruct (Z.ltb_spec strideBytes 0); lia|].
  assert (Hbig : (height >? 1)
            && ((if strideBytes <? 0 then - strideBytes else strideBytes) * (height - 1)
                >? SIZE_MAX) = false).
  { destruct (Z.gtb_spec height 1); [|reflexivity]. cbn [andb].
    destruct (Z.gtb_spec ((if strideBytes <? 0 then - strideBytes else strideBytes)
                          * (height - 1)) SIZE_MAX) as [Hgt|]; [|reflexivity].
    destruct (Z.ltb_spec strideBytes 0); specialize (Hmax ltac:(lia)); lia. }
  rewrite Hbig. unfold ValidateOutputArgs.
  destruct (Z.ltb_spec outCapacity 0); [lia|].
  assert (Hv : (outCapacity >? 0)
               && match outPoints o with None => true | Some _ => false end = false).
  { destruct (Z.gtb_spec outCapacity 0); [|reflexivity].
    destruct (outPoints o); [reflexivity|]. exfalso. apply Hbuf; [lia|reflexivity]. }
  rewrite Hv. cbn [negb Z.eqb CHROMA_STATUS_OK].
  unfold DetectAcceptedCentersFromMat, DetectRunResultFromMat.
  rewrite Hne, Hr. cbn [negb Z.eqb CHROMA_STATUS_OK]. reflexivity.
Qed.

(** X27. [ChromaRuntime_LocateBitmapWithConfigBGRAW] converts the
    configuration before it looks at the bitmap.  With a null or rejected
    configuration it returns the status of the conversion, which is not OK,
    and leaves the buffer, [outTotalFound] and [outWritten] as they were (they
    are not reset to 0); with an accepted one it is [LocateBitmapImpl] on the
    converted configuration. *)
Theorem LocateBitmapWithConfig_converts_first (bgraPixels : option (Z -> Z))
    (width height strideBytes : Z) (config : option ChromaConfigV1.t) (o : LocateOut)
    (outCapacity outErrorChars : Z) :
  let res := ChromaRuntime_LocateBitmapWithConfigBGRAW SIZE_MAX bgraPixels width height
               strideBytes config o outCapacity outErrorChars in
  let accepted_config :=
    match config with Some c => api_config_ok c | None => false end in
  if accepted_config then
    exists c, config = Some c /\
      res = LocateBitmapImpl SIZE_MAX bgraPixels width height strideBytes
              (pattern (imported_config c))
              (set_outError o (WriteErrorMessage (outError o) outErrorChars ""))
              outCapacity outErrorChars
  else
    (fst res = CHROMA_STATUS_INVALID_ARGUMENT \/ fst res = CHROMA_STATUS_CONFIG_ERROR) /\
    (config = None -> fst res = CHROMA_STATUS_INVALID_ARGUMENT) /\
    outPoints (snd res) = outPoints o /\
    outTotalFound (snd res) = outTotalFound o /\
    outWritten (snd res) = outWritten o.
Proof.
  unfold ChromaRuntime_LocateBitmapWithConfigBGRAW, BuildConfigFromPointer.
  cbn [set_outError outError outPoints outTotalFound outWritten].
  destruct config as [c|]; cbv zeta.
  - destruct (ConvertApiConfigToPattern_cases c ColorPatternConfig_default ""%string)
      as [[Hok ->]|[Hko (status & msg & -> & _ & [[-> _]|[-> _]])]].
    + rewrite Hok. exists c. split; reflexivity.
    + rewrite Hko. cbn. repeat split; try discriminate. left. reflexivity.
    + rewrite Hko. cbn. repeat split; try discriminate. right. reflexivity.
  - cbn. repeat split. left. reflexivity.
Qed.

End Locate.

(* ================================================================== *)
(** * The further properties on the example instances *)

Lemma SafeDiv_nonneg_witness :
  F32.le F32.zero F32.one = true /\ is_nan F32.zero = false /\
  is_inf F32.one && is_inf F32.zero = false /\
  detail.SafeDiv F32.one F32.zero = F32.zero.
Proof.
  assert (H1 : F32.le F32.zero F32.one = true) by reflexivity.
  assert (H2 : is_nan F32.zero = false) by reflexivity.
  assert (H3 : is_inf F32.one && is_inf F32.zero = false) by reflexivity.
  split; [exact H1|]. split; [exact H2|]. split; [exact H3|].
  destruct (SafeDiv_nonneg F32.one F32.zero H1 H2 H3) as [_ H]. apply H. reflexivity.
Defined.

Lemma ValidateConfig_accepted_witness :
  fst (ValidateConfig (Example.config true) None) = true /\
  1 <= minArea (shape (Example.config true)) <= maxArea (shape (Example.config true)).
Proof.
  assert (H : fst (ValidateConfig (Example.config true) None) = true)
    by (vm_compute; reflexivity).
  split; [exact H|].
  destruct (ValidateConfig_accepted (Example.config true) None H)
    as (_ & _ & _ & Ha & _).
  exact Ha.
Defined.

Lemma Find_accepted_outputs_witness :
  @Find Example.ext (Example.config true) Example.green
    = Returns (Example.run true Example.green) /\
  acceptedCentersPx (Example.run true Example.green) =
    map centerPx (filter (fun d => accepted (metrics d))
                    (detections (Example.run true Example.green))) /\
  acceptedCount (Example.run true Example.green) = 1.
Proof.
  assert (Hf : @Find Example.ext (Example.config true) Example.green
               = Returns (Example.run true Example.green)) by example_returns.
  split; [exact Hf|].
  destruct (@Find_accepted_outputs Example.ext (Example.config true) Example.green
              (Example.run true Example.green) Hf) as (Hc & _ & Hn).
  split; [exact Hc|]. rewrite Hn. vm_compute. reflexivity.
Defined.

Lemma Find_accepted_iff_thresholds_witness :
  @Find Example.ext (Example.config true) Example.green
    = Returns (Example.run true Example.green) /\
  In (Example.found true Example.green 0) (detections (Example.run true Example.green)) /\
  accepted (metrics (Example.found true Example.green 0)) = true.
Proof.
  assert (Hf : @Find Example.ext (Example.config true) Example.green
               = Returns (Example.run true Example.green)) by example_returns.
  assert (Hin : In (Example.found true Example.green 0)
                   (detections (Example.run true Example.green))) by example_in.
  split; [exact Hf|]. split; [exact Hin|].
  rewrite (@Find_accepted_iff_thresholds Example.ext (Example.config true) Example.green
             (Example.run true Example.green) (Example.found true Example.green 0) Hf Hin).
  vm_compute. reflexivity.
Defined.

Lemma Find_nan_threshold_accepts_nothing_witness :
  is_nan (minCircularity (shape Example.nan_config)) = true /\
  @Find Example.ext Example.nan_config Example.green
    = Returns (Example.result_of (@Find Example.ext Example.nan_config Example.green)) /\
  acceptedCount (Example.result_of (@Find Example.ext Example.nan_config Example.green)) = 0.
Proof.
  assert (Hn : is_nan (minCircularity (shape Example.nan_config)) = true) by reflexivity.
  assert (Hf : @Find Example.ext Example.nan_config Example.green
               = Returns (Example.result_of
                            (@Find Example.ext Example.nan_config Example.green)))
    by example_returns.
  split; [exact Hn|]. split; [exact Hf|].
  destruct (@Find_nan_threshold_accepts_nothing Example.ext Example.nan_config
              Example.green _ (or_introl Hn) Hf) as (_ & _ & _ & H & _).
  exact H.
Defined.

Lemma Find_detections_are_the_contours_witness :
  @Find Example.ext (Example.config true) Example.green
    = Returns (Example.run true Example.green) /\
  Permutation (map contour (detections (Example.run true Example.green)))
    (filter (fun c => negb (F32.le (F32.of_double (@contourArea Example.ext c)) F32.zero))
       (@Find_contours Example.ext (Example.config true) Example.green)).
Proof.
  assert (Hf : @Find Example.ext (Example.config true) Example.green
               = Returns (Example.run true Example.green)) by example_returns.
  split; [exact Hf|].
  exact (@Find_detections_are_the_contours Example.ext (Example.config true)
           Example.green (Example.run true Example.green) Hf).
Defined.

Lemma Find_ignores_disabled_context_witness :
  centerColor (Example.config false) = centerColor ApiExample.other_ring /\
  centerMorph (Example.config false) = centerMorph ApiExample.other_ring /\
  shape (Example.config false) = shape ApiExample.other_ring /\
  enabled (context (Example.config false)) = false /\
  enabled (context ApiExample.other_ring) = false /\
  @Find Example.ext (Example.config false) Example.green
  = @Find Example.ext ApiExample.other_ring Example.green.
Proof.
  repeat (split; [reflexivity|]).
  exact (@Find_ignores_disabled_context Example.ext (Example.config false)
           ApiExample.other_ring Example.green
           eq_refl eq_refl eq_refl eq_refl eq_refl).
Defined.

Lemma ConvertApiConfigToPattern_success_witness :
  ConvertApiConfigToPattern ApiExample.default_api ColorPatternConfig_default ""%string
    = (CHROMA_STATUS_OK, BuildDefaultPatternConfig, ""%string) /\
  Ranges (excludeHues (context (pattern BuildDefaultPatternConfig)))
    = [ {| minHue := 52; maxHue := 68 |}; {| minHue := 24; maxHue := 48 |} ].
Proof.
  assert (H : ConvertApiConfigToPattern ApiExample.default_api ColorPatternConfig_default
                ""%string
              = (CHROMA_STATUS_OK, BuildDefaultPatternConfig, ""%string))
    by (vm_compute; reflexivity).
  split; [exact H|].
  destruct (ConvertApiConfigToPattern_success ApiExample.default_api
              ColorPatternConfig_default BuildDefaultPatternConfig ""%string ""%string H)
    as (_ & _ & _ & He & _).
  rewrite He. vm_compute. reflexivity.
Defined.

Lemma export_then_import_witness :
  ConvertApiConfigToPattern ApiExample.default_api ColorPatternConfig_default ""%string
    = (CHROMA_STATUS_OK, BuildDefaultPatternConfig, ""%string) /\
  ConvertApiConfigToPattern (ConvertPatternToApiConfig BuildDefaultPatternConfig)
    ColorPatternConfig_default "unchanged"%string
    = (CHROMA_STATUS_OK, BuildDefaultPatternConfig, "unchanged"%string).
Proof.
  assert (H : ConvertApiConfigToPattern ApiExample.default_api ColorPatternConfig_default
                ""%string
              = (CHROMA_STATUS_OK, BuildDefaultPatternConfig, ""%string))
    by (vm_compute; reflexivity).
  split; [exact H|].
  exact (export_then_import ApiExample.default_api ColorPatternConfig_default
           BuildDefaultPatternConfig ColorPatternConfig_default
           ""%string ""%string "unchanged"%string H).
Defined.

Lemma active_config_invariant_witness :
  active_config BuildDefaultPatternConfig /\
  fst (ValidateConfig (pattern BuildDefaultPatternConfig) None) = true.
Proof.
  assert (H : active_config BuildDefaultPatternConfig) by exact active_initial.
  split; [exact H|].
  destruct (active_config_invariant BuildDefaultPatternConfig ApiExample.default_api
              None None 0 0 H) as [Hv _].
  exact Hv.
Defined.

Lemma WriteLocateOutputs_copies_prefix_witness :
  outPoints (ApiExample.out (Some ApiExample.buffer)) = Some ApiExample.buffer /\
  0 < 2 <= Z.of_nat (List.length ApiExample.buffer) /\
  Z.of_nat (List.length ApiExample.centers) <= INT_MAX /\
  WriteLocateOutputs ApiExample.centers (ApiExample.out (Some ApiExample.buffer)) 2 64 =
  (CHROMA_STATUS_BUFFER_TOO_SMALL,
   {| outPoints := Some [ApiExample.point 1 1; ApiExample.point 2 2];
      outTotalFound := Some 3; outWritten := Some 2;
      outError := Some "Output buffer too small."%string |}).
Proof.
  assert (H1 : outPoints (ApiExample.out (Some ApiExample.buffer)) = Some ApiExample.buffer)
    by reflexivity.
  assert (H2 : 0 < 2 <= Z.of_nat (List.length ApiExample.buffer)) by (simpl; lia).
  assert (H3 : Z.of_nat (List.length ApiExample.centers) <= INT_MAX)
    by (vm_compute; discriminate).
  split; [exact H1|]. split; [exact H2|]. split; [exact H3|].
  rewrite (WriteLocateOutputs_copies_prefix ApiExample.centers ApiExample.buffer
             (ApiExample.out (Some ApiExample.buffer)) 2 64 H1 H2 H3).
  vm_compute. reflexivity.
Defined.

Lemma WriteLocateOutputs_count_only_witness :
  (outPoints (ApiExample.out None) = None \/ 0 <= 0) /\
  Z.of_nat (List.length ApiExample.centers) <= INT_MAX /\
  WriteLocateOutputs ApiExample.centers (ApiExample.out None) 0 64 =
  (CHROMA_STATUS_OK,
   {| outPoints := None; outTotalFound := Some 3; outWritten := Some 0;
      outError := Some "earlier"%string |}).
Proof.
  assert (H1 : outPoints (ApiExample.out None) = None \/ 0 <= 0) by (left; reflexivity).
  assert (H3 : Z.of_nat (List.length ApiExample.centers) <= INT_MAX)
    by (vm_compute; discriminate).
  split; [exact H1|]. split; [exact H3|].
  exact (WriteLocateOutputs_count_only ApiExample.centers (ApiExample.out None) 0 64 H1 H3).
Defined.

Lemma LocateBitmap_scene_positive_stride_witness :
  0 < 2 /\ 2 * 4 <= 12 /\ 0 <= 1 < 3 /\ 0 <= 1 < 2 /\
  px (LocateBitmap_scene ApiExample.pixels 2 3 12) 1 1 = (60, 200, 200, 255) /\
  1 * 12 + 4 * 1 + 3 < 12 * 3.
Proof.
  assert (H1 : 0 < 2) by lia.
  assert (H2 : 2 * 4 <= 12) by lia.
  assert (H3 : 0 <= 1 < 3) by lia.
  assert (H4 : 0 <= 1 < 2) by lia.
  split; [exact H1|]. split; [exact H2|]. split; [exact H3|]. split; [exact H4|].
  destruct (LocateBitmap_scene_positive_stride ApiExample.pixels ApiExample.pixels
              2 3 12 1 1 H1 H2 H3 H4) as (Hpx & _ & Hhi & _).
  split; [rewrite Hpx; reflexivity|exact Hhi].
Defined.

Lemma LocateBitmap_scene_negative_stride_witness :
  -12 < 0 /\ 0 <= 0 < 3 /\ 0 <= 1 < 2 /\
  px (LocateBitmap_scene ApiExample.pixels 2 3 (-12)) 0 1
  = (ApiExample.pixels 52, ApiExample.pixels 53, ApiExample.pixels 54,
     ApiExample.pixels 55) /\
  Z.abs (-12) * 3 <= 52.
Proof.
  assert (H1 : -12 < 0) by lia.
  assert (H2 : 0 <= 0 < 3) by lia.
  assert (H3 : 0 <= 1 < 2) by lia.
  split; [exact H1|]. split; [exact H2|]. split; [exact H3|].
  destruct (LocateBitmap_scene_negative_stride ApiExample.pixels 2 3 (-12) 0 1 H1 H2 H3)
    as (Hpx & _ & Hhi).
  split; [exact Hpx|]. apply Hhi. lia.
Defined.

Lemma LocateBitmapImpl_rejects_witness :
  @None (Z -> Z) = None /\
  exists message,
    message <> ""%string /\
    @LocateBitmapImpl Example.ext (2 ^ 64 - 1) None 5 5 20 (Example.config true)
      (ApiExample.out (Some ApiExample.buffer)) 2 64 =
    (CHROMA_STATUS_INVALID_ARGUMENT,
     {| outPoints := Some ApiExample.buffer;
        outTotalFound := Some 0;
        outWritten := Some 0;
        outError := WriteErrorMessage (Some "earlier"%string) 64 message |}).
Proof.
  assert (H : @None (Z -> Z) = None) by reflexivity.
  split; [exact H|].
  exact (@LocateBitmapImpl_rejects Example.ext (2 ^ 64 - 1) None 5 5 20
           (Example.config true) (ApiExample.out (Some ApiExample.buffer)) 2 64
           (or_introl H)).
Defined.

Lemma LocateBitmapImpl_locates_witness :
  0 < 5 /\ 20 <> 0 /\ 5 * 4 <= Z.abs 20 /\
  (1 < 5 -> Z.abs 20 * (5 - 1) <= 2 ^ 64 - 1) /\ 0 <= 2 /\
  (0 < 2 -> outPoints (ApiExample.out (Some ApiExample.buffer)) <> None) /\
  @LocateBitmapImpl Example.ext (2 ^ 64 - 1) (Some ApiExample.pixels) 5 5 20
    (Example.config true) (ApiExample.out (Some ApiExample.buffer)) 2 64 =
  (CHROMA_STATUS_OK,
   {| outPoints := Some [ApiExample.point 2 2; ApiExample.point 0 0];
      outTotalFound := Some 1; outWritten := Some 1; outError := Some ""%string |}).
Proof.
  assert (H1 : 0 < 5) by lia.
  assert (H2 : 20 <> 0) by lia.
  assert (H3 : 5 * 4 <= Z.abs 20) by (simpl; lia).
  assert (H4 : 1 < 5 -> Z.abs 20 * (5 - 1) <= 2 ^ 64 - 1) by (intros _; simpl; lia).
  assert (H5 : 0 <= 2) by lia.
  assert (H6 : 0 < 2 -> outPoints (ApiExample.out (Some ApiExample.buffer)) <> None)
    by (intros _; discriminate).
  repeat (split; [assumption|]).
  destruct (@LocateBitmapImpl_locates Example.ext (2 ^ 64 - 1) ApiExample.pixels 5 5 20
              (Example.config true) (ApiExample.out (Some ApiExample.buffer)) 2 64
              H1 H1 H2 H3 H4 H5 H6) as (r & Hr & ->).
  assert (Hf : @Find Example.ext (Example.config true)
                 (Scene_bgra (LocateBitmap_scene ApiExample.pixels 5 5 20))
               = Returns ApiExample.located) by example_returns.
  rewrite Hf in Hr. injection Hr as <-. vm_compute. reflexivity.
Defined.
